(** * go-dig: the DNS query pipeline and its error classifier

    A shallow embedding of the two Go packages that make up the core of
    go-dig, [pkg/errors] (typed errors, input validation, classification of
    transport failures) and [pkg/dns] (the [Query] method of the resolver
    client), and of what stands around them, [cmd] (the command line),
    [pkg/output] (the formatter) and the exit code of [main], followed by
    the properties of the pipeline.

    Go strings are byte sequences and are modelled by [string] (a list of
    8-bit [ascii] values); [len] is [String.length].  Runes and other Go
    integers are modelled in [Z].  A Go [error] interface value is
    [option error], [None] being [nil]. *)

From Stdlib Require Import ZArith Ascii String List Lia Bool DecimalString.
From stdpp Require Import base option list strings gmap.

Local Open Scope Z_scope.

(** ** The Go standard library, as far as the two packages use it *)

(** What the model leaves abstract in the libraries: the Unicode slow path
    of [strings.ToUpper] and [strings.ToLower] (taken when the argument has
    a byte outside ASCII; [unicode.Map] below is what the library has
    there, up to the case tables), the textual form of a [net.IP], and
    [dns.Fqdn] of the resolver library. *)
Record GoLib := {
  unicodeToUpper : string → string;
  unicodeToLower : string → string;
  IPString : list Z → string;
  Fqdn : string → string
}.

Module strings.

Definition byte_val (c : ascii) : Z := Z.of_N (N_of_ascii c).
Definition byte_of (z : Z) : ascii := ascii_of_N (Z.to_N z).

(** [s[i]], read as 0 out of range (every use is guarded by a length test). *)
Definition at_ (s : string) (i : nat) : Z :=
  match String.get i s with Some c => byte_val c | None => 0 end.

(** [s[n:]] *)
Fixpoint drop_bytes (n : nat) (s : string) : string :=
  match n, s with
  | O, _ => s
  | S k, String _ t => drop_bytes k t
  | S _, EmptyString => EmptyString
  end.

Definition HasPrefix (s prefix : string) : bool := String.prefix prefix s.

Definition HasSuffix (s suffix : string) : bool :=
  (String.length suffix <=? String.length s)%nat
  && String.eqb
       (String.substring (String.length s - String.length suffix)
          (String.length suffix) s)
       suffix.

(** [Contains(s, substr)]: [substr] occurs at some byte offset of [s]. *)
Fixpoint Contains (s substr : string) : bool :=
  String.prefix substr s
  || match s with
     | EmptyString => false
     | String _ t => Contains t substr
     end.

(** [Split(s, sep)] for a non-empty separator: cut at every
    non-overlapping occurrence of [sep], scanning from the left.  [skip]
    counts the bytes of a separator still to be passed over, [cur] is the
    piece being accumulated. *)
Fixpoint splitFrom (sep : string) (skip : nat) (cur : string) (s : string)
  : list string :=
  match s with
  | EmptyString => [cur]
  | String c t =>
      match skip with
      | S k => splitFrom sep k cur t
      | O =>
          if String.prefix sep s
          then cur :: splitFrom sep (String.length sep - 1) EmptyString t
          else splitFrom sep 0 (cur +:+ String c EmptyString) t
      end
  end.

Definition Split (s sep : string) : list string := splitFrom sep 0 EmptyString s.

Definition Join (elems : list string) (sep : string) : string :=
  String.concat sep elems.

Definition isASCII (s : string) : bool :=
  forallb (fun c => byte_val c <? 0x80) (list_ascii_of_string s).

Definition upperByte (c : ascii) : ascii :=
  let b := byte_val c in
  if (byte_val "a" <=? b) && (b <=? byte_val "z")
  then byte_of (b - (byte_val "a" - byte_val "A")) else c.

Definition lowerByte (c : ascii) : ascii :=
  let b := byte_val c in
  if (byte_val "A" <=? b) && (b <=? byte_val "Z")
  then byte_of (b + (byte_val "a" - byte_val "A")) else c.

Fixpoint mapBytes (f : ascii → ascii) (s : string) : string :=
  match s with
  | EmptyString => EmptyString
  | String c t => String (f c) (mapBytes f t)
  end.

(** [ToUpper]/[ToLower]: byte-wise on an ASCII-only argument, otherwise the
    Unicode mapping of the library. *)
Definition ToUpper (lib : GoLib) (s : string) : string :=
  if isASCII s then mapBytes upperByte s else unicodeToUpper lib s.

Definition ToLower (lib : GoLib) (s : string) : string :=
  if isASCII s then mapBytes lowerByte s else unicodeToLower lib s.

(** The last byte of [s], if any (used to state facts about [HasSuffix]). *)
Fixpoint lastByte (s : string) : option ascii :=
  match s with
  | EmptyString => None
  | String c t => match lastByte t with None => Some c | Some x => Some x end
  end.

(** The verb [%d] of [fmt] on an integer. *)
Definition itoa (n : Z) : string := NilZero.string_of_int (Z.to_int n).


(** The bytes that cannot be written inside a string literal here. *)
Definition quote : ascii := ascii_of_N 34.
Definition backslash : ascii := ascii_of_N 92.
Definition newline : string := String (ascii_of_N 10) EmptyString.
Definition tab : string := String (ascii_of_N 9) EmptyString.

(** [TrimSuffix(s, suffix)] *)
Definition TrimSuffix (s suffix : string) : string :=
  if HasSuffix s suffix
  then String.substring 0 (String.length s - String.length suffix) s
  else s.

(** [ContainsAny(s, chars)] for [chars] made of ASCII bytes: a byte of [s]
    is one of them (an ASCII byte is a rune of its own wherever it stands). *)
Definition ContainsAny (s chars : string) : bool :=
  existsb (fun c => existsb (Ascii.eqb c) (list_ascii_of_string chars))
    (list_ascii_of_string s).

(** [ReplaceAll(s, old, new)] for a non-empty [old]: every non-overlapping
    occurrence of [old], scanning from the left, becomes [new].  [skip]
    counts the bytes of an occurrence still to be passed over. *)
Fixpoint replaceFrom (old new : string) (skip : nat) (s : string) : string :=
  match s with
  | EmptyString => EmptyString
  | String c t =>
      match skip with
      | S k => replaceFrom old new k t
      | O =>
          if String.prefix old s
          then new +:+ replaceFrom old new (String.length old - 1) t
          else String c (replaceFrom old new 0 t)
      end
  end.

Definition ReplaceAll (s old new : string) : string := replaceFrom old new 0 s.

(** [Repeat(s, count)] *)
Fixpoint Repeat (s : string) (count : nat) : string :=
  match count with
  | O => EmptyString
  | S k => s +:+ Repeat s k
  end.

End strings.

(** [unicode/utf8] and the [for i, r := range s] loop over a string. *)
Module utf8.

Import strings.

Definition RuneError : Z := 0xFFFD.
Definition MaxRune : Z := 0x10FFFF.

(** [DecodeRuneInString]: the first code point of [s] and its width in
    bytes; an invalid or truncated encoding gives [(RuneError, 1)]. *)
Definition DecodeRuneInString (s : string) : Z * nat :=
  let n := String.length s in
  if (n <? 1)%nat then (RuneError, 0%nat)
  else
    let s0 := at_ s 0 in
    if s0 <? 0x80 then (s0, 1%nat)
    else if (s0 <? 0xC2) || (0xF4 <? s0) then (RuneError, 1%nat)
    else
      let sz : nat := if s0 <? 0xE0 then 2%nat else if s0 <? 0xF0 then 3%nat else 4%nat in
      let lo := if s0 =? 0xE0 then 0xA0 else if s0 =? 0xF0 then 0x90 else 0x80 in
      let hi := if s0 =? 0xED then 0x9F else if s0 =? 0xF4 then 0x8F else 0xBF in
      if (n <? sz)%nat then (RuneError, 1%nat)
      else
        let s1 := at_ s 1 in
        if (s1 <? lo) || (hi <? s1) then (RuneError, 1%nat)
        else if (sz <=? 2)%nat
        then (Z.lor (Z.shiftl (Z.land s0 0x1F) 6) (Z.land s1 0x3F), 2%nat)
        else
          let s2 := at_ s 2 in
          if (s2 <? 0x80) || (0xBF <? s2) then (RuneError, 1%nat)
          else if (sz <=? 3)%nat
          then (Z.lor (Z.lor (Z.shiftl (Z.land s0 0x0F) 12)
                             (Z.shiftl (Z.land s1 0x3F) 6))
                      (Z.land s2 0x3F), 3%nat)
          else
            let s3 := at_ s 3 in
            if (s3 <? 0x80) || (0xBF <? s3) then (RuneError, 1%nat)
            else (Z.lor (Z.lor (Z.lor (Z.shiftl (Z.land s0 0x07) 18)
                                      (Z.shiftl (Z.land s1 0x3F) 12))
                               (Z.shiftl (Z.land s2 0x3F) 6))
                        (Z.land s3 0x3F), 4%nat).

(** The pairs (byte index, rune) that [for i, r := range s] goes through.
    Every step consumes at least one byte, so [String.length s] steps are
    enough. *)
Fixpoint rangeFrom (fuel : nat) (i : nat) (s : string) : list (nat * Z) :=
  match fuel with
  | O => []
  | S fuel' =>
      match s with
      | EmptyString => []
      | String _ _ =>
          let '(r, size) := DecodeRuneInString s in
          (i, r) :: rangeFrom fuel' (i + size)%nat (drop_bytes size s)
      end
  end.

Definition range (s : string) : list (nat * Z) := rangeFrom (String.length s) 0 s.

(** The verb [%c] of [fmt]: the UTF-8 encoding of a rune ([AppendRune]). *)
Definition EncodeRune (r : Z) : string :=
  let tx := 0x80 in
  let cont (v : Z) := byte_of (Z.lor tx (Z.land v 0x3F)) in
  let three (r : Z) :=
    String (byte_of (Z.lor 0xE0 (Z.shiftr r 12)))
      (String (cont (Z.shiftr r 6)) (String (cont r) EmptyString)) in
  if (0 <=? r) && (r <=? 0x7F) then String (byte_of r) EmptyString
  else if (0 <=? r) && (r <=? 0x7FF)
  then String (byte_of (Z.lor 0xC0 (Z.shiftr r 6))) (String (cont r) EmptyString)
  else if (r <? 0) || (MaxRune <? r) || ((0xD800 <=? r) && (r <=? 0xDFFF))
  then three RuneError
  else if r <=? 0xFFFF then three r
  else
    String (byte_of (Z.lor 0xF0 (Z.shiftr r 18)))
      (String (cont (Z.shiftr r 12))
         (String (cont (Z.shiftr r 6)) (String (cont r) EmptyString))).


(** [RuneCountInString]: the number of steps of the loop over the runes. *)
Definition RuneCountInString (s : string) : nat := length (range s).

End utf8.

(** [unicode.ToLower], [unicode.ToUpper] and [strings.Map] (here, since it
    decodes): what [strings.ToLower] and [strings.ToUpper] do with a string
    that has a byte outside ASCII.  The case tables beyond ASCII are a
    parameter. *)
Module unicode.

Import strings.

Definition MaxASCII : Z := 0x7F.

Definition ToLower (table : Z → Z) (r : Z) : Z :=
  if r <=? MaxASCII then
    if (byte_val "A" <=? r) && (r <=? byte_val "Z")
    then r + (byte_val "a" - byte_val "A") else r
  else table r.

Definition ToUpper (table : Z → Z) (r : Z) : Z :=
  if r <=? MaxASCII then
    if (byte_val "a" <=? r) && (r <=? byte_val "z")
    then r - (byte_val "a" - byte_val "A") else r
  else table r.

(** [strings.Map(mapping, s)]: the runes of [s], an invalid byte being
    [RuneError], each replaced by the encoding of its image; a negative
    image is dropped. *)
Definition Map (mapping : Z → Z) (s : string) : string :=
  String.concat EmptyString
    (map (fun ir : nat * Z =>
            let r := mapping (snd ir) in
            if 0 <=? r then utf8.EncodeRune r else EmptyString)
       (utf8.range s)).

End unicode.


(** Package [net]: IP literals and host:port splitting, after the parser
    of [net/netip] that [net.ParseIP] calls and after [net.SplitHostPort].
    A [net.IP] is its list of bytes. *)
Module net.

Import strings.

Definition IP := list Z.

Definition IPv4len : nat := 4.
Definition IPv6len : nat := 16.
Definition v4InV6Prefix : IP := [0; 0; 0; 0; 0; 0; 0; 0; 0; 0; 0xff; 0xff].

(** [net.IPv4(a, b, c, d)]: the 16-byte form of an IPv4 address. *)
Definition IPv4 (a b c d : Z) : IP := v4InV6Prefix ++ [a; b; c; d].
Definition IPv6loopback : IP := [0; 0; 0; 0; 0; 0; 0; 0; 0; 0; 0; 0; 0; 0; 0; 1].
Definition IPv6unspecified : IP := replicate 16 0.

Definition bytesEqual (x y : IP) : bool := bool_decide (x = y).

Definition To4 (ip : IP) : option IP :=
  if (length ip =? IPv4len)%nat then Some ip
  else if (length ip =? IPv6len)%nat
          && forallb (Z.eqb 0) (take 10 ip)
          && (nth 10 ip 0 =? 0xff) && (nth 11 ip 0 =? 0xff)
  then Some (take 4 (drop 12 ip))
  else None.

Definition Equal (ip x : IP) : bool :=
  if (length ip =? length x)%nat then bytesEqual ip x
  else if (length ip =? IPv4len)%nat && (length x =? IPv6len)%nat
  then bytesEqual (take 12 x) v4InV6Prefix && bytesEqual ip (drop 12 x)
  else if (length ip =? IPv6len)%nat && (length x =? IPv4len)%nat
  then bytesEqual (take 12 ip) v4InV6Prefix && bytesEqual (drop 12 ip) x
  else false.

Definition IsLoopback (ip : IP) : bool :=
  match To4 ip with
  | Some ip4 => nth 0 ip4 0 =? 127
  | None => Equal ip IPv6loopback
  end.

Definition isDigit (b : Z) : bool := (byte_val "0" <=? b) && (b <=? byte_val "9").

(** The four dotted-decimal fields of an IPv4 literal.  [i] is the index
    of the byte at hand, [len] the length of the literal, [prev] the byte
    before ([s[i-1]]). *)
Fixpoint parseIPv4Fields_from (s : string) (i len : nat) (prev : Z)
    (val : Z) (pos digLen : nat) (fields : list Z) : option (list Z) :=
  match s with
  | EmptyString => if (pos <? 3)%nat then None else Some (fields ++ [val])
  | String c t =>
      let b := byte_val c in
      if isDigit b then
        if (digLen =? 1)%nat && (val =? 0) then None
        else
          let val' := val * 10 + b - byte_val "0" in
          if 255 <? val' then None
          else parseIPv4Fields_from t (S i) len b val' pos (S digLen) fields
      else if b =? byte_val "." then
        if (i =? 0)%nat || (i =? len - 1)%nat || (prev =? byte_val ".") then None
        else if (pos =? 3)%nat then None
        else parseIPv4Fields_from t (S i) len b 0 (S pos) 0%nat (fields ++ [val])
      else None
  end.

Definition parseIPv4Fields (s : string) : option (list Z) :=
  parseIPv4Fields_from s 0 (String.length s) 0 0 0 0 [].

Definition parseIPv4 (s : string) : option IP :=
  match parseIPv4Fields s with
  | Some [a; b; c; d] => Some (IPv4 a b c d)
  | _ => None
  end.

Definition hexValue (b : Z) : option Z :=
  if isDigit b then Some (b - byte_val "0")
  else if (byte_val "a" <=? b) && (b <=? byte_val "f") then Some (b - byte_val "a" + 10)
  else if (byte_val "A" <=? b) && (b <=? byte_val "F") then Some (b - byte_val "A" + 10)
  else None.

(** One group of hexadecimal digits: the number of digits read, their
    value and the rest of the string; [None] for a fifth digit. *)
Fixpoint hexGroup (s : string) (off : nat) (acc : Z) : option (nat * Z * string) :=
  match s with
  | EmptyString => Some (off, acc, s)
  | String c t =>
      match hexValue (byte_val c) with
      | Some d =>
          let acc' := Z.shiftl acc 4 + d in
          if (3 <? off)%nat then None
          else if 0xFFFF <? acc' then None
          else hexGroup t (S off) acc'
      | None => Some (off, acc, s)
      end
  end.

(** The loop [for i < 16] of the IPv6 parser; [i] is [length ip].  It
    yields the unread rest of the string, the bytes stored and the
    position of the ellipsis. *)
Fixpoint parseIPv6_groups (fuel : nat) (s : string) (ip : list Z)
    (ellipsis : option nat) : option (string * list Z * option nat) :=
  match fuel with
  | O => Some (s, ip, ellipsis)
  | S fuel' =>
      let i := length ip in
      if (16 <=? i)%nat then Some (s, ip, ellipsis)
      else
        match hexGroup s 0 0 with
        | None => None
        | Some (off, acc, rest) =>
            if (off =? 0)%nat then None
            else if HasPrefix rest "." then
              if bool_decide (ellipsis = None) && negb (i =? 12)%nat then None
              else if (16 <? i + 4)%nat then None
              else
                match parseIPv4Fields s with
                | None => None
                | Some f4 => Some (EmptyString, ip ++ f4, ellipsis)
                end
            else
              let ip' := ip ++ [Z.shiftr acc 8; Z.land acc 0xFF] in
              match rest with
              | EmptyString => Some (EmptyString, ip', ellipsis)
              | String c0 s1 =>
                  if negb (byte_val c0 =? byte_val ":") then None
                  else
                    match s1 with
                    | EmptyString => None
                    | String c1 s2 =>
                        if byte_val c1 =? byte_val ":" then
                          match ellipsis with
                          | Some _ => None
                          | None =>
                              match s2 with
                              | EmptyString => Some (EmptyString, ip', Some (length ip'))
                              | String _ _ =>
                                  parseIPv6_groups fuel' s2 ip' (Some (length ip'))
                              end
                          end
                        else parseIPv6_groups fuel' s1 ip' ellipsis
                    end
              end
        end
  end.

(** [s[:i]] and [s[i+1:]] around the first occurrence of byte [c]. *)
Fixpoint cutByte (c : ascii) (s : string) : option (string * string) :=
  match s with
  | EmptyString => None
  | String x t =>
      if Ascii.eqb x c then Some (EmptyString, t)
      else match cutByte c t with
           | Some (a, b) => Some (String x a, b)
           | None => None
           end
  end.

(** An IPv6 literal with its zone. *)
Definition parseIPv6 (inp : string) : option (IP * string) :=
  match
    match cutByte "%" inp with
    | Some (s, zone) => if String.eqb zone EmptyString then None else Some (s, zone)
    | None => Some (inp, EmptyString)
    end
  with
  | None => None
  | Some (s, zone) =>
      let '(ellipsis, s) :=
        if HasPrefix s "::" then (Some 0%nat, drop_bytes 2 s) else (None, s) in
      if bool_decide (ellipsis = Some 0%nat) && (String.length s =? 0)%nat
      then Some (IPv6unspecified, zone)
      else
        match parseIPv6_groups 8 s [] ellipsis with
        | None => None
        | Some (rest, ip, ellipsis) =>
            if negb (String.length rest =? 0)%nat then None
            else
              let i := length ip in
              if (i <? 16)%nat then
                match ellipsis with
                | None => None
                | Some e => Some (take e ip ++ replicate (16 - i) 0 ++ drop e ip, zone)
                end
              else
                match ellipsis with
                | Some _ => None
                | None => Some (ip, zone)
                end
        end
  end.

(** [netip.ParseAddr]: the first of '.', ':' and '%' decides the family. *)
Fixpoint ParseAddr_scan (whole s : string) : option (IP * string) :=
  match s with
  | EmptyString => None
  | String c t =>
      if Ascii.eqb c "." then
        match parseIPv4 whole with Some ip => Some (ip, EmptyString) | None => None end
      else if Ascii.eqb c ":" then parseIPv6 whole
      else if Ascii.eqb c "%" then None
      else ParseAddr_scan whole t
  end.

Definition ParseAddr (s : string) : option (IP * string) := ParseAddr_scan s s.

(** [net.ParseIP]: the 16-byte form of a literal without zone, [None] for [nil]. *)
Definition ParseIP (s : string) : option IP :=
  match ParseAddr s with
  | Some (ip, zone) => if String.eqb zone EmptyString then Some ip else None
  | None => None
  end.

Fixpoint IndexByteString_from (s : string) (c : ascii) (i : Z) : Z :=
  match s with
  | EmptyString => -1
  | String x t => if Ascii.eqb x c then i else IndexByteString_from t c (i + 1)
  end.

Definition IndexByteString (s : string) (c : ascii) : Z := IndexByteString_from s c 0.

Fixpoint LastIndexByteString_from (s : string) (c : ascii) (i : Z) (last : Z) : Z :=
  match s with
  | EmptyString => last
  | String x t =>
      LastIndexByteString_from t c (i + 1) (if Ascii.eqb x c then i else last)
  end.

Definition LastIndexByteString (s : string) (c : ascii) : Z :=
  LastIndexByteString_from s c 0 (-1).

(** [s[lo:hi]] *)
Definition slice (s : string) (lo hi : Z) : string :=
  String.substring (Z.to_nat lo) (Z.to_nat (hi - lo)) s.

Definition len (s : string) : Z := Z.of_nat (String.length s).

(** The text of an [*AddrError]. *)
Definition addrErr (addr why : string) : string :=
  if String.eqb addr EmptyString then why else "address " +:+ addr +:+ ": " +:+ why.

(** [net.SplitHostPort]: host and port, or the text of the error. *)
Definition SplitHostPort (hostport : string) : (string * string) + string :=
  let missingPort := "missing port in address" in
  let tooManyColons := "too many colons in address" in
  let i := LastIndexByteString hostport ":" in
  if i <? 0 then inr (addrErr hostport missingPort)
  else
    let bracket :=
      if at_ hostport 0 =? byte_val "[" then
        let end_ := IndexByteString hostport "]" in
        if end_ <? 0 then inr (addrErr hostport "missing ']' in address")
        else if end_ + 1 =? len hostport then inr (addrErr hostport missingPort)
        else if end_ + 1 =? i then inl (slice hostport 1 end_, 1, end_ + 1)
        else if at_ hostport (Z.to_nat (end_ + 1)) =? byte_val ":"
        then inr (addrErr hostport tooManyColons)
        else inr (addrErr hostport missingPort)
      else
        let host := slice hostport 0 i in
        if 0 <=? IndexByteString host ":" then inr (addrErr hostport tooManyColons)
        else inl (host, 0, 0)
    in
    match bracket with
    | inr e => inr e
    | inl (host, j, k) =>
        if 0 <=? IndexByteString (slice hostport j (len hostport)) "["
        then inr (addrErr hostport "unexpected '[' in address")
        else if 0 <=? IndexByteString (slice hostport k (len hostport)) "]"
        then inr (addrErr hostport "unexpected ']' in address")
        else inl (host, slice hostport (i + 1) (len hostport))
    end.

(** The bytes an IP literal is made of: hexadecimal digits, colons and
    dots (used to state what [ParseIP] accepts). *)
Definition ipByte (c : ascii) : bool :=
  bool_decide (is_Some (hexValue (byte_val c))) || Ascii.eqb c ":" || Ascii.eqb c ".".

Fixpoint ipBytes (s : string) : bool :=
  match s with
  | EmptyString => true
  | String c t => ipByte c && ipBytes t
  end.

End net.

(** ** Package [errors]: typed errors, validation, classification *)
Module errors.

Import strings.

(** The four constants of [ErrorType]; the packages build no other value
    of the type. *)
Inductive ErrorType := ErrorTypeInput | ErrorTypeNetwork | ErrorTypeDNS | ErrorTypeSystem.

#[global] Instance ErrorType_eq_dec : EqDecision ErrorType.
Proof. solve_decision. Defined.

Definition ErrorType_String (et : ErrorType) : string :=
  match et with
  | ErrorTypeInput => "Input"
  | ErrorTypeNetwork => "Network"
  | ErrorTypeDNS => "DNS"
  | ErrorTypeSystem => "System"
  end.

(** The struct [DigError]; [E] is the type of the wrapped cause.  The Go
    field [Type] is [ErrType] here. *)
Record DigError_ (E : Type) := mkDigError {
  ErrType : ErrorType;
  Message : string;
  Cause : option E;
  Domain : string;
  Server : string
}.
Arguments mkDigError {E}.
Arguments ErrType {E}.
Arguments Message {E}.
Arguments Cause {E}.
Arguments Domain {E}.
Arguments Server {E}.

(** The values of the interface [error] that reach these packages: a
    [*DigError], or an error made elsewhere ([fmt.Errorf], [*net.AddrError],
    a transport failure), of which only the text is observed. *)
#[warnings="-register-all"] Inductive error :=
| ForeignError (text : string)
| ADigError (de : DigError_ error).

Definition DigError := DigError_ error.

(** The method [Error()] of either kind of value. *)
Fixpoint Error (e : error) : string :=
  match e with
  | ForeignError text => text
  | ADigError de =>
      match Cause de with
      | Some cause =>
          ErrorType_String (ErrType de) +:+ " error: " +:+ Message de
          +:+ " (caused by: " +:+ Error cause +:+ ")"
      | None => ErrorType_String (ErrType de) +:+ " error: " +:+ Message de
      end
  end.

Definition Unwrap (de : DigError) : option error := Cause de.

Definition NewInputError (message : string) (cause : option error) : DigError :=
  mkDigError ErrorTypeInput message cause EmptyString EmptyString.

Definition NewNetworkError (message : string) (cause : option error) (server : string)
  : DigError :=
  mkDigError ErrorTypeNetwork message cause EmptyString server.

Definition NewDNSError (message : string) (cause : option error) (domain server : string)
  : DigError :=
  mkDigError ErrorTypeDNS message cause domain server.

Definition NewSystemError (message : string) (cause : option error) : DigError :=
  mkDigError ErrorTypeSystem message cause EmptyString EmptyString.

Definition hasType (t : ErrorType) (err : option error) : bool :=
  match err with
  | Some (ADigError digErr) => bool_decide (ErrType digErr = t)
  | _ => false
  end.

Definition IsInputError := hasType ErrorTypeInput.
Definition IsNetworkError := hasType ErrorTypeNetwork.
Definition IsDNSError := hasType ErrorTypeDNS.
Definition IsSystemError := hasType ErrorTypeSystem.

(** [ClassifyNetworkError]: [None] for a nil argument. *)
Definition ClassifyNetworkError (lib : GoLib) (err : option error) (server : string)
  : option DigError :=
  match err with
  | None => None
  | Some e =>
      let errStr := ToLower lib (Error e) in
      if Contains errStr "timeout" || Contains errStr "deadline exceeded"
      then Some (NewNetworkError "DNS server timeout - server may be unreachable or overloaded" err server)
      else if Contains errStr "connection refused"
      then Some (NewNetworkError "DNS server refused connection - server may be down or not accepting queries" err server)
      else if Contains errStr "no such host"
      then Some (NewNetworkError "DNS server hostname could not be resolved" err server)
      else if Contains errStr "network unreachable"
      then Some (NewNetworkError "Network unreachable - check your internet connection" err server)
      else if Contains errStr "permission denied"
      then Some (NewNetworkError "Permission denied - may need elevated privileges" err server)
      else Some (NewNetworkError "Network error occurred while contacting DNS server" err server)
  end.

(** [return NewInputError(message, nil)] from a function whose result is
    an [error]. *)
Definition inputError (message : string) : option error :=
  Some (ADigError (NewInputError message None)).

Definition allowedDomainRune (r : Z) : bool :=
  ((byte_val "a" <=? r) && (r <=? byte_val "z"))
  || ((byte_val "A" <=? r) && (r <=? byte_val "Z"))
  || ((byte_val "0" <=? r) && (r <=? byte_val "9"))
  || (r =? byte_val ".") || (r =? byte_val "-") || (r =? byte_val "_").

(** The loop over the runes of the domain: the first one outside the
    allowed set is reported with its 1-based byte position. *)
Fixpoint checkDomainRunes (rs : list (nat * Z)) : option error :=
  match rs with
  | [] => None
  | (i, r) :: rest =>
      if negb (allowedDomainRune r)
      then inputError ("domain contains invalid character '" +:+ utf8.EncodeRune r
                       +:+ "' at position " +:+ itoa (Z.of_nat i + 1))
      else checkDomainRunes rest
  end.

(** [allNumeric] of the last label: no rune outside '0'..'9'. *)
Definition allNumeric (label : string) : bool :=
  forallb (fun ir => negb ((snd ir <? byte_val "0") || (byte_val "9" <? snd ir)))
          (utf8.range label).

(** The loop over the labels; [i] is the index of the head of [rest],
    [n] is [len(labels)]. *)
Fixpoint checkLabels (n : nat) (i : nat) (rest : list string) : option error :=
  match rest with
  | [] => None
  | label :: rest' =>
      if (String.length label =? 0)%nat
      then inputError "domain cannot have empty labels"
      else if (63 <? String.length label)%nat
      then inputError ("domain label '" +:+ label +:+ "' too long ("
                       +:+ itoa (Z.of_nat (String.length label)) +:+ " characters, max 63)")
      else if HasPrefix label "-" || HasSuffix label "-"
      then inputError ("domain label '" +:+ label +:+ "' cannot start or end with hyphen")
      else if HasSuffix label "_"
      then inputError ("domain label '" +:+ label +:+ "' cannot end with underscore")
      else if (i =? n - 1)%nat && allNumeric label
      then inputError "top-level domain cannot be all numeric"
      else checkLabels n (S i) rest'
  end.

Definition ValidateDomain (domain : string) : option error :=
  if String.eqb domain EmptyString
  then inputError "domain name cannot be empty"
  else if (253 <? String.length domain)%nat
  then inputError ("domain name too long (" +:+ itoa (Z.of_nat (String.length domain))
                   +:+ " characters, max 253)")
  else
    match checkDomainRunes (utf8.range domain) with
    | Some err => Some err
    | None =>
        if Contains domain ".."
        then inputError "domain cannot contain consecutive dots"
        else if HasPrefix domain "." || HasSuffix domain "."
        then inputError "domain cannot start or end with a dot"
        else if HasPrefix domain "-" || HasSuffix domain "-"
        then inputError "domain cannot start or end with a hyphen"
        else if HasSuffix domain "_"
        then inputError "domain cannot end with an underscore"
        else
          let labels := Split domain "." in
          checkLabels (length labels) 0 labels
    end.

Definition ValidateDNSServer (server : string) : option error :=
  if String.eqb server EmptyString
  then inputError "DNS server cannot be empty"
  else
    match net.ParseIP server with
    | None => inputError ("'" +:+ server +:+ "' is not a valid IP address")
    | Some ip =>
        if net.IsLoopback ip
           && negb (net.Equal ip (net.IPv4 127 0 0 1))
           && negb (net.Equal ip net.IPv6loopback)
        then inputError "loopback addresses other than 127.0.0.1 or ::1 are not recommended for DNS"
        else None
    end.

(** The set of supported types, a Go [map[string]bool]; a missing key
    reads as [false]. *)
Definition validTypes : gmap string bool :=
  <["A" := true]> (<["AAAA" := true]> (<["MX" := true]>
    (<["CNAME" := true]> (<["TXT" := true]> ∅)))).

Definition ValidateRecordType (lib : GoLib) (recordType : string) : option error :=
  if String.eqb recordType EmptyString
  then inputError "record type cannot be empty"
  else
    let recordType := ToUpper lib recordType in
    if negb (default false (validTypes !! recordType))
    then inputError ("unsupported record type '" +:+ recordType
                     +:+ "' (supported: A, AAAA, MX, CNAME, TXT)")
    else None.

(** The loop of [ValidateDNSPort] over the runes of the port: the number
    read, or the error the loop returns with. *)
Fixpoint portDigits (port : string) (rs : list (nat * Z)) (portNum : Z)
  : option error + Z :=
  match rs with
  | [] => inr portNum
  | (_, r) :: rest =>
      if (r <? byte_val "0") || (byte_val "9" <? r)
      then inl (inputError ("DNS server port '" +:+ port +:+ "' must be numeric"))
      else
        let portNum := portNum * 10 + (r - byte_val "0") in
        if 65535 <? portNum
        then inl (inputError ("DNS server port '" +:+ port +:+ "' is out of range (1-65535)"))
        else portDigits port rest portNum
  end.

Definition ValidateDNSPort (port : string) : option error :=
  if String.eqb port EmptyString
  then inputError "DNS server port cannot be empty"
  else
    match portDigits port (utf8.range port) 0 with
    | inl err => err
    | inr portNum =>
        if (portNum <? 1) || (65535 <? portNum)
        then inputError ("DNS server port '" +:+ port +:+ "' is out of range (1-65535)")
        else None
    end.

End errors.

(** ** Package [dns]: the resolver client *)
Module dns.

Import strings.

(** *** The resolver library ([github.com/miekg/dns]) *)

Definition TypeA : Z := 1.
Definition TypeCNAME : Z := 5.
Definition TypeMX : Z := 15.
Definition TypeTXT : Z := 16.
Definition TypeAAAA : Z := 28.
Definition ClassINET : Z := 1.

Definition RcodeSuccess : Z := 0.
Definition RcodeFormatError : Z := 1.
Definition RcodeServerFailure : Z := 2.
Definition RcodeNameError : Z := 3.
Definition RcodeNotImplemented : Z := 4.
Definition RcodeRefused : Z := 5.

(** A resource record, by its Go type: the five types the client
    extracts, and any other type. *)
Inductive RR :=
| RR_A (A : net.IP)
| RR_AAAA (AAAA : net.IP)
| RR_MX (Preference : Z) (Mx : string)
| RR_CNAME (Target : string)
| RR_TXT (Txt : list string)
| RR_other (Rrtype : Z).

Record Question := mkQuestion { Name : string; Qtype : Z; Qclass : Z }.

Record Msg := mkMsg {
  RecursionDesired : bool;
  Rcode : Z;
  Questions : list Question;
  Answer : list RR
}.

(** [new(dns.Msg)] followed by [SetQuestion(name, t)]. *)
Definition SetQuestion (name : string) (t : Z) : Msg :=
  mkMsg true RcodeSuccess [mkQuestion name t ClassINET] [].

(** What one call of [dnsClient.Exchange] gives back, and the time the call
    took. *)
Record ExchangeResult := mkExchangeResult {
  response : option Msg;
  rtt : Z;
  err : option errors.error;
  took : Z
}.

(** The world around the client: the operating system, the resolver
    configuration files ([dns.ClientConfigFromFile] gives the [Servers] of
    the configuration or an error), the network answering an exchange
    (timeout, message, address), the clock, and the exchanges performed so
    far. *)
Record World := mkWorld {
  GOOS : string;
  ClientConfigFromFile : string → list string + errors.error;
  network : Z → Msg → string → ExchangeResult;
  now : Z;
  exchanged : list (Msg * string)
}.

(** [dnsClient.Exchange(msg, server)]: the network answers, the exchange is
    recorded and the clock advances. *)
Definition Exchange (timeout : Z) (msg : Msg) (server : string) (w : World)
  : ExchangeResult * World :=
  let r := network w timeout msg server in
  (r, mkWorld (GOOS w) (ClientConfigFromFile w) (network w) (now w + took r)
        (exchanged w ++ [(msg, server)])).

(** *** The client *)

Record Result := mkResult {
  Domain : string;
  RecordType : string;
  Records : list string;
  Server : string;
  QueryTime : Z;
  Error : option errors.error
}.

Definition setError (e : option errors.error) (r : Result) : Result :=
  mkResult (Domain r) (RecordType r) (Records r) (Server r) (QueryTime r) e.
Definition setServer (s : string) (r : Result) : Result :=
  mkResult (Domain r) (RecordType r) (Records r) s (QueryTime r) (Error r).
Definition setQueryTime (t : Z) (r : Result) : Result :=
  mkResult (Domain r) (RecordType r) (Records r) (Server r) t (Error r).
Definition setRecords (l : list string) (r : Result) : Result :=
  mkResult (Domain r) (RecordType r) l (Server r) (QueryTime r) (Error r).

Record client := mkClient { timeout : Z }.

Definition Second : Z := 1000000000.

Definition NewClient : client := mkClient (5 * Second).

Definition SetTimeout (c : client) (duration : Z) : client := mkClient duration.

Definition getWindowsDNS (w : World) : string * option errors.error :=
  match ClientConfigFromFile w EmptyString with
  | inl (server0 :: _) => (server0 +:+ ":53", None)
  | _ => (EmptyString,
          Some (errors.ForeignError "could not determine Windows DNS server configuration"))
  end.

Definition getUnixDNS (w : World) : string * option errors.error :=
  match ClientConfigFromFile w "/etc/resolv.conf" with
  | inr err =>
      (EmptyString,
       Some (errors.ForeignError ("could not read resolv.conf: " +:+ errors.Error err)))
  | inl [] => (EmptyString, Some (errors.ForeignError "no DNS servers found in resolv.conf"))
  | inl (server0 :: _) => (server0 +:+ ":53", None)
  end.

Definition getSystemDNS (w : World) : string * option errors.error :=
  if String.eqb (GOOS w) "windows" then getWindowsDNS w else getUnixDNS w.

(** [host, port, err := net.SplitHostPort(server)] and the validation of
    both parts, shared by the two branches for a server with a port. *)
Definition splitAndValidate (server : string) : errors.error + string :=
  match net.SplitHostPort server with
  | inr text =>
      inl (errors.ADigError
             (errors.NewInputError ("invalid DNS server format: " +:+ server)
                (Some (errors.ForeignError text))))
  | inl (host, port) =>
      match errors.ValidateDNSServer host with
      | Some err => inl err
      | None =>
          match errors.ValidateDNSPort port with
          | Some err => inl err
          | None => inr server
          end
      end
  end.

(** The block "Prepare DNS server" of [Query]: [inr finalServer], or [inl]
    the error with which [Query] returns from inside the block. *)
Definition prepareServer (w : World) (server : string) : errors.error + string :=
  if String.eqb server EmptyString then
    let '(systemDNS, err) := getSystemDNS w in
    match err with
    | Some _ => inr "8.8.8.8:53"
    | None => inr systemDNS
    end
  else if HasPrefix server "[" && Contains server "]:" then
    splitAndValidate server
  else if negb (Contains server ":") || bool_decide (net.ParseIP server ≠ None) then
    match errors.ValidateDNSServer server with
    | Some err => inl err
    | None =>
        if Contains server ":" && bool_decide (net.ParseIP server ≠ None)
        then inr ("[" +:+ server +:+ "]:53")
        else inr (server +:+ ":53")
    end
  else splitAndValidate server.

(** The [switch] that picks the wire query type; [None] is its [default]. *)
Definition queryTypeOf (recordTypeUpper : string) : option Z :=
  if String.eqb recordTypeUpper "A" then Some TypeA
  else if String.eqb recordTypeUpper "AAAA" then Some TypeAAAA
  else if String.eqb recordTypeUpper "MX" then Some TypeMX
  else if String.eqb recordTypeUpper "CNAME" then Some TypeCNAME
  else if String.eqb recordTypeUpper "TXT" then Some TypeTXT
  else None.

(** The [switch] on a response code other than success. *)
Definition rcodeError (rcode : Z) (domain finalServer : string) : errors.DigError :=
  if rcode =? RcodeNameError
  then errors.NewDNSError ("domain '" +:+ domain +:+ "' not found (NXDOMAIN)") None
         domain finalServer
  else if rcode =? RcodeServerFailure
  then errors.NewDNSError "DNS server experienced an internal failure" None domain finalServer
  else if rcode =? RcodeRefused
  then errors.NewDNSError "DNS server refused the query" None domain finalServer
  else if rcode =? RcodeNotImplemented
  then errors.NewDNSError "DNS server does not support this query type" None domain finalServer
  else if rcode =? RcodeFormatError
  then errors.NewDNSError "DNS query format error" None domain finalServer
  else errors.NewDNSError ("DNS query failed with response code " +:+ itoa rcode) None
         domain finalServer.

(** The body of the loop over [response.Answer]: what one answer appends
    to [result.Records]. *)
Definition extractOne (lib : GoLib) (recordTypeUpper : string) (records : list string)
    (answer : RR) : list string :=
  if String.eqb recordTypeUpper "A" then
    match answer with RR_A a => records ++ [IPString lib a] | _ => records end
  else if String.eqb recordTypeUpper "AAAA" then
    match answer with RR_AAAA a => records ++ [IPString lib a] | _ => records end
  else if String.eqb recordTypeUpper "MX" then
    match answer with
    | RR_MX preference mx => records ++ [itoa preference +:+ " " +:+ mx]
    | _ => records
    end
  else if String.eqb recordTypeUpper "CNAME" then
    match answer with RR_CNAME target => records ++ [target] | _ => records end
  else if String.eqb recordTypeUpper "TXT" then
    match answer with RR_TXT txt => records ++ [Join txt " "] | _ => records end
  else records.

(** The loop [for _, answer := range response.Answer]. *)
Definition extractRecords (lib : GoLib) (recordTypeUpper : string) (answers : list RR)
    (records : list string) : list string :=
  fold_left (extractOne lib recordTypeUpper) answers records.

(** [result.Error = err; return result, err] *)
Definition fail (result : Result) (err : option errors.error)
  : Result * option errors.error :=
  (setError err result, err).

(** The part of [Query] after the call of [Exchange]: the transport
    error, the missing response, the response code, the extraction and the
    empty-result test.  [r] is what the exchange gave, [result] already
    holds the query time. *)
Definition interpretExchange (lib : GoLib) (domain recordTypeUpper finalServer : string)
    (result : Result) (r : ExchangeResult) : Result * option errors.error :=
  match err r with
  | Some _ =>
      (* [netErr] is a [*DigError]; it is not nil here, [err r] not being nil *)
      let netErr := errors.ClassifyNetworkError lib (err r) finalServer in
      fail result (errors.ADigError <$> netErr)
  | None =>
  match response r with
  | None =>
      fail result
        (Some (errors.ADigError
                 (errors.NewNetworkError "no response received from DNS server" None
                    finalServer)))
  | Some response =>
  if negb (Rcode response =? RcodeSuccess)
  then fail result (Some (errors.ADigError (rcodeError (Rcode response) domain finalServer)))
  else
    let result :=
      setRecords (extractRecords lib recordTypeUpper (Answer response) (Records result))
        result in
    if (length (Records result) =? 0)%nat
    then
      fail result
        (Some (errors.ADigError
                 (errors.NewDNSError
                    ("no " +:+ recordTypeUpper +:+ " records found for domain '"
                     +:+ domain +:+ "'") None domain finalServer)))
    else (result, None)
  end end.

(** [Query]: the returned [*Result], the returned [error], and the world
    after the call. *)
Definition Query (lib : GoLib) (c : client) (domain recordType server : string)
    (w : World) : Result * option errors.error * World :=
  let result := mkResult domain recordType [] server 0 None in
  match errors.ValidateDomain domain with
  | Some err => (fail result (Some err), w)
  | None =>
  match errors.ValidateRecordType lib recordType with
  | Some err => (fail result (Some err), w)
  | None =>
  match prepareServer w server with
  | inl err => (fail result (Some err), w)
  | inr finalServer =>
  let result := setServer finalServer result in
  let recordTypeUpper := ToUpper lib recordType in
  match queryTypeOf recordTypeUpper with
  | None =>
      (fail result
         (Some (errors.ADigError
                  (errors.NewInputError ("record type '" +:+ recordType +:+ "' not supported")
                     None))), w)
  | Some queryType =>
  let msg := SetQuestion (Fqdn lib domain) queryType in
  let startTime := now w in
  let '(r, w) := Exchange (timeout c) msg finalServer w in
  let result := setQueryTime (now w - startTime) result in
  (interpretExchange lib domain recordTypeUpper finalServer result r, w)
  end end end end.

End dns.

(** ** The specification's own wording of three operations *)
Module Spec.

Import strings.

(** The entry that the specification assigns to an answer record when the
    upper-cased requested type is [recordTypeUpper]: the value of a record
    of the requested type, nothing for a record of another type. *)
Definition recordValue (lib : GoLib) (recordTypeUpper : string) (answer : dns.RR)
  : option string :=
  match answer with
  | dns.RR_A a => if String.eqb recordTypeUpper "A" then Some (IPString lib a) else None
  | dns.RR_AAAA a => if String.eqb recordTypeUpper "AAAA" then Some (IPString lib a) else None
  | dns.RR_MX preference mx =>
      if String.eqb recordTypeUpper "MX" then Some (itoa preference +:+ " " +:+ mx) else None
  | dns.RR_CNAME target => if String.eqb recordTypeUpper "CNAME" then Some target else None
  | dns.RR_TXT txt =>
      if String.eqb recordTypeUpper "TXT" then Some (String.concat " " txt) else None
  | dns.RR_other _ => None
  end.

Definition isLetter (c : ascii) : bool :=
  let b := byte_val c in
  ((byte_val "a" <=? b) && (b <=? byte_val "z"))
  || ((byte_val "A" <=? b) && (b <=? byte_val "Z")).

Definition isDigit (c : ascii) : bool :=
  let b := byte_val c in (byte_val "0" <=? b) && (b <=? byte_val "9").

(** An ASCII letter, a digit, a hyphen, an underscore or the dot. *)
Definition allowedByte (c : ascii) : bool :=
  isLetter c || isDigit c || Ascii.eqb c "-" || Ascii.eqb c "_" || Ascii.eqb c ".".

(** The labels of a domain: its dot-separated segments. *)
Definition labels (domain : string) : list string := Split domain ".".

Definition allDigits (label : string) : bool :=
  forallb isDigit (list_ascii_of_string label).

(** The rules of a valid domain, each one over the whole domain or over
    all of its labels. *)
Definition validDomain (domain : string) : bool :=
  negb (String.eqb domain EmptyString)
  && (String.length domain <=? 253)%nat
  && forallb allowedByte (list_ascii_of_string domain)
  && negb (Contains domain "..")
  && negb (HasPrefix domain ".") && negb (HasSuffix domain ".")
  && negb (HasPrefix domain "-") && negb (HasSuffix domain "-")
  && forallb (fun l => negb (String.eqb l EmptyString) && (String.length l <=? 63)%nat)
       (labels domain)
  && forallb (fun l => negb (HasPrefix l "-") && negb (HasSuffix l "-")) (labels domain)
  && forallb (fun l => negb (HasSuffix l "_")) (labels domain)
  && negb (allDigits (List.last (labels domain) EmptyString)).

(** The rule a domain is rejected for. *)
Inductive Violation :=
| EmptyDomain
| DomainTooLong (len : nat)
| InvalidCharacter (r : Z) (position : nat)
| ConsecutiveDots
| DotAtEnds
| HyphenAtEnds
| TrailingUnderscore
| EmptyLabel
| LabelTooLong (label : string)
| LabelHyphen (label : string)
| LabelUnderscore (label : string)
| NumericTLD.

(** The message that names the rule. *)
Definition message (v : Violation) : string :=
  match v with
  | EmptyDomain => "domain name cannot be empty"
  | DomainTooLong len =>
      "domain name too long (" +:+ itoa (Z.of_nat len) +:+ " characters, max 253)"
  | InvalidCharacter r position =>
      "domain contains invalid character '" +:+ utf8.EncodeRune r +:+ "' at position "
      +:+ itoa (Z.of_nat position)
  | ConsecutiveDots => "domain cannot contain consecutive dots"
  | DotAtEnds => "domain cannot start or end with a dot"
  | HyphenAtEnds => "domain cannot start or end with a hyphen"
  | TrailingUnderscore => "domain cannot end with an underscore"
  | EmptyLabel => "domain cannot have empty labels"
  | LabelTooLong label =>
      "domain label '" +:+ label +:+ "' too long ("
      +:+ itoa (Z.of_nat (String.length label)) +:+ " characters, max 63)"
  | LabelHyphen label => "domain label '" +:+ label +:+ "' cannot start or end with hyphen"
  | LabelUnderscore label => "domain label '" +:+ label +:+ "' cannot end with underscore"
  | NumericTLD => "top-level domain cannot be all numeric"
  end.

(** The error that reports a violation. *)
Definition errorOf (v : Violation) : errors.error :=
  errors.ADigError (errors.NewInputError (message v) None).

(** The index of the first byte that is not allowed. *)
Fixpoint firstBadByte (s : string) : option nat :=
  match s with
  | EmptyString => None
  | String c t => if allowedByte c then S <$> firstBadByte t else Some 0%nat
  end.

(** The first rule that one label breaks, the rules taken in the order
    length, hyphen, underscore, numeric (last label only). *)
Definition labelViolation (isLast : bool) (label : string) : option Violation :=
  if String.eqb label EmptyString then Some EmptyLabel
  else if (63 <? String.length label)%nat then Some (LabelTooLong label)
  else if HasPrefix label "-" || HasSuffix label "-" then Some (LabelHyphen label)
  else if HasSuffix label "_" then Some (LabelUnderscore label)
  else if isLast && allDigits label then Some NumericTLD
  else None.

(** The labels taken from left to right: the first label that breaks a
    rule, with the first rule it breaks. *)
Fixpoint firstLabelViolation (ls : list string) : option Violation :=
  match ls with
  | [] => None
  | label :: rest =>
      match labelViolation (bool_decide (rest = [])) label with
      | Some v => Some v
      | None => firstLabelViolation rest
      end
  end.

(** The first violation: the rules over the whole domain in their order,
    then the labels from left to right. *)
Definition firstViolation (domain : string) : option Violation :=
  if String.eqb domain EmptyString then Some EmptyDomain
  else if (253 <? String.length domain)%nat then Some (DomainTooLong (String.length domain))
  else
    match firstBadByte domain with
    | Some k =>
        Some (InvalidCharacter (utf8.DecodeRuneInString (drop_bytes k domain)).1 (k + 1))
    | None =>
        if Contains domain ".." then Some ConsecutiveDots
        else if HasPrefix domain "." || HasSuffix domain "." then Some DotAtEnds
        else if HasPrefix domain "-" || HasSuffix domain "-" then Some HyphenAtEnds
        else if HasSuffix domain "_" then Some TrailingUnderscore
        else firstLabelViolation (labels domain)
    end.

(** The list of rules read as the order of checking, every rule over all
    the labels before the next rule: the length of the labels, their
    hyphens, their underscores, the numeric last label. *)
Definition firstLabelRuleViolation (ls : list string) : option Violation :=
  match List.find (fun l => String.eqb l EmptyString || (63 <? String.length l)%nat) ls with
  | Some l => if String.eqb l EmptyString then Some EmptyLabel else Some (LabelTooLong l)
  | None =>
  match List.find (fun l => HasPrefix l "-" || HasSuffix l "-") ls with
  | Some l => Some (LabelHyphen l)
  | None =>
  match List.find (fun l => HasSuffix l "_") ls with
  | Some l => Some (LabelUnderscore l)
  | None => if allDigits (List.last ls EmptyString) then Some NumericTLD else None
  end end end.

Definition firstRuleViolation (domain : string) : option Violation :=
  if String.eqb domain EmptyString then Some EmptyDomain
  else if (253 <? String.length domain)%nat then Some (DomainTooLong (String.length domain))
  else
    match firstBadByte domain with
    | Some k =>
        Some (InvalidCharacter (utf8.DecodeRuneInString (drop_bytes k domain)).1 (k + 1))
    | None =>
        if Contains domain ".." then Some ConsecutiveDots
        else if HasPrefix domain "." || HasSuffix domain "." then Some DotAtEnds
        else if HasPrefix domain "-" || HasSuffix domain "-" then Some HyphenAtEnds
        else firstLabelRuleViolation (labels domain)
    end.


(** *** The classification of a transport failure, in the words of the
    specification *)

(** The same byte, or the same ASCII letter in either case. *)
Definition sameFold (a b : ascii) : bool :=
  Ascii.eqb a b
  || (isLetter a && isLetter b
      && ((byte_val a - byte_val b =? 32) || (byte_val b - byte_val a =? 32))).

(** The pattern [p] stands in the text [s] at the byte offset [k], the
    bytes compared by [same]. *)
Definition occursAt (same : ascii → ascii → bool) (p s : string) (k : nat) : bool :=
  let piece := String.substring k (String.length p) s in
  (String.length piece =? String.length p)%nat
  && forallb (fun ab : ascii * ascii => same (fst ab) (snd ab))
       (combine (list_ascii_of_string piece) (list_ascii_of_string p)).

(** [p] is a substring of [s]. *)
Definition occurs (p s : string) : bool :=
  existsb (occursAt Ascii.eqb p s) (seq 0 (S (String.length s))).

(** [p] is a substring of [s] when the case of letters is ignored. *)
Definition occursFold (p s : string) : bool :=
  existsb (occursAt sameFold p s) (seq 0 (S (String.length s))).

(** No byte of [p] is an upper-case ASCII letter. *)
Definition noUpper (p : string) : bool :=
  forallb (fun b => negb ((byte_val "A" <=? byte_val b) && (byte_val b <=? byte_val "Z")))
    (list_ascii_of_string p).

(** The known substrings with their messages, in the order in which they
    are tried, and the message for anything else. *)
Definition rules : list (list string * string) :=
  [(["timeout"; "deadline exceeded"],
    "DNS server timeout - server may be unreachable or overloaded");
   (["connection refused"],
    "DNS server refused connection - server may be down or not accepting queries");
   (["no such host"], "DNS server hostname could not be resolved");
   (["network unreachable"], "Network unreachable - check your internet connection");
   (["permission denied"], "Permission denied - may need elevated privileges")].

Definition genericMessage : string := "Network error occurred while contacting DNS server".

Definition patterns : list string := concat (map fst rules).

(** The message of the first rule one of whose substrings is found. *)
Definition classify (found : string → bool) : string :=
  match List.find (fun rule : list string * string => existsb found (fst rule)) rules with
  | Some rule => snd rule
  | None => genericMessage
  end.

(** The runes of the text [s] ([for _, r := range s]), each in lower case
    by [unicode.ToLower]; a rune for which the case table has no rune
    (a negative value) is left out. *)
Definition lowerRunes (table : Z → Z) (s : string) : list Z :=
  List.filter (fun r => 0 <=? r)
    (map (fun ir : nat * Z => unicode.ToLower table (snd ir)) (utf8.range s)).

(** The pattern [p], of ASCII bytes, stands in the text [s] when runes are
    compared in lower case: its bytes are the runes of [s] in lower case
    from some rune on. *)
Definition occursRunes (table : Z → Z) (p s : string) : bool :=
  let runes := lowerRunes table s in
  let pattern := map byte_val (list_ascii_of_string p) in
  existsb (fun k => bool_decide (take (length pattern) (drop k runes) = pattern))
    (seq 0 (S (length runes))).

End Spec.

(** ** Sample libraries, worlds and responses for the examples *)
Module Samples.

Import strings.

(** The slow path of the case mappings goes rune by rune, with case
    tables that leave every rune beyond ASCII alone; addresses print as the
    decimal bytes joined by dots; names get their final dot. *)
Definition lib : GoLib := {|
  unicodeToUpper := unicode.Map (unicode.ToUpper (fun r => r));
  unicodeToLower := unicode.Map (unicode.ToLower (fun r => r));
  IPString := fun ip => String.concat "." (map itoa ip);
  Fqdn := fun s => if HasSuffix s "." then s else s +:+ "."
|}.

Definition noResolvConf (path : string) : list string + errors.error :=
  inr (errors.ForeignError ("open " +:+ path +:+ ": no such file or directory")).

(** A world without resolver configuration whose network gives [r] to
    every exchange. *)
Definition world (r : dns.ExchangeResult) : dns.World :=
  dns.mkWorld "linux" noResolvConf (fun _ _ _ => r) 0 [].

(** A world whose resolver configuration lists [servers]. *)
Definition configuredWorld (servers : list string) (r : dns.ExchangeResult) : dns.World :=
  dns.mkWorld "linux" (fun _ => inl servers) (fun _ _ _ => r) 0 [].

Definition answered (rcode : Z) (answers : list dns.RR) : dns.ExchangeResult :=
  dns.mkExchangeResult (Some (dns.mkMsg true rcode [] answers)) 1500000 None 2000000.

Definition failed (text : string) : dns.ExchangeResult :=
  dns.mkExchangeResult None 0 (Some (errors.ForeignError text)) 5000000000.

Definition timedOut : dns.ExchangeResult :=
  failed "read udp 192.0.2.7:53011->8.8.8.8:53: i/o timeout".

(** [strings.Repeat(s, n)] *)
Fixpoint repeated (s : string) (n : nat) : string :=
  match n with
  | O => EmptyString
  | S k => s +:+ repeated s k
  end.

Definition answers : list dns.RR :=
  [dns.RR_A [192; 0; 2; 1]; dns.RR_CNAME "alias.example.net."; dns.RR_A [192; 0; 2; 2];
   dns.RR_TXT ["part1"; "part2"]].

End Samples.

(** ** Package [time]: a [Duration] is a number of nanoseconds *)
Module time.

Definition Microsecond : Z := 1000.
Definition Millisecond : Z := 1000 * Microsecond.

(** The integer division of Go truncates toward zero. *)
Definition Microseconds (d : Z) : Z := Z.quot d 1000.
Definition Milliseconds (d : Z) : Z := Z.quot d 1000000.

End time.

(** ** Package [fmt]: the verb [%-30s] *)
Module fmt.

Import strings.

(** [%-Ns]: the string, then spaces up to a width of [N] runes. *)
Definition leftJustify (width : nat) (s : string) : string :=
  s +:+ Repeat " " (width - utf8.RuneCountInString s).

End fmt.

(** ** Package [flag]: a flag set whose flags are all string-valued, as
    the two flags of the command line are.  What the package writes to the
    output of the flag set when parsing fails is not part of the model. *)
Module flag.

Import strings.

(** The value each defined flag holds, the names of the flags set on the
    command line, and the arguments not yet consumed. *)
Record FlagSet := mkFlagSet {
  formal : gmap string string;
  actual : gset string;
  args : list string
}.

Definition NewFlagSet : FlagSet := mkFlagSet ∅ ∅ [].

(** [f.String(name, value, usage)]: the definition of a flag with its
    default value. *)
Definition String_ (name value : string) (f : FlagSet) : FlagSet :=
  mkFlagSet (<[name := value]> (formal f)) (actual f) (args f).

(** [*p] for the pointer [p] that [f.String(name, ...)] gave. *)
Definition value (name : string) (f : FlagSet) : string :=
  default EmptyString (formal f !! name).

(** [f.Args()] *)
Definition Args (f : FlagSet) : list string := args f.

(** [f.Visit(fn)] with an [fn] that records whether it saw the flag [name]. *)
Definition visited (name : string) (f : FlagSet) : bool := bool_decide (name ∈ actual f).

(** [flag.Value.Set(value)] of a string flag, and its entry in [actual]. *)
Definition set (name v : string) (rest : list string) (f : FlagSet) : FlagSet :=
  mkFlagSet (<[name := v]> (formal f)) ({[name]} ∪ actual f) rest.

Definition ErrHelp : errors.error := errors.ForeignError "flag: help requested".

(** [f.failf(format, a...)]: the error made of the text. *)
Definition failf (text : string) : option errors.error := Some (errors.ForeignError text).

(** [s[:i]] and [s[i+1:]] around the first "=" of [s]. *)
Fixpoint cutAtEquals (s : string) : option (string * string) :=
  match s with
  | EmptyString => None
  | String c t =>
      if Ascii.eqb c "=" then Some (EmptyString, t)
      else match cutAtEquals t with
           | Some (a, b) => Some (String c a, b)
           | None => None
           end
  end.

(** The loop of [parseOne] that looks for "=" from the second byte of the
    name on: the name, and the value if there is one. *)
Definition splitNameValue (name : string) : string * option string :=
  match name with
  | EmptyString => (name, None)
  | String c t =>
      match cutAtEquals t with
      | Some (a, b) => (String c a, Some b)
      | None => (name, None)
      end
  end.

(** [f.parseOne()]: whether a flag was seen, the error, and the flag set
    after the step. *)
Definition parseOne (f : FlagSet) : bool * option errors.error * FlagSet :=
  match args f with
  | [] => (false, None, f)
  | s :: rest =>
      if (String.length s <? 2)%nat || negb (at_ s 0 =? byte_val "-")
      then (false, None, f)
      else
        let numMinuses := if at_ s 1 =? byte_val "-" then 2%nat else 1%nat in
        if (at_ s 1 =? byte_val "-") && (String.length s =? 2)%nat
        then (false, None, mkFlagSet (formal f) (actual f) rest)
        else
          let name := drop_bytes numMinuses s in
          if (String.length name =? 0)%nat || (at_ name 0 =? byte_val "-")
             || (at_ name 0 =? byte_val "=")
          then (false, failf ("bad flag syntax: " +:+ s), f)
          else
            let f := mkFlagSet (formal f) (actual f) rest in
            let '(name, hasValue) := splitNameValue name in
            match formal f !! name with
            | None =>
                if String.eqb name "help" || String.eqb name "h"
                then (false, Some ErrHelp, f)
                else (false, failf ("flag provided but not defined: -" +:+ name), f)
            | Some _ =>
                match hasValue, rest with
                | Some v, _ => (true, None, set name v rest f)
                | None, v :: rest' => (true, None, set name v rest' f)
                | None, [] => (false, failf ("flag needs an argument: -" +:+ name), f)
                end
            end
  end.

(** The loop of [Parse] under [ContinueOnError].  Every step that sees a
    flag consumes an argument, so one step more than there are arguments
    is enough ([parseLoop_fuel]). *)
Fixpoint parseLoop (fuel : nat) (f : FlagSet) : option errors.error * FlagSet :=
  match fuel with
  | O => (None, f)
  | S fuel' =>
      let '(seen, err, f') := parseOne f in
      if seen then parseLoop fuel' f' else (err, f')
  end.

(** [f.Parse(arguments)] *)
Definition Parse (f : FlagSet) (arguments : list string) : option errors.error * FlagSet :=
  parseLoop (S (length arguments)) (mkFlagSet (formal f) (actual f) arguments).

End flag.

(** ** Package [cmd]: the command line *)
Module cmd.

Import strings.

Record Config := mkConfig {
  Domain : string;
  RecordType : string;
  Server : string;
  Timeout : Z
}.

Definition validateConfig (lib : GoLib) (config : Config) (serverFlagProvided : bool)
  : option errors.error :=
  match errors.ValidateDomain (Domain config) with
  | Some err => Some err
  | None =>
  match errors.ValidateRecordType lib (RecordType config) with
  | Some err => Some err
  | None =>
  if serverFlagProvided then
    match errors.ValidateDNSServer (Server config) with
    | Some err => Some err
    | None => None
    end
  else None
  end end.

(** [return nil, errors.NewInputError(message, cause)] *)
Definition inputError (message : string) (cause : option errors.error)
  : errors.error + Config :=
  inl (errors.ADigError (errors.NewInputError message cause)).

(** [Parse]: [inr] the configuration, or [inl] the error. *)
Definition Parse (lib : GoLib) (args : list string) : errors.error + Config :=
  let config := mkConfig EmptyString "A" EmptyString (5 * dns.Second) in
  let flagSet := flag.NewFlagSet in
  let flagSet := flag.String_ "t" "A" flagSet in
  let flagSet := flag.String_ "s" EmptyString flagSet in
  let '(err, flagSet) := flag.Parse flagSet args in
  match err with
  | Some _ => inputError "invalid command line arguments" err
  | None =>
      let remaining := flag.Args flagSet in
      if (length remaining =? 0)%nat then inputError "domain name is required" None
      else if (1 <? length remaining)%nat
      then inputError ("too many arguments: expected domain name only, got "
                       +:+ itoa (Z.of_nat (length remaining)) +:+ " arguments") None
      else
        let config :=
          mkConfig (nth 0 remaining EmptyString) (ToUpper lib (flag.value "t" flagSet))
            (flag.value "s" flagSet) (Timeout config) in
        let serverFlagProvided := flag.visited "s" flagSet in
        match validateConfig lib config serverFlagProvided with
        | Some err => inl err
        | None => inr config
        end
  end.

End cmd.

(** ** Package [output]: the formatter *)
Module output.

Import strings.

Definition formatDuration (d : Z) : string :=
  if d <? time.Millisecond
  then itoa (time.Microseconds d) +:+ " usec"
  else itoa (time.Milliseconds d) +:+ " msec".

(** The bytes that make a TXT value be quoted, besides the space. *)
Definition quotedBytes : string :=
  String quote (String "'" (String backslash EmptyString)).

Definition formatRecordValue (lib : GoLib) (recordType value : string) : string :=
  let t := ToUpper lib recordType in
  if String.eqb t "A" || String.eqb t "AAAA" then value
  else if String.eqb t "MX" then value
  else if String.eqb t "CNAME" then
    if negb (HasSuffix value ".") then value +:+ "." else value
  else if String.eqb t "TXT" then
    if Contains value " " || ContainsAny value quotedBytes then
      let escaped :=
        ReplaceAll value (String quote EmptyString)
          (String backslash (String quote EmptyString)) in
      String quote escaped +:+ String quote EmptyString
    else value
  else value.

Definition formatDigError (digErr : errors.DigError) : string :=
  ("Error: " +:+ errors.Message digErr +:+ newline)
  +:+ match errors.ErrType digErr with
      | errors.ErrorTypeInput =>
          (newline +:+ "This is an input validation error. Please check your command line arguments." +:+ newline)
          +:+ (if negb (String.eqb (errors.Domain digErr) EmptyString)
               then "Domain: " +:+ errors.Domain digErr +:+ newline else EmptyString)
          +:+ ("Use 'go-dig --help' for usage information." +:+ newline)
      | errors.ErrorTypeNetwork =>
          (newline +:+ "This is a network connectivity error." +:+ newline)
          +:+ (if negb (String.eqb (errors.Server digErr) EmptyString)
               then "DNS Server: " +:+ errors.Server digErr +:+ newline else EmptyString)
          +:+ ("Troubleshooting suggestions:" +:+ newline)
          +:+ ("- Check your internet connection" +:+ newline)
          +:+ ("- Try a different DNS server (e.g., -s 8.8.8.8)" +:+ newline)
          +:+ ("- Verify the DNS server IP address is correct" +:+ newline)
      | errors.ErrorTypeDNS =>
          (newline +:+ "This is a DNS resolution error." +:+ newline)
          +:+ (if negb (String.eqb (errors.Domain digErr) EmptyString)
               then "Domain: " +:+ errors.Domain digErr +:+ newline else EmptyString)
          +:+ (if negb (String.eqb (errors.Server digErr) EmptyString)
               then "DNS Server: " +:+ errors.Server digErr +:+ newline else EmptyString)
          +:+ ("Troubleshooting suggestions:" +:+ newline)
          +:+ ("- Verify the domain name is spelled correctly" +:+ newline)
          +:+ ("- Check if the domain exists" +:+ newline)
          +:+ ("- Try querying a different record type" +:+ newline)
          +:+ ("- Try a different DNS server" +:+ newline)
      | errors.ErrorTypeSystem =>
          (newline +:+ "This is a system-level error." +:+ newline)
          +:+ ("Troubleshooting suggestions:" +:+ newline)
          +:+ ("- Check if you have sufficient permissions" +:+ newline)
          +:+ ("- Verify system DNS configuration" +:+ newline)
          +:+ ("- Try running as administrator if needed" +:+ newline)
      end
  +:+ match errors.Cause digErr with
      | Some cause => newline +:+ "Underlying cause: " +:+ errors.Error cause +:+ newline
      | None => EmptyString
      end.

Definition FormatError (err : option errors.error) : string :=
  match err with
  | None => EmptyString
  | Some (errors.ADigError digErr) => formatDigError digErr
  | Some e => "Error: " +:+ errors.Error e +:+ newline
  end.

(** One line of the answer section. *)
Definition recordLine (lib : GoLib) (result : dns.Result) (record : string) : string :=
  fmt.leftJustify 30 (dns.Domain result) +:+ tab +:+ "IN" +:+ tab
  +:+ dns.RecordType result +:+ tab
  +:+ formatRecordValue lib (dns.RecordType result) record +:+ newline.

(** [FormatResult]; [when] is the text of the current time,
    [time.Now().Format(...)], and [None] is the nil result. *)
Definition FormatResult (lib : GoLib) (when : string) (result : option dns.Result)
  : string :=
  match result with
  | None => FormatError (Some (errors.ForeignError "no result to format"))
  | Some result =>
  match dns.Error result with
  | Some _ => FormatError (dns.Error result)
  | None =>
      ("; <<>> go-dig <<>> " +:+ dns.Domain result +:+ " " +:+ dns.RecordType result)
      +:+ (if negb (String.eqb (dns.Server result) EmptyString)
           then " @" +:+ TrimSuffix (dns.Server result) ":53" else EmptyString)
      +:+ newline
      +:+ (";; Query time: " +:+ formatDuration (dns.QueryTime result) +:+ newline)
      +:+ (";; SERVER: " +:+ dns.Server result +:+ newline)
      +:+ (";; WHEN: " +:+ when +:+ newline)
      +:+ newline
      +:+ (let recordCount := length (dns.Records result) in
           if (recordCount =? 0)%nat
           then ";; ANSWER SECTION: (empty)" +:+ newline
           else
             (";; ANSWER SECTION: (" +:+ itoa (Z.of_nat recordCount) +:+ " record")
             +:+ (if negb (recordCount =? 1)%nat then "s" else EmptyString)
             +:+ (")" +:+ newline)
             +:+ String.concat EmptyString (map (recordLine lib result) (dns.Records result)))
  end end.

End output.

(** ** Package [main]: the exit code *)
Module main.

Definition getExitCode (err : option errors.error) : Z :=
  match err with
  | None => 0
  | Some (errors.ADigError digErr) =>
      match errors.ErrType digErr with
      | errors.ErrorTypeInput => 1
      | errors.ErrorTypeNetwork => 2
      | errors.ErrorTypeDNS => 2
      | errors.ErrorTypeSystem => 3
      end
  | Some _ => 1
  end.

End main.

(** ** Notions in which properties of the code are stated *)
Module Reference.

Import strings.

(** The number that a string of decimal digits denotes. *)
Definition decimal (s : string) : Z :=
  fold_left (fun n c => n * 10 + (byte_val c - byte_val "0")) (list_ascii_of_string s) 0.

(** The reading of an escaped text: a backslash before a quote is dropped. *)
Fixpoint unescape (s : string) : string :=
  match s with
  | EmptyString => EmptyString
  | String c t =>
      if Ascii.eqb c backslash then
        match t with
        | String c' t' =>
            if Ascii.eqb c' quote then String quote (unescape t') else String c (unescape t)
        | EmptyString => String c EmptyString
        end
      else String c (unescape t)
  end.

(** The reading of a displayed TXT value: one that opens with a quote
    loses the quotes around it and is unescaped. *)
Definition unquote (s : string) : string :=
  match s with
  | String c t =>
      if Ascii.eqb c quote
      then unescape (String.substring 0 (String.length t - 1) t)
      else s
  | EmptyString => s
  end.

(** [causeChain e c]: [c] is [e], or the cause of [e], or the cause of
    that, as long as these are [DigError]s: the chain follows the method
    [Unwrap] of [DigError] and ends with the first error of another type,
    whatever that one wraps itself. *)
Inductive causeChain : errors.error → errors.error → Prop :=
| causeChain_refl (e : errors.error) : causeChain e e
| causeChain_step (de : errors.DigError) (cause c : errors.error) :
    errors.Unwrap de = Some cause → causeChain cause c →
    causeChain (errors.ADigError de) c.

(** The slow path of [strings.ToLower] in this library goes rune by rune,
    as [strings.Map(unicode.ToLower, s)] does, with the case table [table]
    beyond ASCII. *)
Definition LowerByRunes (lib : GoLib) (table : Z → Z) : Prop :=
  ∀ s, unicodeToLower lib s = unicode.Map (unicode.ToLower table) s.

(** What [strings.Map(unicode.ToLower, _)] writes for one rune of its
    argument: the bytes of the rune in lower case. *)
Definition lowerPiece (table : Z → Z) (ir : nat * Z) : string :=
  let r := unicode.ToLower table (snd ir) in
  if 0 <=? r then utf8.EncodeRune r else EmptyString.

(** The bytes of [s] are all outside ASCII. *)
Definition beyondASCII (s : string) : Prop :=
  Forall (fun c => 0x80 ≤ strings.byte_val c) (list_ascii_of_string s).

(** The bytes of a list of runes. *)
Definition encodeAll (l : list Z) : string :=
  String.concat EmptyString (map utf8.EncodeRune l).

End Reference.


(** * Properties *)

(** ** The model on the tables of the repository's tests *)

(** The table of [TestValidateDomain]. *)
Example ValidateDomain_test_table :
  errors.ValidateDomain "example.com" = None
  ∧ errors.ValidateDomain "www.example.com" = None
  ∧ errors.ValidateDomain "test-site.example-domain.co.uk" = None
  ∧ errors.ValidateDomain "" = errors.inputError "domain name cannot be empty"
  ∧ errors.ValidateDomain (Samples.repeated "a" 254)
    = errors.inputError "domain name too long (254 characters, max 253)"
  ∧ errors.ValidateDomain "example..com"
    = errors.inputError "domain cannot contain consecutive dots"
  ∧ errors.ValidateDomain ".example.com"
    = errors.inputError "domain cannot start or end with a dot"
  ∧ errors.ValidateDomain "example.com."
    = errors.inputError "domain cannot start or end with a dot"
  ∧ errors.ValidateDomain "-example.com"
    = errors.inputError "domain cannot start or end with a hyphen"
  ∧ errors.ValidateDomain "example.com-"
    = errors.inputError "domain cannot start or end with a hyphen"
  ∧ errors.ValidateDomain "example@.com"
    = errors.inputError "domain contains invalid character '@' at position 8"
  ∧ errors.ValidateDomain (Samples.repeated "a" 64 +:+ ".com")
    = errors.inputError ("domain label '" +:+ Samples.repeated "a" 64
                         +:+ "' too long (64 characters, max 63)")
  ∧ errors.ValidateDomain "invalid-.com"
    = errors.inputError "domain label 'invalid-' cannot start or end with hyphen"
  ∧ errors.ValidateDomain "example.123"
    = errors.inputError "top-level domain cannot be all numeric".
Proof. repeat split; vm_compute; reflexivity. Qed.

(** The table of [TestValidateDNSServer]. *)
Example ValidateDNSServer_test_table :
  errors.ValidateDNSServer "8.8.8.8" = None
  ∧ errors.ValidateDNSServer "2001:4860:4860::8888" = None
  ∧ errors.ValidateDNSServer "127.0.0.1" = None
  ∧ errors.ValidateDNSServer "::1" = None
  ∧ errors.ValidateDNSServer "" = errors.inputError "DNS server cannot be empty"
  ∧ errors.ValidateDNSServer "not.an.ip"
    = errors.inputError "'not.an.ip' is not a valid IP address"
  ∧ errors.ValidateDNSServer "256.256.256.256"
    = errors.inputError "'256.256.256.256' is not a valid IP address"
  ∧ errors.ValidateDNSServer "127.0.0.2"
    = errors.inputError
        "loopback addresses other than 127.0.0.1 or ::1 are not recommended for DNS".
Proof. repeat split; vm_compute; reflexivity. Qed.

(** The table of [TestValidateDNSPort]: the ports accepted and refused. *)
Example ValidateDNSPort_test_table :
  map errors.ValidateDNSPort ["53"; "8053"; "1"; "65535"] = [None; None; None; None]
  ∧ map (λ port, errors.IsInputError (errors.ValidateDNSPort port))
      [""; "0"; "65536"; "99999"; "abc"; "53a"; "-53"]
    = [true; true; true; true; true; true; true].
Proof. split; vm_compute; reflexivity. Qed.

(** The table of [TestValidateRecordType]. *)
Example ValidateRecordType_test_table :
  map (errors.ValidateRecordType Samples.lib) ["A"; "AAAA"; "MX"; "CNAME"; "TXT"; "a"; "Mx"]
  = [None; None; None; None; None; None; None]
  ∧ errors.ValidateRecordType Samples.lib "" = errors.inputError "record type cannot be empty"
  ∧ errors.ValidateRecordType Samples.lib "INVALID"
    = errors.inputError "unsupported record type 'INVALID' (supported: A, AAAA, MX, CNAME, TXT)"
  ∧ errors.ValidateRecordType Samples.lib "123"
    = errors.inputError "unsupported record type '123' (supported: A, AAAA, MX, CNAME, TXT)".
Proof. repeat split; vm_compute; reflexivity. Qed.

(** The table of [TestClassifyNetworkError]: the message for each text. *)
Example ClassifyNetworkError_test_table :
  let message text :=
    errors.Message
    <$> errors.ClassifyNetworkError Samples.lib (Some (errors.ForeignError text)) "8.8.8.8:53" in
  message "context deadline exceeded"
  = Some "DNS server timeout - server may be unreachable or overloaded"
  ∧ message "connection refused"
    = Some "DNS server refused connection - server may be down or not accepting queries"
  ∧ message "no such host" = Some "DNS server hostname could not be resolved"
  ∧ message "network unreachable"
    = Some "Network unreachable - check your internet connection"
  ∧ message "permission denied" = Some "Permission denied - may need elevated privileges"
  ∧ message "some other network error"
    = Some "Network error occurred while contacting DNS server"
  ∧ message "dial udp: Connection Refused"
    = Some "DNS server refused connection - server may be down or not accepting queries"
  ∧ errors.ClassifyNetworkError Samples.lib None "8.8.8.8:53" = None.
Proof. repeat split; vm_compute; reflexivity. Qed.

(** The servers of [TestClient_Query_ValidDNSServerFormats] and of
    [TestClient_Query_DNSServerValidation], prepared. *)
Example prepareServer_test_table :
  let prepare := dns.prepareServer (Samples.world Samples.timedOut) in
  map prepare ["8.8.8.8:53"; "8.8.8.8"; "[2001:4860:4860::8888]:53"; "127.0.0.1"; "::1";
               "2001:4860:4860::8888"; ""]
  = map inr ["8.8.8.8:53"; "8.8.8.8:53"; "[2001:4860:4860::8888]:53"; "127.0.0.1:53";
             "[::1]:53"; "[2001:4860:4860::8888]:53"; "8.8.8.8:53"]
  ∧ prepare "999.999.999.999"
    = inl ((errors.ADigError (errors.NewInputError "'999.999.999.999' is not a valid IP address" None)))
  ∧ prepare "not-an-ip" = inl ((errors.ADigError (errors.NewInputError "'not-an-ip' is not a valid IP address" None)))
  ∧ prepare "8.8.8.8:99999"
    = inl ((errors.ADigError (errors.NewInputError "DNS server port '99999' is out of range (1-65535)" None)))
  ∧ prepare "127.0.0.1:invalid"
    = inl ((errors.ADigError (errors.NewInputError "DNS server port 'invalid' must be numeric" None))).
Proof. repeat split; vm_compute; reflexivity. Qed.

(** The mock-server tests of the client: one A record, three A records in
    order, a TXT record of two segments, NXDOMAIN, a silent server. *)
Example Query_test_table :
  let run recordType r :=
    (dns.Query Samples.lib dns.NewClient "example.com" recordType "127.0.0.1:5353"
       (Samples.world r)).1 in
  let records recordType answers :=
    dns.Records (run recordType (Samples.answered dns.RcodeSuccess answers)).1 in
  records "A" [dns.RR_A [192; 0; 2; 1]] = ["192.0.2.1"]
  ∧ records "A" [dns.RR_A [192; 0; 2; 1]; dns.RR_A [192; 0; 2; 2]; dns.RR_A [192; 0; 2; 3]]
    = ["192.0.2.1"; "192.0.2.2"; "192.0.2.3"]
  ∧ records "TXT" [dns.RR_TXT ["part1"; "part2"]] = ["part1 part2"]
  ∧ records "MX" [dns.RR_MX 10 "mail.example.com."] = ["10 mail.example.com."]
  ∧ errors.Error <$> (run "A" (Samples.answered dns.RcodeNameError [])).2
    = Some "DNS error: domain 'example.com' not found (NXDOMAIN)"
  ∧ errors.IsNetworkError (run "A" Samples.timedOut).2 = true.
Proof. repeat split; vm_compute; reflexivity. Qed.

(** ** Strings *)

Lemma prefix_refl (s : string) : String.prefix s s = true.
Proof.
  induction s as [|c s IH]; simpl; [done |].
  destruct (ascii_dec c c); [apply IH | congruence].
Qed.

Lemma prefix_app (p s : string) : String.prefix p (p +:+ s) = true.
Proof.
  induction p as [|c p IH]; simpl; [by destruct s |].
  destruct (ascii_dec c c); [apply IH | congruence].
Qed.

Lemma Contains_prefix (s sub : string) :
  String.prefix sub s = true → strings.Contains s sub = true.
Proof. destruct s; simpl; intros ->; done. Qed.

Lemma Contains_app_r (p s sub : string) :
  strings.Contains s sub = true → strings.Contains (p +:+ s) sub = true.
Proof.
  induction p as [|c p IH]; simpl; [done |]. intros H. rewrite (IH H). apply orb_true_r.
Qed.

Lemma Contains_app_l (s t sub : string) :
  strings.Contains s sub = true → strings.Contains (s +:+ t) sub = true.
Proof.
  assert (Hp : ∀ a b, String.prefix sub a = true → String.prefix sub (a +:+ b) = true).
  { induction sub as [|x sub IH]; intros a b H; [by destruct (a +:+ b) |].
    destruct a as [|y a]; simpl in *; [done |].
    destruct (ascii_dec x y); [by apply IH | done]. }
  induction s as [|c s IH]; simpl.
  - rewrite orb_false_r. intros H. apply Contains_prefix. by apply (Hp "" t).
  - intros [H|H]%orb_true_iff.
    + apply orb_true_iff. left. by apply (Hp (String c s) t).
    + rewrite (IH H). apply orb_true_r.
Qed.

Lemma HasPrefix_byte (s : string) (c : ascii) :
  strings.HasPrefix s (String c EmptyString) = true → ∃ t, s = String c t.
Proof.
  unfold strings.HasPrefix. destruct s as [|x t]; simpl; [done |].
  destruct (ascii_dec c x) as [-> | _]; [eauto | done].
Qed.

Lemma lastByte_cons_nonempty (c y : ascii) (t : string) :
  strings.lastByte (String c (String y t)) = strings.lastByte (String y t).
Proof. simpl. by destruct (strings.lastByte t). Qed.

(** [HasSuffix] with a one-byte suffix tests the last byte. *)
Lemma HasSuffix_byte (s : string) (c : ascii) :
  strings.HasSuffix s (String c EmptyString) = bool_decide (strings.lastByte s = Some c).
Proof.
  unfold strings.HasSuffix.
  induction s as [|x t IH]; [done |].
  destruct t as [|y t'].
  - simpl. destruct (Ascii.eqb x c) eqn:E.
    + apply Ascii.eqb_eq in E as ->. by rewrite bool_decide_eq_true_2.
    + apply Ascii.eqb_neq in E. rewrite bool_decide_eq_false_2; [done | congruence].
  - rewrite lastByte_cons_nonempty, <- IH. clear IH.
    change (String.length (String c "")) with 1%nat.
    change (String.length (String x (String y t'))) with (S (S (String.length t'))).
    change (String.length (String y t')) with (S (String.length t')).
    replace (S (S (String.length t')) - 1)%nat with (S (String.length t')) by lia.
    replace (S (String.length t') - 1)%nat with (String.length t') by lia.
    reflexivity.
Qed.

Lemma lastByte_app_byte (s : string) (c : ascii) : strings.lastByte (s +:+ String c EmptyString) = Some c.
Proof. induction s as [|x t IH]; simpl; [done |]. by rewrite IH. Qed.

Lemma splitFrom_nonempty sep skip cur s : strings.splitFrom sep skip cur s ≠ [].
Proof.
  revert skip cur. induction s as [|c t IH]; intros skip cur; simpl; [done |].
  destruct skip; [| apply IH].
  match goal with |- context [if ?b then _ else _] => destruct b end; [done | apply IH].
Qed.

Lemma last_cons_nonempty {A} (x : A) (l : list A) (d : A) :
  l ≠ [] → List.last (x :: l) d = List.last l d.
Proof. by destruct l. Qed.

(** The last label ends as the domain does, unless the domain ends with a
    dot. *)
Lemma lastByte_last_label (s cur : string) :
  strings.lastByte (List.last (strings.splitFrom "." 0 cur s) EmptyString)
  = match strings.lastByte s with
    | None => strings.lastByte cur
    | Some c => if Ascii.eqb c "." then None else Some c
    end.
Proof.
  revert cur. induction s as [|c t IH]; intros cur; [done |].
  cbn [strings.splitFrom]. cbn [String.prefix].
  destruct (ascii_dec "." c) as [<- | Hne].
  - assert (String.prefix "" t = true) as -> by by destruct t.
    rewrite last_cons_nonempty by apply splitFrom_nonempty.
    change (String.length "." - 1)%nat with 0%nat. rewrite IH. simpl.
    destruct (strings.lastByte t); done.
  - rewrite IH. simpl. destruct (strings.lastByte t) as [x|]; [done |].
    rewrite lastByte_app_byte.
    destruct (Ascii.eqb c ".") eqn:E; [| done].
    apply Ascii.eqb_eq in E. congruence.
Qed.

Lemma ToLower_ascii lib (s : string) :
  strings.isASCII s = true → strings.ToLower lib s = strings.mapBytes strings.lowerByte s.
Proof. unfold strings.ToLower. by intros ->. Qed.

Lemma append_empty_r (s : string) : s +:+ "" = s.
Proof.
  induction s as [|c s IH]; [done |].
  change (String c (s +:+ "") = String c s). by rewrite IH.
Qed.

Lemma append_assoc (a b c : string) : (a +:+ b) +:+ c = a +:+ (b +:+ c).
Proof.
  induction a as [|x a IH]; [done |].
  change (String x ((a +:+ b) +:+ c) = String x (a +:+ (b +:+ c))). by rewrite IH.
Qed.

Lemma HasPrefix_drop (s p : string) :
  strings.HasPrefix s p = true → s = p +:+ strings.drop_bytes (String.length p) s.
Proof.
  unfold strings.HasPrefix. revert s.
  induction p as [|c p IH]; intros s; [done |].
  destruct s as [|x s]; simpl; [done |].
  destruct (ascii_dec c x) as [<- | _]; [| done].
  intros H.
  change (String c s = String c (p +:+ strings.drop_bytes (String.length p) s)).
  by rewrite <- (IH s H).
Qed.

Lemma length_zero_empty (s : string) : (String.length s =? 0)%nat = true → s = "".
Proof. by destruct s. Qed.

(** ** UTF-8 decoding: ASCII bytes are their own runes, any other byte starts
    a rune of at least 128 *)

Lemma byte_val_range (c : ascii) : 0 ≤ strings.byte_val c < 256.
Proof.
  unfold strings.byte_val.
  pose proof (N_ascii_bounded c). lia.
Qed.

Lemma byte_val_inj (c1 c2 : ascii) : strings.byte_val c1 = strings.byte_val c2 → c1 = c2.
Proof.
  unfold strings.byte_val. intros H. apply N2Z.inj in H.
  rewrite <- (ascii_N_embedding c1), <- (ascii_N_embedding c2). by rewrite H.
Qed.

Lemma ascii_eqb_byte_val (c1 c2 : ascii) :
  Ascii.eqb c1 c2 = (strings.byte_val c1 =? strings.byte_val c2).
Proof.
  destruct (Ascii.eqb c1 c2) eqn:E.
  - apply Ascii.eqb_eq in E as ->. symmetry. apply Z.eqb_refl.
  - symmetry. apply Z.eqb_neq. intros H. apply byte_val_inj in H.
    apply Ascii.eqb_neq in E. done.
Qed.

(** Replace the value of every byte literal by its number. *)
Ltac byte_consts :=
  repeat match goal with
    | |- context [strings.byte_val (Ascii ?a ?b ?c ?d ?e ?f ?g ?h)] =>
        let v := eval vm_compute in (strings.byte_val (Ascii a b c d e f g h)) in
        change (strings.byte_val (Ascii a b c d e f g h)) with v
    | H : context [strings.byte_val (Ascii ?a ?b ?c ?d ?e ?f ?g ?h)] |- _ =>
        let v := eval vm_compute in (strings.byte_val (Ascii a b c d e f g h)) in
        change (strings.byte_val (Ascii a b c d e f g h)) with v in H
    end.

Lemma lor_lower_bound (x y : Z) : 0 ≤ y → x ≤ Z.lor x y.
Proof.
  intros Hy. pose proof (Z.sub_lor_l_same_r y x) as H.
  assert (0 ≤ Z.land y (Z.lnot x)) by (apply Z.land_nonneg; lia).
  rewrite Z.lor_comm. lia.
Qed.

Lemma lor_lower_bound_r (x y : Z) : 0 ≤ x → y ≤ Z.lor x y.
Proof. intros. rewrite Z.lor_comm. by apply lor_lower_bound. Qed.

Lemma land_mask_bounds (x : Z) (n : Z) :
  0 ≤ n → 0 ≤ Z.land x (Z.ones n) < 2 ^ n.
Proof. intros. rewrite Z.land_ones by done. apply Z.mod_pos_bound. lia. Qed.

Lemma land_mask_mod (x : Z) (n : Z) : 0 ≤ n → Z.land x (Z.ones n) = x mod 2 ^ n.
Proof. intros. by rewrite Z.land_ones. Qed.

(** A byte below 128 is a rune of width one. *)
Lemma decode_ascii (c : ascii) (t : string) :
  strings.byte_val c < 0x80 →
  utf8.DecodeRuneInString (String c t) = (strings.byte_val c, 1%nat).
Proof.
  intros H. unfold utf8.DecodeRuneInString. simpl.
  change (strings.at_ (String c t) 0) with (strings.byte_val c).
  apply Z.ltb_lt in H. by rewrite H.
Qed.

(** A byte from 128 on starts a rune that is at least 128: a code point of
    two to four bytes, or [RuneError]. *)
Lemma decode_non_ascii (c : ascii) (t : string) :
  0x80 ≤ strings.byte_val c →
  0x80 ≤ (utf8.DecodeRuneInString (String c t)).1.
Proof.
  intros H. unfold utf8.DecodeRuneInString.
  change (strings.at_ (String c t) 0) with (strings.byte_val c).
  pose proof (byte_val_range c) as Hc.
  set (s0 := strings.byte_val c) in *.
  set (s1 := strings.at_ (String c t) 1).
  set (s2 := strings.at_ (String c t) 2).
  set (s3 := strings.at_ (String c t) 3).
  clearbody s0 s1 s2 s3.
  change 0x1F with (Z.ones 5). change 0x3F with (Z.ones 6).
  change 0x0F with (Z.ones 4). change 0x07 with (Z.ones 3).
  pose proof (land_mask_bounds s1 6 ltac:(lia)) as B1.
  pose proof (land_mask_bounds s2 6 ltac:(lia)) as B2.
  pose proof (land_mask_bounds s3 6 ltac:(lia)) as B3.
  pose proof (land_mask_bounds s0 5 ltac:(lia)) as B05.
  pose proof (land_mask_bounds s0 4 ltac:(lia)) as B04.
  pose proof (land_mask_bounds s0 3 ltac:(lia)) as B03.
  assert ((String.length (String c t) <? 1)%nat = false) as ->
    by (apply Nat.ltb_ge; simpl; lia).
  destruct (s0 <? 128) eqn:E0; [apply Z.ltb_lt in E0; lia |].
  destruct ((s0 <? 194) || (244 <? s0)) eqn:E1; [simpl; unfold utf8.RuneError; lia |].
  apply orb_false_iff in E1 as [E1 E1']. apply Z.ltb_ge in E1. apply Z.ltb_ge in E1'.
  cbv zeta.
  destruct (s0 <? 224) eqn:E3.
  { (* two bytes *)
    apply Z.ltb_lt in E3.
    destruct (_ <? 2)%nat; [simpl; unfold utf8.RuneError; lia |].
    destruct ((s1 <? _) || (_ <? s1)) eqn:E2; [simpl; unfold utf8.RuneError; lia |].
    simpl.
    etransitivity; [| apply lor_lower_bound; lia].
    rewrite Z.shiftl_mul_pow2 by lia. rewrite land_mask_mod by lia.
    assert (2 ≤ s0 mod 2 ^ 5) by (change (2 ^ 5) with 32; Z.div_mod_to_equations; lia). lia. }
  apply Z.ltb_ge in E3.
  destruct (s0 <? 240) eqn:E4.
  { (* three bytes *)
    apply Z.ltb_lt in E4.
    destruct (_ <? 3)%nat; [simpl; unfold utf8.RuneError; lia |].
    destruct ((s1 <? _) || (_ <? s1)) eqn:E2; [simpl; unfold utf8.RuneError; lia |].
    apply orb_false_iff in E2 as [E2 E2']. apply Z.ltb_ge in E2. apply Z.ltb_ge in E2'.
    simpl (_ <=? _)%nat. cbv iota.
    destruct ((s2 <? _) || (_ <? s2)); [simpl; unfold utf8.RuneError; lia |].
    simpl.
    assert (0 ≤ Z.shiftl (Z.land s0 (Z.ones 4)) 12)
      by (rewrite Z.shiftl_mul_pow2 by lia; lia).
    etransitivity; [| apply lor_lower_bound; lia].
    destruct (s0 =? 224) eqn:E5.
    - apply Z.eqb_eq in E5. subst s0. simpl in E2, E2'.
      etransitivity; [| apply lor_lower_bound_r; lia].
      rewrite Z.shiftl_mul_pow2 by lia. rewrite land_mask_mod by lia.
      assert (32 ≤ s1 mod 2 ^ 6) by (change (2 ^ 6) with 64; Z.div_mod_to_equations; lia). lia.
    - apply Z.eqb_neq in E5.
      etransitivity; [| apply lor_lower_bound].
      + rewrite Z.shiftl_mul_pow2 by lia. rewrite land_mask_mod by lia.
        assert (1 ≤ s0 mod 2 ^ 4) by (change (2 ^ 4) with 16; Z.div_mod_to_equations; lia). lia.
      + rewrite Z.shiftl_mul_pow2 by lia. lia. }
  apply Z.ltb_ge in E4.
  destruct (_ <? 4)%nat; [simpl; unfold utf8.RuneError; lia |].
  destruct ((s1 <? _) || (_ <? s1)) eqn:E2; [simpl; unfold utf8.RuneError; lia |].
  apply orb_false_iff in E2 as [E2 E2']. apply Z.ltb_ge in E2. apply Z.ltb_ge in E2'.
  simpl (_ <=? _)%nat. cbv iota.
  destruct ((s2 <? _) || (_ <? s2)); [simpl; unfold utf8.RuneError; lia |].
  destruct ((s3 <? _) || (_ <? s3)); [simpl; unfold utf8.RuneError; lia |].
  simpl.
  assert (0 ≤ Z.shiftl (Z.land s0 (Z.ones 3)) 18)
    by (rewrite Z.shiftl_mul_pow2 by lia; lia).
  assert (0 ≤ Z.shiftl (Z.land s1 (Z.ones 6)) 12)
    by (rewrite Z.shiftl_mul_pow2 by lia; lia).
  assert (0 ≤ Z.shiftl (Z.land s2 (Z.ones 6)) 6)
    by (rewrite Z.shiftl_mul_pow2 by lia; lia).
  etransitivity; [| apply lor_lower_bound; lia].
  etransitivity; [| apply lor_lower_bound; lia].
  destruct (s0 =? 240) eqn:E5.
  - apply Z.eqb_eq in E5. subst s0. simpl in E2, E2'.
    etransitivity; [| apply lor_lower_bound_r; lia].
    rewrite Z.shiftl_mul_pow2 by lia. rewrite land_mask_mod by lia.
    assert (16 ≤ s1 mod 2 ^ 6) by (change (2 ^ 6) with 64; Z.div_mod_to_equations; lia). lia.
  - apply Z.eqb_neq in E5.
    etransitivity; [| apply lor_lower_bound; lia].
    rewrite Z.shiftl_mul_pow2 by lia. rewrite land_mask_mod by lia.
    assert (1 ≤ s0 mod 2 ^ 3) by (change (2 ^ 3) with 8; Z.div_mod_to_equations; lia). lia.
Qed.

Lemma rangeFrom_ascii fuel i (c : ascii) (t : string) :
  strings.byte_val c < 0x80 →
  utf8.rangeFrom (S fuel) i (String c t)
  = (i, strings.byte_val c) :: utf8.rangeFrom fuel (i + 1) t.
Proof. intros H. simpl. by rewrite decode_ascii. Qed.

Lemma rangeFrom_head fuel i (c : ascii) (t : string) :
  ∃ rest, utf8.rangeFrom (S fuel) i (String c t)
          = (i, (utf8.DecodeRuneInString (String c t)).1) :: rest.
Proof. simpl. destruct (utf8.DecodeRuneInString (String c t)). eauto. Qed.

(** ** Domain validation *)

Lemma allowedDomainRune_ascii (r : Z) : errors.allowedDomainRune r = true → r < 0x80.
Proof.
  unfold errors.allowedDomainRune. byte_consts. intros H.
  repeat (apply orb_true_iff in H as [H | H]);
    try (apply andb_true_iff in H as [_ H]); lia.
Qed.

Lemma allowedByte_rune (c : ascii) :
  Spec.allowedByte c = errors.allowedDomainRune (strings.byte_val c).
Proof.
  unfold Spec.allowedByte, Spec.isLetter, Spec.isDigit, errors.allowedDomainRune.
  rewrite !ascii_eqb_byte_val. cbv zeta.
  destruct (_ && _), (_ && _), (_ && _); simpl; try reflexivity.
  destruct (_ =? _), (_ =? _), (_ =? _); reflexivity.
Qed.

(** The rune at a byte that is not allowed is not allowed either. *)
Lemma rune_of_bad_byte (c : ascii) (t : string) :
  Spec.allowedByte c = false →
  errors.allowedDomainRune (utf8.DecodeRuneInString (String c t)).1 = false.
Proof.
  intros Hbad. destruct (Z.lt_ge_cases (strings.byte_val c) 0x80) as [Hlt | Hge].
  - rewrite decode_ascii by done. simpl. by rewrite <- allowedByte_rune.
  - apply decode_non_ascii with (t := t) in Hge.
    destruct (errors.allowedDomainRune _) eqn:E; [| done].
    apply allowedDomainRune_ascii in E. lia.
Qed.

Lemma allowedByte_ascii (c : ascii) : Spec.allowedByte c = true → strings.byte_val c < 0x80.
Proof. rewrite allowedByte_rune. apply allowedDomainRune_ascii. Qed.

(** The loop over the runes of the domain stops at the first byte that is
    not allowed and reports the rune decoded there. *)
Lemma checkDomainRunes_rangeFrom (s : string) :
  ∀ fuel i, (String.length s ≤ fuel)%nat →
    errors.checkDomainRunes (utf8.rangeFrom fuel i s)
    = match Spec.firstBadByte s with
      | Some k =>
          errors.inputError
            (Spec.message
               (Spec.InvalidCharacter
                  (utf8.DecodeRuneInString (strings.drop_bytes k s)).1 (i + k + 1)))
      | None => None
      end.
Proof.
  induction s as [|c t IH]; intros fuel i Hfuel.
  - by destruct fuel.
  - destruct fuel as [|fuel]; [simpl in Hfuel; lia |].
    simpl Spec.firstBadByte. destruct (Spec.allowedByte c) eqn:Hc.
    + rewrite rangeFrom_ascii by by apply allowedByte_ascii.
      simpl errors.checkDomainRunes. rewrite <- allowedByte_rune, Hc. simpl negb. cbv iota.
      rewrite IH by (simpl in Hfuel; lia).
      destruct (Spec.firstBadByte t) as [k|]; [| done]. simpl.
      do 5 f_equal. lia.
    + destruct (rangeFrom_head fuel i c t) as [rest ->].
      simpl errors.checkDomainRunes. rewrite (rune_of_bad_byte c t Hc). simpl.
      do 5 f_equal. lia.
Qed.

Lemma checkDomainRunes_range (s : string) :
  errors.checkDomainRunes (utf8.range s)
  = match Spec.firstBadByte s with
    | Some k =>
        errors.inputError
          (Spec.message
             (Spec.InvalidCharacter (utf8.DecodeRuneInString (strings.drop_bytes k s)).1
                (k + 1)))
    | None => None
    end.
Proof. unfold utf8.range. by rewrite checkDomainRunes_rangeFrom. Qed.

Lemma firstBadByte_None (s : string) :
  Spec.firstBadByte s = None ↔ forallb Spec.allowedByte (list_ascii_of_string s) = true.
Proof.
  induction s as [|c t IH]; simpl; [done |].
  destruct (Spec.allowedByte c); simpl; [| done].
  rewrite <- IH. destruct (Spec.firstBadByte t); done.
Qed.

(** [allNumeric], a loop over runes, tests the bytes. *)
Lemma allNumeric_rangeFrom (s : string) :
  ∀ fuel i, (String.length s ≤ fuel)%nat →
    forallb (λ ir : nat * Z,
               negb ((ir.2 <? strings.byte_val "0") || (strings.byte_val "9" <? ir.2)))
      (utf8.rangeFrom fuel i s)
    = Spec.allDigits s.
Proof.
  unfold Spec.allDigits.
  induction s as [|c t IH]; intros fuel i Hfuel.
  - by destruct fuel.
  - destruct fuel as [|fuel]; [simpl in Hfuel; lia |].
    destruct (Z.lt_ge_cases (strings.byte_val c) 0x80) as [Hlt | Hge].
    + rewrite rangeFrom_ascii by done. simpl forallb.
      rewrite IH by (simpl in Hfuel; lia). f_equal.
      unfold Spec.isDigit. cbv zeta. byte_consts. simpl.
      destruct (strings.byte_val c <? 48) eqn:E1, (57 <? strings.byte_val c) eqn:E2;
        destruct (48 <=? strings.byte_val c) eqn:E3, (strings.byte_val c <=? 57) eqn:E4;
        try reflexivity; lia.
    + destruct (rangeFrom_head fuel i c t) as [rest ->].
      apply decode_non_ascii with (t := t) in Hge as Hr.
      simpl forallb.
      assert (Spec.isDigit c = false) as ->
        by (unfold Spec.isDigit; byte_consts; apply andb_false_iff; right; lia).
      byte_consts.
      replace (57 <? _) with true by (symmetry; apply Z.ltb_lt; lia).
      by rewrite orb_true_r.
Qed.

Lemma allNumeric_allDigits (label : string) : errors.allNumeric label = Spec.allDigits label.
Proof. unfold errors.allNumeric, utf8.range. by apply allNumeric_rangeFrom. Qed.

Lemma HasSuffix_last_label (domain : string) (c : ascii) :
  c ≠ "."%char →
  strings.HasSuffix (List.last (Spec.labels domain) EmptyString) (String c EmptyString)
  = strings.HasSuffix domain (String c EmptyString).
Proof.
  intros Hc. rewrite !HasSuffix_byte. unfold Spec.labels, strings.Split.
  rewrite lastByte_last_label. simpl.
  destruct (strings.lastByte domain) as [x|]; [| done].
  destruct (Ascii.eqb x ".") eqn:E; [| done].
  apply Ascii.eqb_eq in E as ->.
  rewrite !bool_decide_eq_false_2; [done | congruence | congruence].
Qed.

(** The loop over the labels finds the first label that breaks a rule. *)
Lemma checkLabels_firstLabelViolation (ls : list string) :
  ∀ n i, n = (i + length ls)%nat →
    errors.checkLabels n i ls = Spec.errorOf <$> Spec.firstLabelViolation ls.
Proof.
  induction ls as [|label rest IH]; intros n i Hn; [done |].
  simpl. unfold Spec.labelViolation.
  assert ((String.length label =? 0)%nat = String.eqb label "") as ->.
  { destruct label; done. }
  destruct (String.eqb label ""); [done |].
  destruct (63 <? String.length label)%nat; [done |].
  destruct (_ || _); [done |].
  destruct (strings.HasSuffix label "_"); [done |].
  rewrite allNumeric_allDigits.
  assert ((i =? n - 1)%nat = bool_decide (rest = [])) as ->.
  { destruct rest as [|r rest'].
    - rewrite bool_decide_eq_true_2 by done. apply Nat.eqb_eq. simpl in Hn. lia.
    - rewrite bool_decide_eq_false_2 by done. apply Nat.eqb_neq. simpl in Hn. lia. }
  destruct (_ && _); [done |].
  apply IH. simpl in Hn. lia.
Qed.

(** C3, second half: any error of [ValidateDomain] is the Input error, without cause,
    whose message names the first violation, the rules over the whole
    domain being taken in their order and the labels then from left to
    right. *)
Lemma ValidateDomain_firstViolation (domain : string) :
  errors.ValidateDomain domain = Spec.errorOf <$> Spec.firstViolation domain.
Proof.
  unfold errors.ValidateDomain, Spec.firstViolation.
  destruct (String.eqb domain ""); [done |].
  destruct (253 <? String.length domain)%nat; [done |].
  rewrite checkDomainRunes_range.
  destruct (Spec.firstBadByte domain); [done |].
  destruct (strings.Contains domain ".."); [done |].
  destruct (_ || _); [done |].
  destruct (_ || _); [done |].
  destruct (strings.HasSuffix domain "_"); [done |].
  by apply checkLabels_firstLabelViolation.
Qed.

(** No label breaks a rule exactly when every rule holds of all labels. *)
Lemma firstLabelViolation_None (ls : list string) :
  ls ≠ [] →
  Spec.firstLabelViolation ls = None
  ↔ forallb (λ l, negb (String.eqb l "") && (String.length l <=? 63)%nat) ls
    && forallb (λ l, negb (strings.HasPrefix l "-") && negb (strings.HasSuffix l "-")) ls
    && forallb (λ l, negb (strings.HasSuffix l "_")) ls
    && negb (Spec.allDigits (List.last ls "")) = true.
Proof.
  induction ls as [|label rest IH]; [done |]. intros _.
  cbn [Spec.firstLabelViolation forallb]. unfold Spec.labelViolation.
  destruct (String.eqb label ""); [simpl; done |].
  rewrite Nat.ltb_antisym.
  destruct (String.length label <=? 63)%nat; [| simpl; done].
  simpl negb at 1 2. cbv iota.
  rewrite <- negb_orb.
  destruct (_ || _);
    [by repeat first [rewrite andb_false_r | rewrite andb_false_l | progress simpl] |].
  destruct (strings.HasSuffix label "_");
    [by repeat first [rewrite andb_false_r | rewrite andb_false_l | progress simpl] |].
  simpl negb. rewrite !andb_true_l.
  destruct rest as [|l2 rest].
  - rewrite bool_decide_eq_true_2 by done.
    change (List.last [label] "") with label.
    destruct (Spec.allDigits label); simpl; done.
  - rewrite bool_decide_eq_false_2 by done. rewrite andb_false_l.
    rewrite IH by done. done.
Qed.

(** No violation exactly when the domain satisfies the rules. *)
Lemma firstViolation_None (domain : string) :
  Spec.firstViolation domain = None ↔ Spec.validDomain domain = true.
Proof.
  unfold Spec.firstViolation, Spec.validDomain.
  destruct (String.eqb domain ""); [simpl; done |].
  rewrite Nat.ltb_antisym.
  destruct (String.length domain <=? 253)%nat; [| simpl; done].
  simpl negb at 1 2. cbv iota. rewrite !andb_true_l.
  pose proof (firstBadByte_None domain) as Hb.
  destruct (Spec.firstBadByte domain) as [k|].
  { destruct (forallb Spec.allowedByte _); [| simpl; done].
    destruct Hb as [_ Hb]. discriminate (Hb eq_refl). }
  rewrite (proj1 Hb eq_refl), andb_true_l.
  destruct (strings.Contains domain ".."); [simpl; done |].
  destruct (strings.HasPrefix domain "."); [simpl; done |].
  destruct (strings.HasSuffix domain "."); [simpl; done |].
  destruct (strings.HasPrefix domain "-"); [simpl; done |].
  destruct (strings.HasSuffix domain "-"); [simpl; done |].
  simpl orb. simpl negb. cbv iota. rewrite !andb_true_l.
  assert (Spec.labels domain ≠ []) as Hne by apply splitFrom_nonempty.
  destruct (strings.HasSuffix domain "_") eqn:Hu.
  - split; [done |]. intros H. exfalso.
    rewrite <- (HasSuffix_last_label domain "_") in Hu by done.
    apply andb_true_iff in H as [H _]. apply andb_true_iff in H as [_ H].
    rewrite forallb_forall in H.
    specialize (H (List.last (Spec.labels domain) "")).
    rewrite Hu in H. 
    assert (In (List.last (Spec.labels domain) "") (Spec.labels domain)) as Hin.
    { destruct (exists_last Hne) as (l' & a & ->). rewrite last_last.
      apply in_or_app. right. by left. }
    specialize (H Hin). done.
  - rewrite firstLabelViolation_None by done. rewrite <- !andb_assoc. done.
Qed.

Lemma ValidateDomain_input (domain : string) (e : errors.error) :
  errors.ValidateDomain domain = Some e → errors.IsInputError (Some e) = true.
Proof.
  rewrite ValidateDomain_firstViolation.
  destruct (Spec.firstViolation domain); simpl; [| done]. by intros [= <-].
Qed.

(** C3 as the code has it: [ValidateDomain] returns nil exactly for the
    domains that satisfy every rule; any error it returns is an Input error
    without cause for the first violation met when the rules over the whole
    domain are taken in their order (the last of them a trailing underscore)
    and the labels are then examined from left to right, each label against
    length, hyphen, underscore and, for the last label, digits only. *)
Theorem ValidateDomain_rules (domain : string) :
  (errors.ValidateDomain domain = None ↔ Spec.validDomain domain = true)
  ∧ errors.ValidateDomain domain = Spec.errorOf <$> Spec.firstViolation domain
  ∧ (∀ e, errors.ValidateDomain domain = Some e → errors.IsInputError (Some e) = true).
Proof.
  split; [| split].
  - rewrite <- firstViolation_None, ValidateDomain_firstViolation.
    destruct (Spec.firstViolation domain); done.
  - apply ValidateDomain_firstViolation.
  - apply ValidateDomain_input.
Qed.

(** The domain "a_.b-.com" breaks the hyphen rule (label "b-"), which the
    list of rules has before the underscore rule, yet [ValidateDomain]
    reports the underscore of the label "a_": it stops at the leftmost label
    that breaks a rule. *)
Lemma ValidateDomain_reports_leftmost_label :
  In "b-" (Spec.labels "a_.b-.com")
  ∧ strings.HasSuffix "b-" "-" = true
  ∧ Spec.firstRuleViolation "a_.b-.com" = Some (Spec.LabelHyphen "b-")
  ∧ errors.ValidateDomain "a_.b-.com" = Some (Spec.errorOf (Spec.LabelUnderscore "a_"))
  ∧ Spec.message (Spec.LabelUnderscore "a_") = "domain label 'a_' cannot end with underscore".
Proof. repeat split; try reflexivity. right. by left. Qed.

(** ** Record types *)

(** The keys of [validTypes] that read as [true]. *)
Lemma validTypes_lookup (k : string) :
  default false (errors.validTypes !! k) = true →
  k ∈ ["A"; "AAAA"; "MX"; "CNAME"; "TXT"].
Proof.
  unfold errors.validTypes. intros H.
  repeat (rewrite lookup_insert in H; case_decide; [subst k; set_solver |]).
  rewrite lookup_empty in H. discriminate.
Qed.

(** Every such key is a case of the switch on the query type. *)
Lemma validTypes_query_type (k : string) :
  default false (errors.validTypes !! k) = true →
  is_Some (dns.queryTypeOf k).
Proof.
  intros H. apply validTypes_lookup in H.
  repeat (apply elem_of_cons in H as [-> | H]; [by eexists  |]).
  by apply elem_of_nil in H.
Qed.

Lemma ValidateRecordType_nil lib recordType :
  errors.ValidateRecordType lib recordType = None →
  default false (errors.validTypes !! strings.ToUpper lib recordType) = true.
Proof.
  unfold errors.ValidateRecordType, errors.inputError.
  destruct (String.eqb recordType ""); [discriminate  |].
  destruct (default false _); [done | discriminate].
Qed.

(** ** The other validation errors are Input errors too *)

Lemma ValidateRecordType_input lib (recordType : string) (e : errors.error) :
  errors.ValidateRecordType lib recordType = Some e → errors.IsInputError (Some e) = true.
Proof.
  unfold errors.ValidateRecordType, errors.inputError.
  destruct (String.eqb recordType ""); [by intros [= <-] |].
  destruct (negb _); [by intros [= <-] | done].
Qed.

Lemma ValidateDNSServer_input (server : string) (e : errors.error) :
  errors.ValidateDNSServer server = Some e → errors.IsInputError (Some e) = true.
Proof.
  unfold errors.ValidateDNSServer, errors.inputError.
  destruct (String.eqb server ""); [by intros [= <-] |].
  destruct (net.ParseIP server); [| by intros [= <-]].
  destruct (_ && _); [by intros [= <-] | done].
Qed.

Lemma portDigits_input (port : string) (rs : list (nat * Z)) :
  ∀ portNum e, errors.portDigits port rs portNum = inl (Some e) →
               errors.IsInputError (Some e) = true.
Proof.
  induction rs as [|[i r] rs IH]; intros portNum e; simpl; [done |].
  unfold errors.inputError.
  destruct (_ || _); [by intros [= <-] |].
  destruct (65535 <? _); [by intros [= <-] | apply IH].
Qed.

Lemma portDigits_error (port : string) (rs : list (nat * Z)) :
  ∀ portNum, errors.portDigits port rs portNum ≠ inl None.
Proof.
  induction rs as [|[i r] rs IH]; intros portNum; simpl; [done |].
  unfold errors.inputError.
  destruct (_ || _); [done |]. destruct (65535 <? _); [done | apply IH].
Qed.

Lemma ValidateDNSPort_input (port : string) (e : errors.error) :
  errors.ValidateDNSPort port = Some e → errors.IsInputError (Some e) = true.
Proof.
  unfold errors.ValidateDNSPort.
  destruct (String.eqb port ""); [by intros [= <-] |].
  destruct (errors.portDigits port _ 0) as [[e0|]|portNum] eqn:Hp.
  - intros [= <-]. by apply portDigits_input in Hp.
  - by apply portDigits_error in Hp.
  - unfold errors.inputError. destruct (_ || _); [by intros [= <-] | done].
Qed.

Lemma splitAndValidate_input (server : string) (e : errors.error) :
  dns.splitAndValidate server = inl e → errors.IsInputError (Some e) = true.
Proof.
  unfold dns.splitAndValidate.
  destruct (net.SplitHostPort server) as [[host port]|text]; [| by intros [= <-]].
  destruct (errors.ValidateDNSServer host) as [e0|] eqn:Hh.
  { intros [= <-]. by apply ValidateDNSServer_input in Hh. }
  destruct (errors.ValidateDNSPort port) as [e0|] eqn:Hp; [| done].
  intros [= <-]. by apply ValidateDNSPort_input in Hp.
Qed.

Lemma prepareServer_input (w : dns.World) (server : string) (e : errors.error) :
  dns.prepareServer w server = inl e → errors.IsInputError (Some e) = true.
Proof.
  unfold dns.prepareServer.
  destruct (String.eqb server "").
  { destruct (dns.getSystemDNS w) as [s [e0|]]; done. }
  destruct (_ && _); [apply splitAndValidate_input |].
  destruct (_ || _); [| apply splitAndValidate_input].
  destruct (errors.ValidateDNSServer server) as [e0|] eqn:Hs.
  - intros [= <-]. by apply ValidateDNSServer_input in Hs.
  - by destruct (_ && _).
Qed.

(** ** Server addresses that open a bracket *)

Lemma parseIPv4_bracket (t : string) : net.parseIPv4 (String "[" t) = None.
Proof. reflexivity. Qed.

Lemma parseIPv6_bracket (t : string) : net.parseIPv6 (String "[" t) = None.
Proof.
  unfold net.parseIPv6. simpl net.cutByte.
  destruct (net.cutByte "%" t) as [[a zone]|].
  - destruct (String.eqb zone ""); reflexivity.
  - reflexivity.
Qed.

Lemma ParseAddr_scan_bracket (t s : string) : net.ParseAddr_scan (String "[" t) s = None.
Proof.
  induction s as [|c s IH]; cbn [net.ParseAddr_scan]; [done |].
  destruct (Ascii.eqb c "."); [by rewrite parseIPv4_bracket |].
  destruct (Ascii.eqb c ":"); [by rewrite parseIPv6_bracket |].
  destruct (Ascii.eqb c "%"); [done | apply IH].
Qed.

(** No IP literal opens with a bracket. *)
Lemma ParseIP_bracket (s : string) : strings.HasPrefix s "[" = true → net.ParseIP s = None.
Proof.
  intros [t ->]%HasPrefix_byte. unfold net.ParseIP, net.ParseAddr.
  by rewrite ParseAddr_scan_bracket.
Qed.

Lemma IndexByteString_from_get (s : string) (c : ascii) :
  ∀ i, net.IndexByteString_from s c i = -1
       ∨ (i ≤ net.IndexByteString_from s c i
          ∧ String.get (Z.to_nat (net.IndexByteString_from s c i - i)) s = Some c).
Proof.
  induction s as [|x t IH]; intros i; simpl; [by left |].
  destruct (Ascii.eqb x c) eqn:E.
  - apply Ascii.eqb_eq in E as ->. right. split; [lia |]. by rewrite Z.sub_diag.
  - destruct (IH (i + 1)) as [H | [H1 H2]]; [by left |]. right. split; [lia |].
    replace (Z.to_nat (net.IndexByteString_from t c (i + 1) - i))
      with (S (Z.to_nat (net.IndexByteString_from t c (i + 1) - (i + 1)))) by lia.
    exact H2.
Qed.

Lemma LastIndexByteString_from_get (s : string) (c : ascii) :
  ∀ i last, net.LastIndexByteString_from s c i last = last
            ∨ (i ≤ net.LastIndexByteString_from s c i last
               ∧ String.get (Z.to_nat (net.LastIndexByteString_from s c i last - i)) s
                 = Some c).
Proof.
  induction s as [|x t IH]; intros i last; simpl; [by left |].
  destruct (Ascii.eqb x c) eqn:E.
  - apply Ascii.eqb_eq in E as ->.
    destruct (IH (i + 1) i) as [-> | [H1 H2]].
    + right. split; [lia |]. by rewrite Z.sub_diag.
    + right. split; [lia |].
      replace (Z.to_nat (net.LastIndexByteString_from t c (i + 1) i - i))
        with (S (Z.to_nat (net.LastIndexByteString_from t c (i + 1) i - (i + 1)))) by lia.
      exact H2.
  - destruct (IH (i + 1) last) as [-> | [H1 H2]]; [by left |].
    right. split; [lia |].
    replace (Z.to_nat (net.LastIndexByteString_from t c (i + 1) last - i))
      with (S (Z.to_nat (net.LastIndexByteString_from t c (i + 1) last - (i + 1)))) by lia.
    exact H2.
Qed.

Lemma get_adjacent_Contains (s : string) (a b : ascii) :
  ∀ n, String.get n s = Some a → String.get (S n) s = Some b →
       strings.Contains s (String a (String b EmptyString)) = true.
Proof.
  induction s as [|x t IH]; intros n Ha Hb; [done |].
  destruct n as [|n].
  - simpl in Ha. injection Ha as ->. simpl in Hb.
    destruct t as [|y t']; [done |]. simpl in Hb. injection Hb as ->.
    simpl. destruct (ascii_dec a a); [| done]. destruct (ascii_dec b b); [| done].
    by destruct t'.
  - simpl in Ha, Hb. cbn [strings.Contains]. rewrite (IH n Ha Hb). apply orb_true_r.
Qed.

(** A server that opens a bracket and has no "]:" does not split into
    host and port. *)
Lemma SplitHostPort_bracket_no_port (s : string) :
  strings.HasPrefix s "[" = true →
  strings.Contains s "]:" = false →
  ∃ text, net.SplitHostPort s = inr text.
Proof.
  intros [t ->]%HasPrefix_byte Hno. unfold net.SplitHostPort.
  set (s := String "[" t) in *.
  destruct (net.LastIndexByteString s ":" <? 0) eqn:Hi; [eauto |].
  apply Z.ltb_ge in Hi.
  change (strings.at_ s 0 =? strings.byte_val "[") with true. cbv iota.
  destruct (net.IndexByteString s "]" <? 0) eqn:He; [eauto |].
  apply Z.ltb_ge in He.
  destruct (_ =? net.len s); [eauto |].
  destruct (net.IndexByteString s "]" + 1 =? net.LastIndexByteString s ":") eqn:Hadj.
  2: { destruct (strings.at_ s _ =? _); eauto. }
  exfalso. apply Z.eqb_eq in Hadj.
  unfold net.IndexByteString, net.LastIndexByteString in *.
  destruct (IndexByteString_from_get s "]" 0) as [H | [_ Hb]]; [lia |].
  destruct (LastIndexByteString_from_get s ":" 0 (-1)) as [H | [_ Hc]]; [lia |].
  rewrite <- Hadj in Hc. rewrite Z.sub_0_r in Hb, Hc.
  replace (Z.to_nat (net.IndexByteString_from s "]" 0 + 1))
    with (S (Z.to_nat (net.IndexByteString_from s "]" 0))) in Hc by lia.
  rewrite (get_adjacent_Contains s _ _ _ Hb Hc) in Hno. done.
Qed.

(** A server that opens a bracket, has a colon and no "]:" is refused with
    the error of the failed split. *)
Lemma prepareServer_bracket_no_port (w : dns.World) (server : string) :
  strings.HasPrefix server "[" = true →
  strings.Contains server "]:" = false →
  strings.Contains server ":" = true →
  ∃ text,
    dns.prepareServer w server
    = inl (errors.ADigError
             (errors.NewInputError ("invalid DNS server format: " +:+ server)
                (Some (errors.ForeignError text)))).
Proof.
  intros Hb Hno Hc. unfold dns.prepareServer.
  destruct (HasPrefix_byte _ _ Hb) as [t Ht].
  assert (String.eqb server "" = false) as -> by by subst.
  rewrite Hno, andb_false_r, Hc, (ParseIP_bracket _ Hb).
  rewrite bool_decide_eq_false_2 by (intros H; by apply H). simpl.
  unfold dns.splitAndValidate.
  destruct (SplitHostPort_bracket_no_port _ Hb Hno) as [text ->]. eauto.
Qed.

(** ** What an IP literal is made of *)

Lemma ipBytes_app (a b : string) : net.ipBytes (a +:+ b) = net.ipBytes a && net.ipBytes b.
Proof. induction a as [|c a IH]; simpl; [done |]. by rewrite IH, andb_assoc. Qed.

Lemma hexGroup_bytes (s : string) :
  ∀ off acc off' acc' rest,
    net.hexGroup s off acc = Some (off', acc', rest) →
    ∃ pre, s = pre +:+ rest ∧ net.ipBytes pre = true.
Proof.
  induction s as [|c t IH]; intros off acc off' acc' rest; simpl.
  - intros [= _ _ <-]. by exists "".
  - destruct (net.hexValue (strings.byte_val c)) as [d|] eqn:Hd.
    + destruct (3 <? off)%nat; [done |]. destruct (65535 <? _); [done |].
      intros (pre & -> & Hpre)%IH. exists (String c pre). split; [done |].
      simpl. rewrite Hpre. unfold net.ipByte. rewrite Hd.
      by rewrite bool_decide_eq_true_2 by eauto.
    + intros [= _ _ <-]. by exists "".
Qed.

Lemma parseIPv4Fields_from_bytes (s : string) :
  ∀ i len prev val pos digLen fields r,
    net.parseIPv4Fields_from s i len prev val pos digLen fields = Some r →
    net.ipBytes s = true.
Proof.
  induction s as [|c t IH]; intros i len prev val pos digLen fields r; simpl; [done |].
  destruct (net.isDigit (strings.byte_val c)) eqn:Hd.
  - destruct (_ && _); [done |]. destruct (255 <? _); [done |].
    intros H%IH. rewrite H, andb_true_r. unfold net.ipByte, net.hexValue. rewrite Hd.
    by rewrite bool_decide_eq_true_2 by eauto.
  - destruct (strings.byte_val c =? strings.byte_val ".") eqn:Hdot; [| done].
    destruct (_ || _); [done |]. destruct (pos =? 3)%nat; [done |].
    intros H%IH. rewrite H, andb_true_r. unfold net.ipByte.
    apply Z.eqb_eq in Hdot.
    assert (c = "."%char) as ->.
    { unfold strings.byte_val in Hdot. apply N2Z.inj in Hdot.
      rewrite <- (ascii_N_embedding c), Hdot. reflexivity. }
    by rewrite orb_true_r.
Qed.

Lemma parseIPv6_groups_bytes (fuel : nat) :
  ∀ s ip ellipsis rest ip' ellipsis',
    net.parseIPv6_groups fuel s ip ellipsis = Some (rest, ip', ellipsis') →
    ∃ pre, s = pre +:+ rest ∧ net.ipBytes pre = true.
Proof.
  induction fuel as [|fuel IH]; intros s ip ellipsis rest ip' ellipsis';
    cbn [net.parseIPv6_groups]; cbv zeta.
  { intros [= <- _ _]. by exists "". }
  destruct (16 <=? length ip)%nat.
  { intros [= <- _ _]. by exists "". }
  destruct (net.hexGroup s 0 0) as [[[off acc] r1]|] eqn:Hg; [| done].
  destruct (hexGroup_bytes _ _ _ _ _ _ Hg) as (p1 & Hs & Hp1).
  destruct (off =? 0)%nat; [done |].
  destruct (strings.HasPrefix r1 ".").
  { destruct (_ && _); [done |]. destruct (16 <? _)%nat; [done |].
    destruct (net.parseIPv4Fields s) as [f4|] eqn:H4; [| done].
    intros [= <- _ _]. exists s. split; [by rewrite append_empty_r |].
    by apply parseIPv4Fields_from_bytes in H4. }
  destruct r1 as [|c0 s1].
  { intros [= <- _ _]. exists p1. by subst. }
  destruct (negb _) eqn:Hc0; [done |].
  apply negb_false_iff, Z.eqb_eq in Hc0.
  assert (c0 = ":"%char) as ->.
  { unfold strings.byte_val in Hc0. apply N2Z.inj in Hc0.
    rewrite <- (ascii_N_embedding c0), Hc0. reflexivity. }
  destruct s1 as [|c1 s2]; [done |].
  destruct (strings.byte_val c1 =? strings.byte_val ":") eqn:Hc1.
  - apply Z.eqb_eq in Hc1.
    assert (c1 = ":"%char) as ->.
    { unfold strings.byte_val in Hc1. apply N2Z.inj in Hc1.
      rewrite <- (ascii_N_embedding c1), Hc1. reflexivity. }
    destruct ellipsis; [done |].
    destruct s2 as [|c2 s3].
    + intros [= <- _ _]. exists s. split; [by rewrite append_empty_r |].
      subst s. rewrite ipBytes_app, Hp1. reflexivity.
    + intros (p2 & Hs2 & Hp2)%IH. exists (p1 +:+ "::" +:+ p2). split.
      * subst s. rewrite Hs2, !append_assoc. reflexivity.
      * rewrite !ipBytes_app, Hp1, Hp2. reflexivity.
  - intros (p2 & Hs2 & Hp2)%IH. exists (p1 +:+ ":" +:+ p2). split.
    + subst s. rewrite Hs2, !append_assoc. reflexivity.
    + rewrite !ipBytes_app, Hp1, Hp2. reflexivity.
Qed.

Lemma parseIPv6_bytes (inp : string) (ip : net.IP) :
  net.parseIPv6 inp = Some (ip, "") → net.ipBytes inp = true.
Proof.
  unfold net.parseIPv6.
  destruct (net.cutByte "%" inp) as [[s zone]|].
  - destruct (String.eqb zone "") eqn:Hz; [done |].
    destruct (strings.HasPrefix s "::"); cbv zeta iota beta;
      destruct (_ && _); try (intros [= _ ->]; discriminate);
      destruct (net.parseIPv6_groups _ _ _ _) as [[[rest ip'] el]|]; try done;
      destruct (negb _); try done; destruct (_ <? _)%nat; destruct el; try done;
      intros [= _ ->]; discriminate.
  - destruct (strings.HasPrefix inp "::") eqn:Hp; cbv zeta iota beta.
    + apply HasPrefix_drop in Hp. change (String.length "::") with 2%nat in Hp.
      rewrite bool_decide_eq_true_2 by done. rewrite andb_true_l.
      destruct (String.length _ =? 0)%nat eqn:Hl.
      { apply length_zero_empty in Hl. rewrite Hl in Hp. by rewrite Hp. }
      destruct (net.parseIPv6_groups _ _ _ _) as [[[rest ip'] el]|] eqn:Hg; [| done].
      destruct (negb _) eqn:Hr; [done |]. intros _.
      apply negb_false_iff, length_zero_empty in Hr. subst rest.
      apply parseIPv6_groups_bytes in Hg as (pre & Hs & Hpre).
      rewrite append_empty_r in Hs. rewrite Hp, ipBytes_app, Hs, Hpre. reflexivity.
    + rewrite bool_decide_eq_false_2 by done. rewrite andb_false_l.
      destruct (net.parseIPv6_groups _ _ _ _) as [[[rest ip'] el]|] eqn:Hg; [| done].
      destruct (negb _) eqn:Hr; [done |]. intros _.
      apply negb_false_iff, length_zero_empty in Hr. subst rest.
      apply parseIPv6_groups_bytes in Hg as (pre & Hs & Hpre).
      rewrite append_empty_r in Hs. by rewrite Hs.
Qed.

Lemma ParseAddr_scan_bytes (whole s : string) (ip : net.IP) :
  net.ParseAddr_scan whole s = Some (ip, "") → net.ipBytes whole = true.
Proof.
  induction s as [|c s IH]; cbn [net.ParseAddr_scan]; [done |].
  destruct (Ascii.eqb c ".").
  { unfold net.parseIPv4.
    destruct (net.parseIPv4Fields whole) as [f|] eqn:H4; [| done]. intros _.
    by apply parseIPv4Fields_from_bytes in H4. }
  destruct (Ascii.eqb c ":"); [apply parseIPv6_bytes |].
  destruct (Ascii.eqb c "%"); [done | apply IH].
Qed.

(** An IP literal is made of hexadecimal digits, colons and dots. *)
Lemma ParseIP_bytes (s : string) (ip : net.IP) :
  net.ParseIP s = Some ip → net.ipBytes s = true.
Proof.
  unfold net.ParseIP, net.ParseAddr.
  destruct (net.ParseAddr_scan s s) as [[ip' zone]|] eqn:Hscan; [| done].
  destruct (String.eqb zone "") eqn:Hz; [| done]. intros _.
  apply String.eqb_eq in Hz. subst zone. by apply ParseAddr_scan_bytes in Hscan.
Qed.

Lemma no_port_after_literal (s : string) :
  net.ipBytes s = true → strings.Contains (s +:+ "]") "]:" = false.
Proof.
  induction s as [|c s IH]; [done |].
  intros [Hc Hs]%andb_true_iff.
  change (strings.Contains (String c (s +:+ "]")) "]:" = false).
  cbn [strings.Contains String.prefix]. rewrite (IH Hs), orb_false_r.
  destruct (ascii_dec "]" c) as [<- | _]; [done | done].
Qed.

(** A bracketed IPv6 literal without a port opens a bracket, has a colon
    and has no "]:". *)
Lemma bracketed_IPv6_literal_without_port (ip : string) (a : net.IP) :
  net.ParseIP ip = Some a →
  strings.Contains ip ":" = true →
  let server := "[" +:+ ip +:+ "]" in
  strings.HasPrefix server "[" = true
  ∧ strings.Contains server "]:" = false
  ∧ strings.Contains server ":" = true.
Proof.
  intros Hip Hcolon server. split; [| split].
  - unfold server, strings.HasPrefix. simpl. by destruct (ip +:+ "]").
  - apply ParseIP_bytes, no_port_after_literal in Hip.
    unfold server. change ("[" +:+ ip +:+ "]") with (String "[" (ip +:+ "]")).
    cbn [strings.Contains String.prefix]. by rewrite Hip.
  - unfold server. by apply (Contains_app_r "["), Contains_app_l.
Qed.

(** ** The shape of a run of [Query] *)

(** A run either returns during validation or server preparation, leaving
    the world as it was, or performs one exchange and interprets it. *)
Lemma Query_run lib c d rt s w :
  (∃ e, dns.Query lib c d rt s w
        = (dns.fail (dns.mkResult d rt [] s 0 None) (Some e), w)
        ∧ (errors.ValidateDomain d = Some e
           ∨ (errors.ValidateDomain d = None
              ∧ errors.ValidateRecordType lib rt = Some e)
           ∨ (errors.ValidateDomain d = None
              ∧ errors.ValidateRecordType lib rt = None
              ∧ dns.prepareServer w s = inl e)))
  ∨ (∃ fs qt,
        errors.ValidateDomain d = None
        ∧ errors.ValidateRecordType lib rt = None
        ∧ dns.prepareServer w s = inr fs
        ∧ dns.queryTypeOf (strings.ToUpper lib rt) = Some qt
        ∧ let msg := dns.SetQuestion (Fqdn lib d) qt in
          let ex := dns.Exchange (dns.timeout c) msg fs w in
          dns.Query lib c d rt s w
          = (dns.interpretExchange lib d (strings.ToUpper lib rt) fs
               (dns.mkResult d rt [] fs (dns.now (snd ex) - dns.now w) None) (fst ex),
             snd ex)).
Proof.
  unfold dns.Query.
  destruct (errors.ValidateDomain d) as [e |] eqn:Hd; [left; eauto 6  |].
  destruct (errors.ValidateRecordType lib rt) as [e |] eqn:Ht; [left; eauto 8  |].
  destruct (dns.prepareServer w s) as [e|fs] eqn:Hs; [left; eauto 10  |].
  destruct (validTypes_query_type _ (ValidateRecordType_nil _ _ Ht)) as [qt Hq].
  right. exists fs, qt. rewrite Hq. by repeat split.
Qed.

Lemma exchanged_Exchange t msg fs w :
  dns.exchanged (snd (dns.Exchange t msg fs w)) = dns.exchanged w ++ [(msg, fs)].
Proof. reflexivity. Qed.

(** A run that extended the log of exchanges by [(msg, fs)] is a run of the
    second kind, and [msg], [fs] are the question and the prepared server. *)
Lemma Query_exchanged lib c d rt s w r e w' msg fs :
  dns.Query lib c d rt s w = (r, e, w') →
  dns.exchanged w' = dns.exchanged w ++ [(msg, fs)] →
  errors.ValidateDomain d = None
  ∧ errors.ValidateRecordType lib rt = None
  ∧ dns.prepareServer w s = inr fs
  ∧ (∃ qt, dns.queryTypeOf (strings.ToUpper lib rt) = Some qt
           ∧ msg = dns.SetQuestion (Fqdn lib d) qt)
  ∧ (r, e) = dns.interpretExchange lib d (strings.ToUpper lib rt) fs
               (dns.mkResult d rt [] fs (dns.now w' - dns.now w) None)
               (dns.network w (dns.timeout c) msg fs).
Proof.
  intros HQ Hlog.
  destruct (Query_run lib c d rt s w) as [(e0 & Heq & _) | (fs0 & qt & Hd & Ht & Hs & Hq & Heq)].
  - rewrite Heq in HQ. injection HQ as _ _ <-.
    apply (f_equal length) in Hlog. rewrite length_app in Hlog. simpl in Hlog. lia.
  - cbv zeta in Heq. rewrite Heq in HQ. injection HQ as Hr <-.
    simpl in Hlog.
    apply app_inv_head in Hlog. injection Hlog as <- <-.
    split; [done |]. split; [done |]. split; [done |]. split; [by exists qt |].
    rewrite <- Hr. reflexivity.
Qed.

(** What [interpretExchange] returns is consistent: the error of the result
    is the returned error, and it is nil exactly when records were found. *)
Lemma interpretExchange_consistent lib d up fs result x :
  dns.Records result = [] →
  dns.Error result = None →
  let '(r, e) := dns.interpretExchange lib d up fs result x in
  dns.Error r = e ∧ (e = None ↔ dns.Records r ≠ []) ∧ (e ≠ None ↔ dns.Records r = []).
Proof.
  intros Hrec Herr. unfold dns.interpretExchange.
  destruct (dns.err x) as [e0 |] eqn:He.
  { unfold errors.ClassifyNetworkError.
    repeat (match goal with |- context [if ?b then _ else _] => destruct b end);
      simpl; rewrite Hrec; split; try done; split; split; done. }
  destruct (dns.response x) as [resp |].
  2: { simpl; rewrite Hrec; split; try done; split; split; done. }
  destruct (negb _).
  { simpl; rewrite Hrec; split; try done; split; split; done. }
  cbv zeta.
  generalize (dns.extractRecords lib up (dns.Answer resp) (dns.Records result)).
  intros [|x0 l]; simpl; (split; [done |]); split; split; done.
Qed.

(** Interpreting the exchange leaves the server of the result alone. *)
Lemma interpretExchange_Server lib d up fs result x :
  dns.Server (dns.interpretExchange lib d up fs result x).1 = dns.Server result.
Proof.
  unfold dns.interpretExchange, dns.fail.
  repeat (match goal with |- context [match ?b with _ => _ end] => destruct b end);
    reflexivity.
Qed.

(** What [interpretExchange] does with an answered exchange. *)
Lemma interpretExchange_answered lib d up fs result x resp :
  dns.err x = None →
  dns.response x = Some resp →
  dns.interpretExchange lib d up fs result x
  = if negb (dns.Rcode resp =? dns.RcodeSuccess)%Z
    then dns.fail result (Some (errors.ADigError (dns.rcodeError (dns.Rcode resp) d fs)))
    else
      let result' :=
        dns.setRecords (dns.extractRecords lib up (dns.Answer resp) (dns.Records result))
          result in
      if (length (dns.Records result') =? 0)%nat
      then dns.fail result'
             (Some (errors.ADigError
                      (errors.NewDNSError
                         ("no " +:+ up +:+ " records found for domain '" +:+ d +:+ "'")
                         None d fs)))
      else (result', None).
Proof. intros He Hr. unfold dns.interpretExchange. by rewrite He, Hr. Qed.

(** With valid domain and record type and a server that [prepareServer]
    accepts, the exchange is performed with the prepared server, which is
    also the server of the result. *)
Lemma Query_prepared lib c d rt s w fs :
  errors.ValidateDomain d = None →
  errors.ValidateRecordType lib rt = None →
  dns.prepareServer w s = inr fs →
  dns.Server (dns.Query lib c d rt s w).1.1 = fs
  ∧ ∃ msg, dns.exchanged (dns.Query lib c d rt s w).2 = dns.exchanged w ++ [(msg, fs)].
Proof.
  intros Hd Ht Hs.
  destruct (Query_run lib c d rt s w)
    as [(e0 & _ & [Hd' | [[_ Ht'] | (_ & _ & Hs')]])
       | (fs' & qt & _ & _ & Hs' & _ & Heq)]; try congruence.
  cbv zeta in Heq. rewrite Heq. simpl.
  rewrite interpretExchange_Server. simpl.
  assert (fs' = fs) as -> by congruence. split; [done |]. eexists. reflexivity.
Qed.

(** One step of the extraction loop appends the value of the record, if
    it has one. *)
Lemma extractOne_recordValue lib up records answer :
  dns.extractOne lib up records answer
  = records ++ option_list (Spec.recordValue lib up answer).
Proof.
  unfold dns.extractOne, Spec.recordValue.
  destruct (String.eqb up "A") eqn:HA.
  { apply String.eqb_eq in HA as ->. destruct answer; simpl; by rewrite ?app_nil_r. }
  destruct (String.eqb up "AAAA") eqn:HAAAA.
  { apply String.eqb_eq in HAAAA as ->. destruct answer; simpl; by rewrite ?app_nil_r. }
  destruct (String.eqb up "MX") eqn:HMX.
  { apply String.eqb_eq in HMX as ->. destruct answer; simpl; by rewrite ?app_nil_r. }
  destruct (String.eqb up "CNAME") eqn:HCNAME.
  { apply String.eqb_eq in HCNAME as ->. destruct answer; simpl; by rewrite ?app_nil_r. }
  destruct (String.eqb up "TXT") eqn:HTXT.
  { apply String.eqb_eq in HTXT as ->. destruct answer; simpl; by rewrite ?app_nil_r. }
  destruct answer; simpl; by rewrite ?app_nil_r.
Qed.

(** The extraction loop is the order-preserving filter-map of the answers. *)
Lemma extractRecords_omap lib up answers records :
  dns.extractRecords lib up answers records
  = records ++ omap (Spec.recordValue lib up) answers.
Proof.
  unfold dns.extractRecords. revert records.
  induction answers as [|a answers IH]; intros records; simpl.
  - by rewrite app_nil_r.
  - rewrite IH, extractOne_recordValue, <- app_assoc. f_equal.
    by destruct (Spec.recordValue lib up a).
Qed.

(** ** [Query]: result and error *)

(** C1: for every call of [Query], the error of the returned [Result] is
    the returned error; it is non-nil exactly when [Records] is empty, and
    [Query] returns a nil error exactly when [Records] is non-empty. *)
Theorem Query_error_iff_no_records lib c domain recordType server w :
  let '(result, e, _) := dns.Query lib c domain recordType server w in
  (dns.Error result ≠ None ↔ dns.Records result = [])
  ∧ (e = None ↔ dns.Records result ≠ [])
  ∧ dns.Error result = e.
Proof.
  destruct (Query_run lib c domain recordType server w)
    as [(e0 & -> & _) | (fs & qt & _ & _ & _ & _ & Heq)].
  - simpl. split; [done |]. split; [split; done | done].
  - cbv zeta in Heq. rewrite Heq.
    match goal with |- context [dns.interpretExchange ?l ?d ?u ?f ?r ?x] =>
      pose proof (interpretExchange_consistent l d u f r x eq_refl eq_refl) as H;
      destruct (dns.interpretExchange l d u f r x) as [r0 e0]
    end.
    destruct H as (-> & H1 & H2). done.
Qed.

(** ** [Query]: the server *)

(** With an empty domain, an unsupported record type or a server that is
    not an address, the server of the result is the argument "8.8.8.8" or
    "not-an-ip" as given, not a normalized host:port string ("8.8.8.8" is
    prepared as "8.8.8.8:53"). *)
Lemma Query_server_left_as_given :
  let w := Samples.world Samples.timedOut in
  dns.prepareServer w "8.8.8.8" = inr "8.8.8.8:53"
  ∧ dns.Server (dns.Query Samples.lib dns.NewClient "" "A" "8.8.8.8" w).1.1 = "8.8.8.8"
  ∧ dns.Server (dns.Query Samples.lib dns.NewClient "example.com" "INVALID" "8.8.8.8" w).1.1
    = "8.8.8.8"
  ∧ dns.Server (dns.Query Samples.lib dns.NewClient "example.com" "A" "not-an-ip" w).1.1
    = "not-an-ip"
  ∧ dns.Server (dns.Query Samples.lib dns.NewClient "" "A" "" w).1.1 = "".
Proof. repeat split; vm_compute; reflexivity. Qed.

(** C4: with valid domain and record type, the server of the result is
    "8.8.8.8:53" for "8.8.8.8", "1.1.1.1:53" for "1.1.1.1:53", "[::1]:53" for
    "::1" and "[2001:db8::1]:53" for itself; for the empty server it is the
    first server of the system's resolver configuration with ":53" appended
    or, if none can be read, "8.8.8.8:53", hence never empty, and the
    exchange is attempted with it: preparing the empty server never fails. *)
Theorem Query_server_normalization lib c domain recordType w :
  errors.ValidateDomain domain = None →
  errors.ValidateRecordType lib recordType = None →
  let served server := dns.Server (dns.Query lib c domain recordType server w).1.1 in
  served "8.8.8.8" = "8.8.8.8:53"
  ∧ served "1.1.1.1:53" = "1.1.1.1:53"
  ∧ served "::1" = "[::1]:53"
  ∧ served "[2001:db8::1]:53" = "[2001:db8::1]:53"
  ∧ served ""
    = (let path := if String.eqb (dns.GOOS w) "windows" then "" else "/etc/resolv.conf" in
       match dns.ClientConfigFromFile w path with
       | inl (first :: _) => first +:+ ":53"
       | _ => "8.8.8.8:53"
       end)
  ∧ served "" ≠ ""
  ∧ (∃ fs, dns.prepareServer w "" = inr fs)
  ∧ (∃ msg, dns.exchanged (dns.Query lib c domain recordType "" w).2
            = dns.exchanged w ++ [(msg, served "")]).
Proof.
  intros Hd Ht served.
  assert (Hempty : dns.prepareServer w ""
            = inr (let path := if String.eqb (dns.GOOS w) "windows" then ""
                               else "/etc/resolv.conf" in
                   match dns.ClientConfigFromFile w path with
                   | inl (first :: _) => first +:+ ":53"
                   | _ => "8.8.8.8:53"
                   end)).
  { unfold dns.prepareServer, dns.getSystemDNS, dns.getWindowsDNS, dns.getUnixDNS. simpl.
    destruct (String.eqb (dns.GOOS w) "windows");
      destruct (dns.ClientConfigFromFile w _) as [[|first rest]|]; reflexivity. }
  pose proof (λ s fs, Query_prepared lib c domain recordType s w fs Hd Ht) as HP.
  unfold served.
  split; [apply (HP "8.8.8.8"); reflexivity |].
  split; [apply (HP "1.1.1.1:53"); reflexivity |].
  split; [apply (HP "::1"); reflexivity |].
  split; [apply (HP "[2001:db8::1]:53"); reflexivity |].
  destruct (HP "" _ Hempty) as [Hsrv Hex].
  split; [exact Hsrv |].
  split.
  { rewrite Hsrv. cbv zeta.
    destruct (dns.ClientConfigFromFile w _) as [[|first rest]|]; try done.
    destruct first; done. }
  split; [eauto |].
  rewrite Hsrv. exact Hex.
Qed.

(** The four servers and the empty server, in a world whose resolver
    configuration lists 10.0.0.1 first. *)
Lemma Query_server_normalization_witness :
  let w := Samples.configuredWorld ["10.0.0.1"; "10.0.0.2"] Samples.timedOut in
  let served server :=
    dns.Server (dns.Query Samples.lib dns.NewClient "example.com" "A" server w).1.1 in
  errors.ValidateDomain "example.com" = None
  ∧ errors.ValidateRecordType Samples.lib "A" = None
  ∧ served "8.8.8.8" = "8.8.8.8:53"
  ∧ served "1.1.1.1:53" = "1.1.1.1:53"
  ∧ served "::1" = "[::1]:53"
  ∧ served "[2001:db8::1]:53" = "[2001:db8::1]:53"
  ∧ served "" = "10.0.0.1:53".
Proof.
  cbv zeta. split; [reflexivity |]. split; [reflexivity |].
  pose proof (Query_server_normalization Samples.lib dns.NewClient "example.com" "A"
                (Samples.configuredWorld ["10.0.0.1"; "10.0.0.2"] Samples.timedOut)
                eq_refl eq_refl) as H.
  cbv zeta in H. destruct H as (H1 & H2 & H3 & H4 & H5 & _).
  split; [exact H1 |]. split; [exact H2 |]. split; [exact H3 |]. split; [exact H4 | exact H5].
Defined.

(** C10: a server that opens a bracket and has no "]:", as every
    bracketed IPv6 literal without a port ([bracketed_IPv6_literal_without_port]),
    makes [Query] return an Input error with empty records and the world
    untouched, no exchange being attempted; when domain and record type are
    valid and the server has a colon, as every such literal has, the error
    is "invalid DNS server format: <server>", caused by the failed split. *)
Theorem Query_bracket_without_port lib c domain recordType server w :
  strings.HasPrefix server "[" = true →
  strings.Contains server "]:" = false →
  let '(result, e, w') := dns.Query lib c domain recordType server w in
  errors.IsInputError e = true
  ∧ dns.Error result = e
  ∧ dns.Records result = []
  ∧ w' = w
  ∧ (errors.ValidateDomain domain = None →
     errors.ValidateRecordType lib recordType = None →
     strings.Contains server ":" = true →
     ∃ text,
       e = Some (errors.ADigError
                   (errors.NewInputError ("invalid DNS server format: " +:+ server)
                      (Some (errors.ForeignError text))))).
Proof.
  intros Hb Hno.
  assert (∃ e0, dns.prepareServer w server = inl e0) as [e0 Hprep].
  { unfold dns.prepareServer.
    destruct (HasPrefix_byte _ _ Hb) as [t Ht].
    assert (String.eqb server "" = false) as -> by by subst.
    rewrite Hno, andb_false_r, (ParseIP_bracket _ Hb).
    rewrite (bool_decide_eq_false_2 (None ≠ None)) by (intros H; by apply H).
    rewrite orb_false_r.
    destruct (strings.Contains server ":") eqn:Hc; simpl.
    - unfold dns.splitAndValidate.
      destruct (SplitHostPort_bracket_no_port _ Hb Hno) as [text ->]. eauto.
    - unfold errors.ValidateDNSServer.
      assert (String.eqb server "" = false) as -> by by subst.
      rewrite (ParseIP_bracket _ Hb). eauto. }
  destruct (Query_run lib c domain recordType server w)
    as [(e1 & -> & Hcase) | (fs & qt & _ & _ & Hs & _)]; [| congruence].
  simpl. split; [| split; [done | split; [done | split; [done |]]]].
  - destruct Hcase as [Hd | [[_ Ht] | (_ & _ & Hs)]].
    + by apply ValidateDomain_input in Hd.
    + by apply ValidateRecordType_input in Ht.
    + by apply prepareServer_input in Hs.
  - intros Hd Ht Hc.
    destruct (prepareServer_bracket_no_port w server Hb Hno Hc) as [text Htext].
    exists text. destruct Hcase as [Hd' | [[_ Ht'] | (_ & _ & Hs)]]; congruence.
Qed.

(** The server "[::1]". *)
Lemma Query_bracket_without_port_witness :
  let w := Samples.world Samples.timedOut in
  let q := dns.Query Samples.lib dns.NewClient "example.com" "A" "[::1]" w in
  strings.HasPrefix "[::1]" "[" = true
  ∧ strings.Contains "[::1]" "]:" = false
  ∧ errors.IsInputError q.1.2 = true
  ∧ dns.Error q.1.1 = q.1.2
  ∧ dns.Records q.1.1 = []
  ∧ q.2 = w
  ∧ ∃ text,
      q.1.2 = Some (errors.ADigError
                      (errors.NewInputError "invalid DNS server format: [::1]"
                         (Some (errors.ForeignError text)))).
Proof.
  cbv zeta. split; [reflexivity |]. split; [reflexivity |].
  pose proof (Query_bracket_without_port Samples.lib dns.NewClient "example.com" "A" "[::1]"
                (Samples.world Samples.timedOut) eq_refl eq_refl) as H.
  destruct (dns.Query _ _ _ _ _ _) as [[r e] w'].
  destruct H as (H1 & H2 & H3 & H4 & H5). simpl.
  split; [exact H1 |]. split; [exact H2 |]. split; [exact H3 |]. split; [exact H4 |].
  exact (H5 eq_refl eq_refl eq_refl).
Defined.

(** ** [Query]: the query type *)

(** C9: a record type accepted by [ValidateRecordType] is one of the five
    cases of the switch on the upper-cased type, which therefore never takes
    its default branch: a call of [Query] with such a type returns from the
    validation of the domain or from the preparation of the server, the
    world untouched, or goes on to the exchange. *)
Theorem validated_record_type_has_query_type lib recordType :
  errors.ValidateRecordType lib recordType = None →
  (∃ queryType,
      dns.queryTypeOf (strings.ToUpper lib recordType) = Some queryType
      ∧ queryType ∈ [dns.TypeA; dns.TypeAAAA; dns.TypeMX; dns.TypeCNAME; dns.TypeTXT])
  ∧ ∀ c domain server w,
      let '(result, e, w') := dns.Query lib c domain recordType server w in
      (w' = w ∧ (e = errors.ValidateDomain domain
                 ∨ ∃ e0, dns.prepareServer w server = inl e0 ∧ e = Some e0))
      ∨ ∃ msg, dns.exchanged w' = dns.exchanged w ++ [(msg, dns.Server result)].
Proof.
  intros Hv. split.
  - apply ValidateRecordType_nil, validTypes_lookup in Hv.
    repeat (apply elem_of_cons in Hv as [-> | Hv];
            [eexists; split; [reflexivity | set_solver] |]).
    by apply elem_of_nil in Hv.
  - intros c domain server w.
    destruct (Query_run lib c domain recordType server w)
      as [(e0 & -> & [Hd | [[_ Ht] | (_ & _ & Hs)]])
         | (fs & qt & _ & _ & _ & _ & Heq)].
    + left. split; [done |]. by left.
    + congruence.
    + left. split; [done |]. right. by exists e0.
    + cbv zeta in Heq. rewrite Heq.
      match goal with |- context [dns.interpretExchange ?l ?d ?u ?f ?r ?x] =>
        assert (dns.Server (dns.interpretExchange l d u f r x).1 = fs) as Hsrv
      end.
      { unfold dns.interpretExchange, dns.fail.
        repeat (match goal with |- context [match ?b with _ => _ end] => destruct b end);
          reflexivity. }
      destruct (dns.interpretExchange _ _ _ _ _ _) as [r0 e0]. simpl in Hsrv. subst fs.
      right. eexists. reflexivity.
Qed.

(** The type "mx" is accepted and selects a query type. *)
Lemma validated_record_type_has_query_type_witness :
  errors.ValidateRecordType Samples.lib "mx" = None
  ∧ ∃ queryType,
      dns.queryTypeOf (strings.ToUpper Samples.lib "mx") = Some queryType
      ∧ queryType ∈ [dns.TypeA; dns.TypeAAAA; dns.TypeMX; dns.TypeCNAME; dns.TypeTXT].
Proof.
  split; [reflexivity |].
  apply (validated_record_type_has_query_type Samples.lib "mx" eq_refl).
Defined.

(** ** [Query]: response codes and records *)

(** C6: after an exchange answered with a response code other than
    success, [Query] returns a DNS error carrying the domain and the server,
    whose message is chosen by the code. *)
Theorem Query_rcode_error lib c domain recordType server w result e w' msg fs resp :
  dns.Query lib c domain recordType server w = (result, e, w') →
  dns.exchanged w' = dns.exchanged w ++ [(msg, fs)] →
  dns.err (dns.network w (dns.timeout c) msg fs) = None →
  dns.response (dns.network w (dns.timeout c) msg fs) = Some resp →
  dns.Rcode resp ≠ dns.RcodeSuccess →
  ∃ de : errors.DigError,
    e = Some (errors.ADigError de)
    ∧ dns.Error result = e
    ∧ dns.Records result = []
    ∧ errors.ErrType de = errors.ErrorTypeDNS
    ∧ errors.Domain de = domain
    ∧ errors.Server de = fs
    ∧ (dns.Rcode resp = dns.RcodeNameError →
       errors.Message de = "domain '" +:+ domain +:+ "' not found (NXDOMAIN)"
       ∧ strings.Contains (errors.Message de) "not found (NXDOMAIN)" = true)
    ∧ (dns.Rcode resp = dns.RcodeServerFailure →
       errors.Message de = "DNS server experienced an internal failure"
       ∧ strings.Contains (errors.Message de) "internal failure" = true)
    ∧ (dns.Rcode resp = dns.RcodeRefused →
       errors.Message de = "DNS server refused the query"
       ∧ strings.Contains (errors.Message de) "refused the query" = true)
    ∧ (dns.Rcode resp = dns.RcodeNotImplemented →
       errors.Message de = "DNS server does not support this query type"
       ∧ strings.Contains (errors.Message de) "does not support this query type" = true)
    ∧ (dns.Rcode resp = dns.RcodeFormatError →
       errors.Message de = "DNS query format error"
       ∧ strings.Contains (errors.Message de) "query format error" = true)
    ∧ (dns.Rcode resp ∉ [dns.RcodeNameError; dns.RcodeServerFailure; dns.RcodeRefused;
                         dns.RcodeNotImplemented; dns.RcodeFormatError] →
       errors.Message de
       = "DNS query failed with response code " +:+ strings.itoa (dns.Rcode resp)
       ∧ strings.Contains (errors.Message de)
           ("failed with response code " +:+ strings.itoa (dns.Rcode resp)) = true).
Proof.
  intros HQ Hlog Herr Hresp Hrc.
  destruct (Query_exchanged _ _ _ _ _ _ _ _ _ _ _ HQ Hlog) as (_ & _ & _ & _ & Hi).
  rewrite (interpretExchange_answered _ _ _ _ _ _ _ Herr Hresp) in Hi.
  apply Z.eqb_neq in Hrc. rewrite Hrc in Hi. simpl in Hi. injection Hi as -> ->.
  eexists. split; [reflexivity |]. split; [reflexivity |]. split; [reflexivity |].
  unfold dns.rcodeError.
  split. { repeat (destruct (_ =? _)%Z); reflexivity. }
  split. { repeat (destruct (_ =? _)%Z); reflexivity. }
  split. { repeat (destruct (_ =? _)%Z); reflexivity. }
  split.
  { intros ->. split; [reflexivity |].
    change (strings.Contains ("domain '" +:+ (domain +:+ "' not found (NXDOMAIN)"))
              "not found (NXDOMAIN)" = true).
    apply Contains_app_r, Contains_app_r. reflexivity. }
  do 4 (split; [intros ->; split; reflexivity |]).
  intros Hn. repeat rewrite not_elem_of_cons in Hn.
  destruct Hn as (H3 & H2 & H5 & H4 & H1 & _).
  apply Z.eqb_neq in H1, H2, H3, H4, H5. rewrite H1, H2, H3, H4, H5.
  split; [reflexivity |].
  change (strings.Contains
            ("DNS query " +:+ ("failed with response code " +:+ strings.itoa (dns.Rcode resp)))
            ("failed with response code " +:+ strings.itoa (dns.Rcode resp)) = true).
  apply Contains_app_r, Contains_prefix, prefix_refl.
Qed.

(** A response with the code of a name error. *)
Lemma Query_rcode_error_witness :
  let w := Samples.world (Samples.answered dns.RcodeNameError []) in
  let q := dns.Query Samples.lib dns.NewClient "example.com" "A" "1.1.1.1:53" w in
  dns.RcodeNameError ≠ dns.RcodeSuccess
  ∧ ∃ de : errors.DigError,
      q.1.2 = Some (errors.ADigError de)
      ∧ errors.ErrType de = errors.ErrorTypeDNS
      ∧ errors.Domain de = "example.com"
      ∧ errors.Server de = "1.1.1.1:53"
      ∧ errors.Message de = "domain 'example.com' not found (NXDOMAIN)".
Proof.
  cbv zeta. split; [done |].
  set (w := Samples.world (Samples.answered dns.RcodeNameError [])).
  set (q := dns.Query Samples.lib dns.NewClient "example.com" "A" "1.1.1.1:53" w).
  destruct (Query_rcode_error Samples.lib dns.NewClient "example.com" "A" "1.1.1.1:53"
              w q.1.1 q.1.2 q.2 (dns.SetQuestion "example.com." dns.TypeA) "1.1.1.1:53"
              (dns.mkMsg true dns.RcodeNameError [] [])
              eq_refl eq_refl eq_refl eq_refl ltac:(done))
    as (de & He & _ & _ & Hty & Hdom & Hsrv & Hname & _).
  exists de. destruct (Hname eq_refl) as [Hmsg _].
  split; [exact He |]. split; [exact Hty |]. split; [exact Hdom |].
  split; [exact Hsrv | exact Hmsg].
Defined.

(** C7: after an exchange answered with response code success, [Records]
    holds, in the order of the answer section, one entry for every answer
    record of the requested type and none for the others: the address of an
    A or AAAA record, preference and exchange of an MX record joined by a
    space, the target of a CNAME record, the segments of a TXT record joined
    by single spaces. *)
Theorem Query_records_of_answers lib c domain recordType server w result e w' msg fs resp :
  dns.Query lib c domain recordType server w = (result, e, w') →
  dns.exchanged w' = dns.exchanged w ++ [(msg, fs)] →
  dns.err (dns.network w (dns.timeout c) msg fs) = None →
  dns.response (dns.network w (dns.timeout c) msg fs) = Some resp →
  dns.Rcode resp = dns.RcodeSuccess →
  dns.Records result
  = omap (Spec.recordValue lib (strings.ToUpper lib recordType)) (dns.Answer resp)
  ∧ length (dns.Records result)
    = length (filter (λ a, is_Some (Spec.recordValue lib (strings.ToUpper lib recordType) a))
                (dns.Answer resp)).
Proof.
  intros HQ Hlog Herr Hresp Hrc.
  destruct (Query_exchanged _ _ _ _ _ _ _ _ _ _ _ HQ Hlog) as (_ & _ & _ & _ & Hi).
  rewrite (interpretExchange_answered _ _ _ _ _ _ _ Herr Hresp), Hrc in Hi.
  simpl in Hi. rewrite extractRecords_omap in Hi. simpl in Hi.
  assert (dns.Records result
          = omap (Spec.recordValue lib (strings.ToUpper lib recordType)) (dns.Answer resp))
    as Hrec.
  { destruct (omap _ _) eqn:Ho; simpl in Hi; by injection Hi as -> _. }
  split; [done |]. rewrite Hrec.
  clear. induction (dns.Answer resp) as [|a l IH]; [done |].
  simpl. rewrite filter_cons.
  destruct (Spec.recordValue _ _ a) as [v|]; case_decide as Hv.
  - simpl. f_equal. apply IH.
  - destruct Hv. by exists v.
  - by destruct Hv.
  - apply IH.
Qed.

(** Two A records among four answers, asked for "a". *)
Lemma Query_records_of_answers_witness :
  let w := Samples.world (Samples.answered 0 Samples.answers) in
  let q := dns.Query Samples.lib dns.NewClient "example.com" "a" "8.8.8.8" w in
  let msg := dns.SetQuestion "example.com." dns.TypeA in
  dns.exchanged q.2 = dns.exchanged w ++ [(msg, "8.8.8.8:53")]
  ∧ dns.network w (dns.timeout dns.NewClient) msg "8.8.8.8:53"
    = Samples.answered 0 Samples.answers
  ∧ dns.Records q.1.1 = ["192.0.2.1"; "192.0.2.2"]
  ∧ length (dns.Records q.1.1) = 2%nat.
Proof.
  cbv zeta. split; [reflexivity |]. split; [reflexivity |].
  set (w := Samples.world (Samples.answered 0 Samples.answers)).
  set (q := dns.Query Samples.lib dns.NewClient "example.com" "a" "8.8.8.8" w).
  apply (Query_records_of_answers Samples.lib dns.NewClient "example.com" "a" "8.8.8.8"
           w q.1.1 q.1.2 q.2 (dns.SetQuestion "example.com." dns.TypeA) "8.8.8.8:53"
           (dns.mkMsg true 0 [] Samples.answers));
    reflexivity.
Defined.

(** C5: after an exchange answered with response code success from which
    no record of the requested type is extracted, [Query] returns a DNS
    error with the message "no <TYPE> records found for domain '<domain>'"
    (the type in upper case), the domain and the server; the records are
    empty. *)
Theorem Query_no_records_error lib c domain recordType server w result e w' msg fs resp :
  dns.Query lib c domain recordType server w = (result, e, w') →
  dns.exchanged w' = dns.exchanged w ++ [(msg, fs)] →
  dns.err (dns.network w (dns.timeout c) msg fs) = None →
  dns.response (dns.network w (dns.timeout c) msg fs) = Some resp →
  dns.Rcode resp = dns.RcodeSuccess →
  dns.extractRecords lib (strings.ToUpper lib recordType) (dns.Answer resp) [] = [] →
  ∃ de : errors.DigError,
    e = Some (errors.ADigError de)
    ∧ dns.Error result = e
    ∧ dns.Records result = []
    ∧ errors.ErrType de = errors.ErrorTypeDNS
    ∧ errors.Message de
      = "no " +:+ strings.ToUpper lib recordType +:+ " records found for domain '"
        +:+ domain +:+ "'"
    ∧ errors.Domain de = domain
    ∧ errors.Server de = fs.
Proof.
  intros HQ Hlog Herr Hresp Hrc Hnone.
  destruct (Query_exchanged _ _ _ _ _ _ _ _ _ _ _ HQ Hlog) as (_ & _ & _ & _ & Hi).
  rewrite (interpretExchange_answered _ _ _ _ _ _ _ Herr Hresp), Hrc in Hi.
  simpl in Hi. rewrite Hnone in Hi. simpl in Hi. injection Hi as -> ->.
  eexists. repeat split.
Qed.

(** No MX record among the four answers. *)
Lemma Query_no_records_error_witness :
  let w := Samples.world (Samples.answered 0 Samples.answers) in
  let q := dns.Query Samples.lib dns.NewClient "example.com" "mx" "8.8.8.8" w in
  dns.extractRecords Samples.lib "MX" Samples.answers [] = []
  ∧ ∃ de : errors.DigError,
      q.1.2 = Some (errors.ADigError de)
      ∧ dns.Error q.1.1 = q.1.2
      ∧ dns.Records q.1.1 = []
      ∧ errors.ErrType de = errors.ErrorTypeDNS
      ∧ errors.Message de = "no MX records found for domain 'example.com'"
      ∧ errors.Domain de = "example.com"
      ∧ errors.Server de = "8.8.8.8:53".
Proof.
  cbv zeta. split; [reflexivity |].
  set (w := Samples.world (Samples.answered 0 Samples.answers)).
  set (q := dns.Query Samples.lib dns.NewClient "example.com" "mx" "8.8.8.8" w).
  apply (Query_no_records_error Samples.lib dns.NewClient "example.com" "mx" "8.8.8.8"
           w q.1.1 q.1.2 q.2 (dns.SetQuestion "example.com." dns.TypeMX) "8.8.8.8:53"
           (dns.mkMsg true 0 [] Samples.answers));
    reflexivity.
Defined.

(** * Further properties: the command line, the formatter, the exit code *)

(** The tables of [TestCLIParser_Parse_ValidInputs],
    [TestCLIParser_Parse_InvalidInputs] and [TestCLIParser_EdgeCases]. *)
Example Parse_test_table :
  let parse := cmd.Parse Samples.lib in
  let config domain recordType server :=
    inr (cmd.mkConfig domain recordType server (5 * dns.Second)) in
  let message (r : errors.error + cmd.Config) :=
    match r with
    | inl (errors.ADigError de) => errors.Message de
    | _ => ""
    end in
  map parse [["google.com"]; ["-t"; "AAAA"; "google.com"]; ["-s"; "8.8.8.8"; "google.com"];
             ["-t"; "MX"; "-s"; "1.1.1.1"; "example.org"]; ["-t"; "cname"; "test.com"];
             ["sub.domain.example.com"]]
  = [config "google.com" "A" ""; config "google.com" "AAAA" "";
     config "google.com" "A" "8.8.8.8"; config "example.org" "MX" "1.1.1.1";
     config "test.com" "CNAME" ""; config "sub.domain.example.com" "A" ""]
  ∧ map (λ args, message (parse args))
      [[]; ["google.com"; "extra.com"]; ["-t"; "INVALID"; "google.com"];
       ["-s"; "invalid-ip"; "google.com"]; ["-s"; ""; "google.com"]; [""];
       [".google.com"]; ["google.com."]; ["google..com"]; ["-google.com"]; ["google@com"];
       ["-t"]; ["-x"; "value"; "google.com"]; ["google.com"; "-t"; "MX"]]
    = ["domain name is required";
       "too many arguments: expected domain name only, got 2 arguments";
       "unsupported record type 'INVALID' (supported: A, AAAA, MX, CNAME, TXT)";
       "'invalid-ip' is not a valid IP address"; "DNS server cannot be empty";
       "domain name cannot be empty"; "domain cannot start or end with a dot";
       "domain cannot start or end with a dot"; "domain cannot contain consecutive dots";
       "invalid command line arguments";
       "domain contains invalid character '@' at position 7";
       "invalid command line arguments"; "invalid command line arguments";
       "too many arguments: expected domain name only, got 3 arguments"].
Proof. split; vm_compute; reflexivity. Qed.

(** The tables of [TestFormatRecordValue] and [TestFormatDuration]. *)
Example formatRecordValue_test_table :
  let q := String strings.quote "" in
  let b := String strings.backslash "" in
  map (λ p, output.formatRecordValue Samples.lib p.1 p.2)
    [("A", "192.168.1.1"); ("AAAA", "2001:db8::1"); ("MX", "10 mail.example.com");
     ("CNAME", "example.com"); ("CNAME", "example.com.");
     ("TXT", "v=spf1 include:_spf.google.com ~all"); ("TXT", "simple-text");
     ("TXT", "text with " +:+ q +:+ "quotes" +:+ q); ("NS", "ns1.example.com")]
  = ["192.168.1.1"; "2001:db8::1"; "10 mail.example.com"; "example.com."; "example.com.";
     q +:+ "v=spf1 include:_spf.google.com ~all" +:+ q; "simple-text";
     q +:+ "text with " +:+ b +:+ q +:+ "quotes" +:+ b +:+ q +:+ q; "ns1.example.com"]
  ∧ map output.formatDuration
      [500 * time.Microsecond; 50 * time.Millisecond; 2 * dns.Second; time.Millisecond;
       999 * time.Microsecond]
    = ["500 usec"; "50 msec"; "2000 msec"; "1 msec"; "999 usec"].
Proof. split; vm_compute; reflexivity. Qed.

(** [TestFormatError], [TestFormatResult_NilResult], the name error of
    [TestFormatDigError_DNSError] and the result of
    [TestFormatResult_Success]. *)
Example Format_test_table :
  let n := strings.newline in
  let t := strings.tab in
  output.FormatError None = ""
  ∧ output.FormatError (Some (errors.ForeignError "connection failed"))
    = "Error: connection failed" +:+ n
  ∧ output.FormatResult Samples.lib "" None = "Error: no result to format" +:+ n
  ∧ output.FormatError
      (Some (errors.ADigError
               (errors.NewDNSError "domain 'nonexistent.example' not found (NXDOMAIN)" None
                  "nonexistent.example" "1.1.1.1:53")))
    = "Error: domain 'nonexistent.example' not found (NXDOMAIN)" +:+ n +:+ n
      +:+ "This is a DNS resolution error." +:+ n
      +:+ "Domain: nonexistent.example" +:+ n
      +:+ "DNS Server: 1.1.1.1:53" +:+ n
      +:+ "Troubleshooting suggestions:" +:+ n
      +:+ "- Verify the domain name is spelled correctly" +:+ n
      +:+ "- Check if the domain exists" +:+ n
      +:+ "- Try querying a different record type" +:+ n
      +:+ "- Try a different DNS server" +:+ n
  ∧ output.FormatResult Samples.lib "Mon Jan 02 15:04:05 UTC 2006"
      (Some (dns.mkResult "example.com" "A" ["93.184.216.34"] "8.8.8.8:53"
               (50 * time.Millisecond) None))
    = "; <<>> go-dig <<>> example.com A @8.8.8.8" +:+ n
      +:+ ";; Query time: 50 msec" +:+ n
      +:+ ";; SERVER: 8.8.8.8:53" +:+ n
      +:+ ";; WHEN: Mon Jan 02 15:04:05 UTC 2006" +:+ n +:+ n
      +:+ ";; ANSWER SECTION: (1 record)" +:+ n
      +:+ "example.com                   " +:+ t +:+ "IN" +:+ t +:+ "A" +:+ t
      +:+ "93.184.216.34" +:+ n
  ∧ output.FormatResult Samples.lib ""
      (Some (dns.mkResult "example.com" "A" [] "" (100 * time.Millisecond) None))
    = "; <<>> go-dig <<>> example.com A" +:+ n
      +:+ ";; Query time: 100 msec" +:+ n
      +:+ ";; SERVER: " +:+ n
      +:+ ";; WHEN: " +:+ n +:+ n
      +:+ ";; ANSWER SECTION: (empty)" +:+ n.
Proof. repeat split; vm_compute; reflexivity. Qed.

(** Servers that [ValidateDNSServer] refuses as loopback addresses, in
    dotted form and as IPv4-mapped IPv6 literals, and two that it accepts. *)
Example loopback_test_table :
  map (λ s, bool_decide (errors.ValidateDNSServer s = None))
    ["127.0.0.2"; "127.255.255.255"; "::ffff:127.0.0.2"; "::ffff:7f00:2"; "::ffff:127.0.0.1";
     "::1"; "127.0.0.1"]
  = [false; false; false; false; true; true; true].
Proof. vm_compute; reflexivity. Qed.

(** ** [Query]: what every call leaves in the result *)

(** Interpreting the exchange touches the records and the error only. *)
Lemma interpretExchange_fields lib d up fs result x :
  let r := (dns.interpretExchange lib d up fs result x).1 in
  dns.Domain r = dns.Domain result
  ∧ dns.RecordType r = dns.RecordType result
  ∧ dns.QueryTime r = dns.QueryTime result.
Proof.
  unfold dns.interpretExchange, dns.fail.
  repeat (match goal with |- context [match ?b with _ => _ end] => destruct b end);
    done.
Qed.

(** The error that comes out of the interpretation of an exchange is a
    Network error or a DNS error naming the server, a DNS error naming the
    domain as well. *)
Lemma interpretExchange_error lib d up fs result x e :
  (dns.interpretExchange lib d up fs result x).2 = Some e →
  ∃ de : errors.DigError,
    e = errors.ADigError de
    ∧ errors.Server de = fs
    ∧ ((errors.ErrType de = errors.ErrorTypeNetwork ∧ errors.Domain de = "")
       ∨ (errors.ErrType de = errors.ErrorTypeDNS ∧ errors.Domain de = d)).
Proof.
  unfold dns.interpretExchange, dns.fail.
  destruct (dns.err x) as [e0 |].
  { unfold errors.ClassifyNetworkError.
    repeat (match goal with |- context [if ?b then _ else _] => destruct b end);
      simpl; intros [= <-]; eexists; (split; [reflexivity |]); (split; [reflexivity |]);
      left; done. }
  destruct (dns.response x) as [resp |].
  2: { simpl. intros [= <-]. eexists. split; [reflexivity |]. split; [reflexivity |]. by left. }
  destruct (negb _).
  { simpl. intros [= <-]. eexists. split; [reflexivity |].
    unfold dns.rcodeError.
    repeat (match goal with |- context [if ?b then _ else _] => destruct b end);
      (split; [reflexivity |]); right; done. }
  cbv zeta.
  destruct (length _ =? 0)%nat; simpl; [| done].
  intros [= <-]. eexists. split; [reflexivity |]. split; [reflexivity |]. by right.
Qed.

(** A world after an exchange is not the world before it. *)
Lemma Exchange_changes t msg fs w : (dns.Exchange t msg fs w).2 ≠ w.
Proof.
  intros H. apply (f_equal dns.exchanged) in H. simpl in H.
  apply (f_equal length) in H. rewrite length_app in H. simpl in H. lia.
Qed.

(** X1: [Query] copies the domain and the record type into the result as they
    were given, on every path. *)
Theorem Query_echoes_request lib c domain recordType server w :
  let '(result, _, _) := dns.Query lib c domain recordType server w in
  dns.Domain result = domain ∧ dns.RecordType result = recordType.
Proof.
  destruct (Query_run lib c domain recordType server w)
    as [(e1 & -> & _) | (fs & qt & _ & _ & _ & _ & Heq)]; [done |].
  cbv zeta in Heq. rewrite Heq.
  match goal with |- context [dns.interpretExchange ?l ?d ?u ?f ?r ?x] =>
    pose proof (interpretExchange_fields l d u f r x) as H;
    destruct (dns.interpretExchange l d u f r x) as [r0 e0]
  end.
  simpl in H. tauto.
Qed.


(** X3: [Query] performs at most one exchange and touches nothing else of the
    world.  The message it sends asks one question, with recursion
    desired: the fully qualified domain, in class IN, with the wire type of
    the record type, compared in upper case. *)
Theorem Query_single_exchange lib c domain recordType server w :
  let '(_, _, w') := dns.Query lib c domain recordType server w in
  dns.GOOS w' = dns.GOOS w
  ∧ dns.ClientConfigFromFile w' = dns.ClientConfigFromFile w
  ∧ dns.network w' = dns.network w
  ∧ (w' = w
     ∨ ∃ fs qt,
         dns.prepareServer w server = inr fs
         ∧ (strings.ToUpper lib recordType, qt)
           ∈ [("A", 1); ("AAAA", 28); ("MX", 15); ("CNAME", 5); ("TXT", 16)]
         ∧ dns.exchanged w'
           = dns.exchanged w
             ++ [(dns.mkMsg true 0 [dns.mkQuestion (Fqdn lib domain) qt 1] [], fs)]).
Proof.
  destruct (Query_run lib c domain recordType server w)
    as [(e1 & -> & _) | (fs & qt & _ & _ & Hs & Hq & Heq)].
  - repeat split; by left.
  - cbv zeta in Heq. rewrite Heq.
    destruct (dns.interpretExchange _ _ _ _ _ _) as [r0 e0]. simpl.
    repeat (split; [done |]). right. exists fs, qt. split; [done |]. split; [| done].
    unfold dns.queryTypeOf in Hq.
    repeat (match type of Hq with
            | (if String.eqb ?a ?b then _ else _) = _ =>
                destruct (String.eqb_spec a b) as [-> | _];
                [injection Hq as <-; rewrite !elem_of_cons; tauto |]
            end).
    done.
Qed.

(** X4: When the exchange itself fails, [Query] returns the Network error that
    [ClassifyNetworkError] makes of the transport error, whatever response
    came with it; when the exchange gives neither an error nor a response,
    the Network error "no response received from DNS server".  Either
    names the prepared server, and the records stay empty. *)
Theorem Query_transport_failure lib c domain recordType server w result e w' msg fs :
  dns.Query lib c domain recordType server w = (result, e, w') →
  dns.exchanged w' = dns.exchanged w ++ [(msg, fs)] →
  let x := dns.network w (dns.timeout c) msg fs in
  (dns.err x ≠ None ∨ dns.response x = None) →
  ∃ de : errors.DigError,
    e = Some (errors.ADigError de)
    ∧ dns.Error result = e
    ∧ dns.Records result = []
    ∧ errors.ErrType de = errors.ErrorTypeNetwork
    ∧ errors.Server de = fs
    ∧ dns.Server result = fs
    ∧ errors.Cause de = dns.err x
    ∧ (dns.err x ≠ None → Some de = errors.ClassifyNetworkError lib (dns.err x) fs)
    ∧ (dns.err x = None → errors.Message de = "no response received from DNS server").
Proof.
  intros HQ Hlog x Hfail.
  destruct (Query_exchanged _ _ _ _ _ _ _ _ _ _ _ HQ Hlog) as (_ & _ & _ & _ & Hi).
  fold x in Hi. unfold dns.interpretExchange in Hi.
  destruct (dns.err x) as [e0 |] eqn:He.
  - unfold errors.ClassifyNetworkError in *.
    repeat (match type of Hi with context [if ?b then _ else _] => destruct b end);
      simpl in Hi; injection Hi as -> ->; eexists; repeat split; done.
  - destruct Hfail as [Hfail | Hfail]; [done |]. rewrite Hfail in Hi.
    simpl in Hi. injection Hi as -> ->. eexists. repeat split; done.
Qed.

(** A timeout, with a response that is ignored. *)
Lemma Query_transport_failure_witness :
  let x := dns.mkExchangeResult (Some (dns.mkMsg true 0 [] Samples.answers)) 0
             (Some (errors.ForeignError "i/o timeout")) 5000000000 in
  let q := dns.Query Samples.lib dns.NewClient "example.com" "A" "8.8.8.8" (Samples.world x) in
  ∃ de : errors.DigError,
    q.1.2 = Some (errors.ADigError de)
    ∧ dns.Error q.1.1 = q.1.2
    ∧ dns.Records q.1.1 = []
    ∧ errors.ErrType de = errors.ErrorTypeNetwork
    ∧ errors.Server de = "8.8.8.8:53"
    ∧ dns.Server q.1.1 = "8.8.8.8:53"
    ∧ errors.Cause de = Some (errors.ForeignError "i/o timeout")
    ∧ errors.Message de = "DNS server timeout - server may be unreachable or overloaded".
Proof.
  cbv zeta.
  set (x := dns.mkExchangeResult _ _ _ _).
  set (q := dns.Query _ _ _ _ _ _).
  destruct (Query_transport_failure Samples.lib dns.NewClient "example.com" "A" "8.8.8.8"
              (Samples.world x) q.1.1 q.1.2 q.2
              (dns.SetQuestion "example.com." 1) "8.8.8.8:53" eq_refl eq_refl
              (or_introl (λ H : dns.err x = None, eq_ind (Some (errors.ForeignError "i/o timeout")) (λ o, match o with Some _ => True | None => False end) I None H)))
    as (de & H1 & H2 & H3 & H4 & H5 & H6 & H7 & H8 & _).
  exists de. repeat (split; [assumption |]).
  assert (Some de = errors.ClassifyNetworkError Samples.lib (dns.err x) "8.8.8.8:53") as H
    by (apply H8; discriminate).
  vm_compute in H. injection H as ->. reflexivity.
Defined.

(** ** The errors of the validators are made by [NewInputError] *)

Lemma ValidateDomain_made (domain : string) (e : errors.error) :
  errors.ValidateDomain domain = Some e →
  ∃ m c, e = errors.ADigError (errors.NewInputError m c).
Proof.
  rewrite ValidateDomain_firstViolation.
  destruct (Spec.firstViolation domain); simpl; [| done]. intros [= <-].
  unfold Spec.errorOf. eauto.
Qed.

Lemma ValidateRecordType_made lib (recordType : string) (e : errors.error) :
  errors.ValidateRecordType lib recordType = Some e →
  ∃ m c, e = errors.ADigError (errors.NewInputError m c).
Proof.
  unfold errors.ValidateRecordType, errors.inputError.
  destruct (String.eqb recordType ""); [intros [= <-]; eauto |].
  cbv zeta. destruct (negb _); [intros [= <-]; eauto | done].
Qed.

Lemma ValidateDNSServer_made (server : string) (e : errors.error) :
  errors.ValidateDNSServer server = Some e →
  ∃ m c, e = errors.ADigError (errors.NewInputError m c).
Proof.
  unfold errors.ValidateDNSServer, errors.inputError.
  destruct (String.eqb server ""); [intros [= <-]; eauto |].
  destruct (net.ParseIP server); [| intros [= <-]; eauto].
  destruct (_ && _); [intros [= <-]; eauto | done].
Qed.

Lemma portDigits_made (port : string) (rs : list (nat * Z)) :
  ∀ portNum e, errors.portDigits port rs portNum = inl (Some e) →
               ∃ m c, e = errors.ADigError (errors.NewInputError m c).
Proof.
  induction rs as [|[i r] rs IH]; intros portNum e; simpl; [done |].
  unfold errors.inputError.
  destruct (_ || _); [intros [= <-]; eauto |].
  destruct (65535 <? _); [intros [= <-]; eauto | apply IH].
Qed.

Lemma ValidateDNSPort_made (port : string) (e : errors.error) :
  errors.ValidateDNSPort port = Some e →
  ∃ m c, e = errors.ADigError (errors.NewInputError m c).
Proof.
  unfold errors.ValidateDNSPort.
  destruct (String.eqb port ""); [intros [= <-]; unfold errors.inputError; eauto |].
  destruct (errors.portDigits port _ 0) as [[e0|]|portNum] eqn:Hp.
  - intros [= <-]. by apply portDigits_made in Hp.
  - by apply portDigits_error in Hp.
  - unfold errors.inputError. destruct (_ || _); [intros [= <-]; eauto | done].
Qed.

Lemma splitAndValidate_made (server : string) (e : errors.error) :
  dns.splitAndValidate server = inl e →
  ∃ m c, e = errors.ADigError (errors.NewInputError m c).
Proof.
  unfold dns.splitAndValidate.
  destruct (net.SplitHostPort server) as [[host port]|text]; [| intros [= <-]; eauto].
  destruct (errors.ValidateDNSServer host) as [e0|] eqn:Hh.
  { intros [= <-]. by apply ValidateDNSServer_made in Hh. }
  destruct (errors.ValidateDNSPort port) as [e0|] eqn:Hp; [| done].
  intros [= <-]. by apply ValidateDNSPort_made in Hp.
Qed.

Lemma prepareServer_made (w : dns.World) (server : string) (e : errors.error) :
  dns.prepareServer w server = inl e →
  ∃ m c, e = errors.ADigError (errors.NewInputError m c).
Proof.
  unfold dns.prepareServer.
  destruct (String.eqb server "").
  { destruct (dns.getSystemDNS w) as [s [e0|]]; done. }
  destruct (_ && _); [apply splitAndValidate_made |].
  destruct (_ || _); [| apply splitAndValidate_made].
  destruct (errors.ValidateDNSServer server) as [e0|] eqn:Hs.
  - intros [= <-]. by apply ValidateDNSServer_made in Hs.
  - by destruct (_ && _).
Qed.

(** X5: The error [Query] returns is nil or a [DigError], never an error of
    another type.  An Input error carries neither domain nor server, and
    with it the world is untouched; a Network error names the server of the
    result and a DNS error the domain and the server of the result, and
    both come after an exchange; none is a System error. *)
Theorem Query_error_context lib c domain recordType server w :
  let '(result, e, w') := dns.Query lib c domain recordType server w in
  e = None
  ∨ ∃ de : errors.DigError,
      e = Some (errors.ADigError de)
      ∧ match errors.ErrType de with
        | errors.ErrorTypeInput => errors.Domain de = "" ∧ errors.Server de = "" ∧ w' = w
        | errors.ErrorTypeNetwork =>
            errors.Domain de = "" ∧ errors.Server de = dns.Server result ∧ w' ≠ w
        | errors.ErrorTypeDNS =>
            errors.Domain de = domain ∧ errors.Server de = dns.Server result ∧ w' ≠ w
        | errors.ErrorTypeSystem => False
        end.
Proof.
  destruct (Query_run lib c domain recordType server w)
    as [(e1 & -> & Hcase) | (fs & qt & _ & _ & _ & _ & Heq)].
  - simpl. right.
    assert (∃ m c, e1 = errors.ADigError (errors.NewInputError m c)) as (m & c0 & ->).
    { destruct Hcase as [Hd | [[_ Ht] | (_ & _ & Hs)]].
      - by apply ValidateDomain_made in Hd.
      - by apply ValidateRecordType_made in Ht.
      - by apply prepareServer_made in Hs. }
    eexists. split; [reflexivity |]. done.
  - cbv zeta in Heq. rewrite Heq.
    match goal with |- context [dns.interpretExchange ?l ?d ?u ?f ?r ?x] =>
      pose proof (interpretExchange_error l d u f r x) as He;
      pose proof (interpretExchange_Server l d u f r x) as Hsrv;
      destruct (dns.interpretExchange l d u f r x) as [r0 e0]
    end.
    simpl in He, Hsrv. destruct e0 as [e0 |]; [right | by left].
    destruct (He e0 eq_refl) as (de & -> & Hs & Hk). exists de. split; [done |].
    rewrite Hsrv, Hs.
    destruct Hk as [[-> ->] | [-> ->]]; (split; [done |]); (split; [done |]);
      apply Exchange_changes.
Qed.

(** X6: The exit code that [main] derives from the error of [Query] tells the
    stage that failed: 0 exactly for a nil error, 1 exactly for a failure
    before the exchange (the world untouched), 2 exactly for a failure of
    the exchange or of its interpretation; no other code comes out. *)
Theorem getExitCode_Query lib c domain recordType server w :
  let '(_, e, w') := dns.Query lib c domain recordType server w in
  (main.getExitCode e = 0 ↔ e = None)
  ∧ (main.getExitCode e = 1 ↔ e ≠ None ∧ w' = w)
  ∧ (main.getExitCode e = 2 ↔ e ≠ None ∧ w' ≠ w)
  ∧ main.getExitCode e ∈ [0; 1; 2].
Proof.
  destruct (Query_run lib c domain recordType server w)
    as [(e1 & -> & Hcase) | (fs & qt & _ & _ & _ & _ & Heq)].
  - simpl.
    assert (∃ m c, e1 = errors.ADigError (errors.NewInputError m c)) as (m & c0 & ->).
    { destruct Hcase as [Hd | [[_ Ht] | (_ & _ & Hs)]].
      - by apply ValidateDomain_made in Hd.
      - by apply ValidateRecordType_made in Ht.
      - by apply prepareServer_made in Hs. }
    simpl. split; [done |]. split; [done |]. split; [| rewrite !elem_of_cons; tauto].
    split; [done |]. intros [_ H]. done.
  - cbv zeta in Heq. rewrite Heq.
    match goal with |- context [dns.interpretExchange ?l ?d ?u ?f ?r ?x] =>
      pose proof (interpretExchange_error l d u f r x) as He;
      destruct (dns.interpretExchange l d u f r x) as [r0 e0]
    end.
    simpl in He. destruct e0 as [e0 |].
    + destruct (He e0 eq_refl) as (de & -> & _ & Hk).
      pose proof (Exchange_changes (dns.timeout c) (dns.SetQuestion (Fqdn lib domain) qt) fs w) as Hw.
      simpl. destruct Hk as [[-> _] | [-> _]]; simpl.
      all: split; [done |]; split; [split; [done | intros [_ H]; done] |];
        split; [done | rewrite !elem_of_cons; tauto].
    + simpl. split; [done |]. split; [split; [done | intros [H _]; done] |].
      split; [split; [done | intros [H _]; done] | rewrite !elem_of_cons; tauto].
Qed.

(** ** [ValidateDNSPort]: the ports accepted *)

(** Reading further digits does not make the number smaller. *)
Lemma decimal_step_le (l : list ascii) :
  ∀ acc, forallb Spec.isDigit l = true → 0 ≤ acc →
    acc ≤ fold_left (λ n c, n * 10 + (strings.byte_val c - strings.byte_val "0")) l acc.
Proof.
  induction l as [|c l IH]; intros acc Hd Hacc; simpl; [lia |].
  simpl in Hd. apply andb_true_iff in Hd as [Hc Hl].
  unfold Spec.isDigit in Hc. cbv zeta in Hc. byte_consts.
  apply andb_true_iff in Hc as [H0 H9]. apply Z.leb_le in H0, H9.
  etransitivity; [| apply IH; [done | lia]]. lia.
Qed.

(** The loop of [ValidateDNSPort] ends with a number exactly when every
    byte is a decimal digit and the number denoted is at most 65535. *)
Lemma portDigits_inr (port s : string) :
  ∀ fuel i acc n, (String.length s ≤ fuel)%nat → 0 ≤ acc ≤ 65535 →
    errors.portDigits port (utf8.rangeFrom fuel i s) acc = inr n
    ↔ Spec.allDigits s = true
      ∧ fold_left (λ n c, n * 10 + (strings.byte_val c - strings.byte_val "0"))
          (list_ascii_of_string s) acc = n
      ∧ n ≤ 65535.
Proof.
  unfold Spec.allDigits.
  induction s as [|c t IH]; intros fuel i acc n Hfuel Hacc.
  - destruct fuel; simpl; (split; [intros [= <-]; repeat split; lia | intros (_ & -> & _); done]).
  - destruct fuel as [|fuel]; [simpl in Hfuel; lia |].
    simpl in Hfuel.
    destruct (Z.lt_ge_cases (strings.byte_val c) 0x80) as [Hlt | Hge].
    + rewrite rangeFrom_ascii by done.
      cbn [errors.portDigits list_ascii_of_string forallb fold_left]. cbv zeta.
      unfold Spec.isDigit at 1. cbv zeta. byte_consts.
      destruct (strings.byte_val c <? 48) eqn:E1; simpl orb.
      { replace (48 <=? strings.byte_val c) with false by (symmetry; apply Z.leb_gt; lia).
        simpl. split; [done | intros [? _]; done]. }
      destruct (57 <? strings.byte_val c) eqn:E2.
      { replace (strings.byte_val c <=? 57) with false by (symmetry; apply Z.leb_gt; lia).
        rewrite andb_false_r. simpl. split; [done | intros [? _]; done]. }
      apply Z.ltb_ge in E1, E2.
      replace (48 <=? strings.byte_val c) with true by (symmetry; apply Z.leb_le; lia).
      replace (strings.byte_val c <=? 57) with true by (symmetry; apply Z.leb_le; lia).
      simpl andb.
      destruct (65535 <? acc * 10 + (strings.byte_val c - 48)) eqn:E3.
      * split; [done |]. intros (Hd & Hn & Hle).
        apply Z.ltb_lt in E3.
        pose proof (decimal_step_le (list_ascii_of_string t)
                      (acc * 10 + (strings.byte_val c - 48)) Hd ltac:(lia)) as Hm.
        byte_consts. lia.
      * apply Z.ltb_ge in E3. apply IH; [lia | lia].
    + destruct (rangeFrom_head fuel i c t) as [rest ->].
      apply decode_non_ascii with (t := t) in Hge as Hr.
      cbn [errors.portDigits list_ascii_of_string forallb]. byte_consts.
      replace (57 <? _) with true by (symmetry; apply Z.ltb_lt; lia).
      rewrite orb_true_r.
      assert (Spec.isDigit c = false) as ->
        by (unfold Spec.isDigit; byte_consts; apply andb_false_iff; right; lia).
      simpl. split; [done | intros [? _]; done].
Qed.

(** X7: [ValidateDNSPort] accepts exactly the non-empty strings of decimal
    digits that denote a number from 1 to 65535, leading zeros allowed;
    a sign, a space or any other byte makes it refuse. *)
Theorem ValidateDNSPort_accepts_iff (port : string) :
  errors.ValidateDNSPort port = None
  ↔ port ≠ "" ∧ Spec.allDigits port = true ∧ 1 ≤ Reference.decimal port ≤ 65535.
Proof.
  unfold errors.ValidateDNSPort, Reference.decimal.
  destruct (String.eqb_spec port "") as [-> | Hne].
  { split; [done | intros [? _]; done]. }
  pose proof (portDigits_inr port port (String.length port) 0 0) as Hp.
  fold (utf8.range port) in Hp.
  destruct (errors.portDigits port (utf8.range port) 0) as [[e0 |] | portNum] eqn:E.
  - split; [done |]. intros (_ & Hd & Hr).
    pose proof (proj2 (Hp _ (le_n _) ltac:(lia)) (conj Hd (conj eq_refl (proj2 Hr)))) as H.
    discriminate H.
  - by apply portDigits_error in E.
  - destruct (proj1 (Hp portNum (le_n _) ltac:(lia)) eq_refl) as (Hd & Hv & Hle).
    rewrite Hv. unfold errors.inputError.
    destruct (portNum <? 1) eqn:E1; simpl.
    { apply Z.ltb_lt in E1. split; [done | intros (_ & _ & ?); lia]. }
    destruct (65535 <? portNum) eqn:E2.
    { apply Z.ltb_lt in E2. split; [done | intros (_ & _ & ?); lia]. }
    apply Z.ltb_ge in E1, E2. split; [| done]. intros _. done.
Qed.

(** ** [ValidateRecordType]: the types accepted *)

(** X8: [ValidateRecordType] accepts exactly the types whose upper-case form
    is one of the five names, and reports any other type in upper case. *)
Theorem ValidateRecordType_accepts_iff lib (recordType : string) :
  (errors.ValidateRecordType lib recordType = None
   ↔ strings.ToUpper lib recordType ∈ ["A"; "AAAA"; "MX"; "CNAME"; "TXT"])
  ∧ (errors.ValidateRecordType lib recordType = None
     ∨ errors.ValidateRecordType lib recordType
       = errors.inputError "record type cannot be empty"
     ∨ errors.ValidateRecordType lib recordType
       = errors.inputError ("unsupported record type '" +:+ strings.ToUpper lib recordType
                            +:+ "' (supported: A, AAAA, MX, CNAME, TXT)")).
Proof.
  unfold errors.ValidateRecordType.
  destruct (String.eqb_spec recordType "") as [-> | Hne].
  { split; [| right; by left]. split; [done |].
    change (strings.ToUpper lib "") with "". rewrite !elem_of_cons.
    intros H. repeat (destruct H as [H | H]; [discriminate |]). by apply elem_of_nil in H. }
  cbv zeta.
  destruct (default false (errors.validTypes !! strings.ToUpper lib recordType)) eqn:E; simpl.
  - split; [| by left]. split; [| done]. intros _. by apply validTypes_lookup.
  - split; [| right; by right]. split; [done |]. intros H.
    rewrite !elem_of_cons in H.
    repeat (destruct H as [H | H]; [rewrite H in E; vm_compute in E; discriminate |]).
    by apply elem_of_nil in H.
Qed.

(** ** [ValidateDNSServer]: the addresses accepted *)

(** An IPv4 literal has four fields. *)
Lemma parseIPv4Fields_from_length (s : string) :
  ∀ i len prev val pos digLen fields r,
    net.parseIPv4Fields_from s i len prev val pos digLen fields = Some r →
    length fields = pos → (pos ≤ 3)%nat → length r = 4%nat.
Proof.
  induction s as [|c t IH]; intros i len prev val pos digLen fields r; simpl.
  - destruct (pos <? 3)%nat eqn:E; [done |]. apply Nat.ltb_ge in E.
    intros [= <-] Hl Hp. rewrite length_app. simpl. lia.
  - destruct (net.isDigit _).
    + destruct (_ && _); [done |]. destruct (255 <? _); [done |].
      intros H Hl Hp. by eapply IH.
    + destruct (_ =? _); [| done]. destruct (_ || _); [done |].
      destruct (pos =? 3)%nat eqn:E; [done |]. apply Nat.eqb_neq in E.
      intros H Hl Hp. eapply IH; [exact H | rewrite length_app; simpl; lia | lia].
Qed.

(** The loop of the IPv6 parser stores an even number of bytes, at most 16. *)
Lemma parseIPv6_groups_length (fuel : nat) :
  ∀ s ip ellipsis rest ip' ellipsis',
    net.parseIPv6_groups fuel s ip ellipsis = Some (rest, ip', ellipsis') →
    Nat.even (length ip) = true → (length ip ≤ 16)%nat →
    (length ip' ≤ 16)%nat.
Proof.
  induction fuel as [|fuel IH]; intros s ip ellipsis rest ip' ellipsis'.
  { simpl. intros [= _ <- _]. done. }
  cbn [net.parseIPv6_groups]. cbv zeta.
  destruct (16 <=? length ip)%nat eqn:E16.
  { intros [= _ <- _]. done. }
  apply Nat.leb_gt in E16.
  destruct (net.hexGroup s 0 0) as [[[off acc] rest0]|]; [| done].
  destruct (off =? 0)%nat; [done |].
  destruct (strings.HasPrefix rest0 ".").
  { destruct (_ && _); [done |].
    destruct (16 <? length ip + 4)%nat eqn:E4; [done |]. apply Nat.ltb_ge in E4.
    destruct (net.parseIPv4Fields s) as [f4|] eqn:Hf; [| done].
    intros [= _ <- _] _ _.
    apply parseIPv4Fields_from_length in Hf; [| done | lia].
    rewrite length_app. lia. }
  intros H Hev Hle.
  assert (length ip ≤ 14)%nat as H14.
  { destruct (Nat.even_spec (length ip)) as [[k Hk] _]; [done |]. lia. }
  assert (Nat.even (length (ip ++ [acc ≫ 8; Z.land acc 255])) = true) as Hev'.
  { rewrite length_app. simpl. rewrite Nat.add_comm. simpl. done. }
  assert (length (ip ++ [acc ≫ 8; Z.land acc 255]) ≤ 16)%nat as Hle'.
  { rewrite length_app. simpl. lia. }
  destruct rest0 as [|c0 s1]; [by injection H as _ <- _ |].
  destruct (negb _); [done |].
  destruct s1 as [|c1 s2]; [done |].
  destruct (_ =? _).
  - destruct ellipsis; [done |].
    destruct s2; [by injection H as _ <- _ |].
    by eapply IH.
  - by eapply IH.
Qed.

(** [ParseIP] gives the 16-byte form of the address. *)
Lemma ParseIP_length (s : string) (ip : net.IP) :
  net.ParseIP s = Some ip → length ip = 16%nat.
Proof.
  unfold net.ParseIP, net.ParseAddr.
  destruct (net.ParseAddr_scan s s) as [[ip0 zone]|] eqn:H; [| done].
  destruct (String.eqb zone ""); [| done]. intros [= ->].
  revert H. generalize s at 1. intros whole. induction s as [|c t IH]; simpl; [done |].
  destruct (Ascii.eqb c ".").
  { unfold net.parseIPv4.
    destruct (net.parseIPv4Fields whole) as [[|a [|b [|c0 [|d [|]]]]]|]; try done.
    by intros [= <- _]. }
  destruct (Ascii.eqb c ":"); [| destruct (Ascii.eqb c "%"); [done | exact IH]].
  clear IH. unfold net.parseIPv6.
  destruct (match net.cutByte "%" whole with
            | Some (s, zone) => if String.eqb zone "" then None else Some (s, zone)
            | None => Some (whole, "")
            end) as [[s0 zone0]|]; [| done].
  destruct (if strings.HasPrefix s0 "::" then _ else _) as [ellipsis s1].
  destruct (_ && _); [by intros [= <- _] |].
  destruct (net.parseIPv6_groups 8 s1 [] ellipsis) as [[[rest ip1] ell]|] eqn:Hg; [| done].
  apply parseIPv6_groups_length in Hg; [| done | simpl; lia].
  destruct (negb _); [done |]. cbv zeta.
  destruct (length ip1 <? 16)%nat eqn:E.
  - apply Nat.ltb_lt in E. destruct ell as [e|]; [| done]. intros [= <- _].
    rewrite !length_app, length_take, length_replicate, length_drop. lia.
  - apply Nat.ltb_ge in E. destruct ell; [done |]. intros [= <- _]. lia.
Qed.

(** Among the 16-byte addresses, the loopback addresses that are neither
    127.0.0.1 nor ::1 are the other addresses of 127.0.0.0/8. *)
Lemma other_loopback (ip : net.IP) :
  length ip = 16%nat →
  net.IsLoopback ip && negb (net.Equal ip (net.IPv4 127 0 0 1))
  && negb (net.Equal ip net.IPv6loopback) = true
  ↔ ∃ b c d, ip = net.IPv4 127 b c d ∧ ip ≠ net.IPv4 127 0 0 1.
Proof.
  intros Hlen.
  do 17 (destruct ip as [|? ip]; [simpl in Hlen; try lia |]); [| simpl in Hlen; lia].
  clear Hlen.
  unfold net.IsLoopback, net.To4, net.Equal, net.bytesEqual. cbn -[Z.eqb].
  repeat match goal with
    | |- context [(0 =? ?b)] =>
        destruct (Z.eqb_spec 0 b) as [? | ?]; [subst |]; cbn -[Z.eqb]
    | |- context [(?b =? 255)] =>
        destruct (Z.eqb_spec b 255) as [? | ?]; [subst |]; cbn -[Z.eqb]
    end.
  2-13: split;
    [ intros H; apply andb_true_iff in H as [H H2]; apply andb_true_iff in H as [H H1];
      apply negb_true_iff in H2; congruence
    | intros (b0 & c0 & d0 & Heq & _); injection Heq as ?; subst; congruence ].
  destruct (Z.eqb_spec z11 127) as [-> | Hne]; cbn -[Z.eqb].
  - replace (bool_decide (_ = net.IPv6loopback)) with false
      by (symmetry; apply bool_decide_eq_false; discriminate).
    rewrite andb_true_r.
    case_bool_decide as Heq; cbn; split; try done.
    + intros (b0 & c0 & d0 & _ & Hne). done.
    + intros _. exists z12, z13, z14. done.
  - split; [done |]. intros (b0 & c0 & d0 & Heq & _). injection Heq as ?. done.
Qed.

(** X9: [ValidateDNSServer] accepts exactly the IP literals whose address is
    not one of 127.0.0.0/8 other than 127.0.0.1: an address of that block
    is refused in dotted form and as an IPv4-mapped IPv6 literal alike, and
    ::1 is accepted. *)
Theorem ValidateDNSServer_accepts_iff (server : string) :
  errors.ValidateDNSServer server = None
  ↔ ∃ ip, net.ParseIP server = Some ip
          ∧ ∀ b c d, ip = net.IPv4 127 b c d → ip = net.IPv4 127 0 0 1.
Proof.
  unfold errors.ValidateDNSServer.
  destruct (String.eqb_spec server "") as [-> | Hne].
  { split; [done |]. intros (ip & H & _). done. }
  destruct (net.ParseIP server) as [ip|] eqn:Hip.
  2: { split; [done |]. intros (ip & H & _). done. }
  pose proof (other_loopback ip (ParseIP_length _ _ Hip)) as Hl.
  destruct (_ && _).
  - split; [done |]. intros (ip' & [= <-] & H).
    destruct (proj1 Hl eq_refl) as (b & c & d & Heq & Hne'). by apply H in Heq.
  - split; [| done]. intros _. exists ip. split; [done |]. intros b c d Heq.
    destruct (decide (ip = net.IPv4 127 0 0 1)) as [| Hne']; [done |].
    assert (false = true) by (apply Hl; eauto). done.
Qed.

(** ** The prepared server is an address *)

Lemma Contains_byte_cons (x c : ascii) (t : string) :
  strings.Contains (String x t) (String c "")
  = Ascii.eqb x c || strings.Contains t (String c "").
Proof.
  cbn [strings.Contains String.prefix].
  destruct (ascii_dec c x) as [-> | Hne].
  - rewrite Ascii.eqb_refl. by destruct t.
  - destruct (Ascii.eqb_spec x c) as [-> | _]; done.
Qed.

Lemma IndexByteString_from_absent (s : string) (c : ascii) :
  ∀ i, strings.Contains s (String c "") = false → net.IndexByteString_from s c i = -1.
Proof.
  induction s as [|x t IH]; intros i; [done |].
  rewrite Contains_byte_cons. intros [Hx Ht]%orb_false_iff.
  simpl. rewrite Hx. by apply IH.
Qed.

Lemma IndexByteString_from_present (s : string) (c : ascii) :
  ∀ i, 0 ≤ i → strings.Contains s (String c "") = true →
       0 ≤ net.IndexByteString_from s c i.
Proof.
  induction s as [|x t IH]; intros i Hi; [done |].
  rewrite Contains_byte_cons. simpl.
  destruct (Ascii.eqb x c); [intros _; lia |]. simpl. apply IH. lia.
Qed.

Lemma IndexByteString_from_app (a b : string) (c : ascii) :
  ∀ i, strings.Contains a (String c "") = false →
       net.IndexByteString_from (a +:+ b) c i
       = net.IndexByteString_from b c (i + Z.of_nat (String.length a)).
Proof.
  induction a as [|x t IH]; intros i.
  - intros _. simpl. f_equal. lia.
  - rewrite Contains_byte_cons. intros [Hx Ht]%orb_false_iff.
    change (String x t +:+ b) with (String x (t +:+ b)).
    cbn [net.IndexByteString_from String.length]. rewrite Hx, IH by done.
    f_equal. lia.
Qed.

Lemma LastIndexByteString_from_app (a b : string) (c : ascii) :
  ∀ i last,
    net.LastIndexByteString_from (a +:+ b) c i last
    = net.LastIndexByteString_from b c (i + Z.of_nat (String.length a))
        (net.LastIndexByteString_from a c i last).
Proof.
  induction a as [|x t IH]; intros i last.
  - simpl. f_equal. lia.
  - change (String x t +:+ b) with (String x (t +:+ b)).
    cbn [net.LastIndexByteString_from String.length]. rewrite IH. f_equal. lia.
Qed.

Lemma substring_app_l (a b : string) :
  String.substring 0 (String.length a) (a +:+ b) = a.
Proof.
  induction a as [|x t IH]; [by destruct b |].
  change (String x t +:+ b) with (String x (t +:+ b)). simpl. by rewrite IH.
Qed.

Lemma substring_app_r (a b : string) (n : nat) :
  String.substring (String.length a) n (a +:+ b) = String.substring 0 n b.
Proof.
  induction a as [|x t IH]; [done |].
  change (String x t +:+ b) with (String x (t +:+ b)). simpl. exact IH.
Qed.

Lemma substring_all (s : string) : String.substring 0 (String.length s) s = s.
Proof. induction s as [|x t IH]; simpl; [done | by rewrite IH]. Qed.

Lemma length_append (a b : string) :
  String.length (a +:+ b) = (String.length a + String.length b)%nat.
Proof.
  induction a as [|x t IH]; [done |].
  change (String x t +:+ b) with (String x (t +:+ b)). simpl. by rewrite IH.
Qed.

(** An IP literal has neither bracket. *)
Lemma ipBytes_no_bracket (s : string) :
  net.ipBytes s = true →
  strings.Contains s "[" = false ∧ strings.Contains s "]" = false.
Proof.
  induction s as [|x t IH]; [done |].
  cbn [net.ipBytes]. intros [Hx Ht]%andb_true_iff.
  rewrite !Contains_byte_cons. destruct (IH Ht) as [-> ->].
  rewrite !orb_false_r.
  split; apply Ascii.eqb_neq; intros ->; vm_compute in Hx; done.
Qed.

(** A host without colon or bracket, a colon and a port of digits split
    into the two. *)
Lemma SplitHostPort_plain (host : string) :
  host ≠ "" →
  strings.Contains host ":" = false →
  strings.Contains host "[" = false →
  strings.Contains host "]" = false →
  net.SplitHostPort (host +:+ ":53") = inl (host, "53").
Proof.
  intros Hne Hc Hl Hr. unfold net.SplitHostPort. cbv zeta.
  unfold net.LastIndexByteString, net.IndexByteString, net.slice, net.len.
  rewrite LastIndexByteString_from_app.
  cbn [net.LastIndexByteString_from Ascii.eqb Bool.eqb].
  replace ((0 + Z.of_nat (String.length host)) <? 0) with false by (symmetry; apply Z.ltb_ge; lia).
  destruct host as [|x t]; [done |].
  assert ((strings.at_ (String x t +:+ ":53") 0 =? strings.byte_val "[") = false) as ->.
  { rewrite Contains_byte_cons in Hl. apply orb_false_iff in Hl as [Hx _].
    rewrite ascii_eqb_byte_val in Hx. exact Hx. }
  replace (Z.to_nat (0 + Z.of_nat (String.length (String x t)) - 0))
    with (String.length (String x t)) by lia.
  rewrite substring_app_l.
  rewrite (IndexByteString_from_absent _ _ 0 Hc).
  change (0 <=? -1) with false. cbv iota beta.
  replace (Z.to_nat (Z.of_nat (String.length (String x t +:+ ":53")) - 0))
    with (String.length (String x t +:+ ":53")) by lia.
  change (Z.to_nat 0) with 0%nat.
  rewrite substring_all.
  rewrite !IndexByteString_from_app by done.
  cbn [net.IndexByteString_from Ascii.eqb Bool.eqb].
  change (0 <=? -1) with false. cbv iota beta.
  rewrite length_append.
  replace (Z.to_nat (0 + Z.of_nat (String.length (String x t)) + 1))
    with (String.length (String x t +:+ ":"))%nat by (rewrite length_append; simpl; lia).
  change (String x t +:+ ":53") with (String x t +:+ (":" +:+ "53")).
  rewrite <- append_assoc, substring_app_r.
  replace (Z.to_nat _) with 2%nat by (simpl String.length; lia).
  reflexivity.
Qed.

(** A host without bracket between brackets, a colon and a port of digits
    split into the two. *)
Lemma SplitHostPort_bracketed (host : string) :
  strings.Contains host "[" = false →
  strings.Contains host "]" = false →
  net.SplitHostPort ("[" +:+ host +:+ "]:53") = inl (host, "53").
Proof.
  intros Hl Hr. unfold net.SplitHostPort. cbv zeta.
  unfold net.LastIndexByteString, net.IndexByteString, net.slice, net.len.
  change ("[" +:+ host +:+ "]:53") with (String "[" (host +:+ "]:53")).
  cbn [net.LastIndexByteString_from net.IndexByteString_from Ascii.eqb Bool.eqb
       strings.at_ String.get].
  rewrite LastIndexByteString_from_app, IndexByteString_from_app by done.
  cbn [net.LastIndexByteString_from net.IndexByteString_from Ascii.eqb Bool.eqb
       String.length].
  rewrite length_append. cbn [String.length].
  set (n := String.length host).
  replace (0 + 1 + Z.of_nat n + 1 <? 0) with false by (symmetry; apply Z.ltb_ge; lia).
  change (strings.byte_val "[" =? strings.byte_val "[") with true. cbv iota.
  replace (0 + 1 + Z.of_nat n <? 0) with false by (symmetry; apply Z.ltb_ge; lia).
  replace (0 + 1 + Z.of_nat n + 1 =? Z.of_nat (S (n + 4))) with false
    by (symmetry; apply Z.eqb_neq; lia).
  rewrite Z.eqb_refl. cbv iota beta.
  replace (Z.to_nat (Z.of_nat (S (n + 4)) - 1)) with (n + 4)%nat by lia.
  change (Z.to_nat 1) with 1%nat.
  cbn [String.substring].
  assert (String.substring 0 (n + 4) (host +:+ "]:53") = host +:+ "]:53") as ->.
  { replace (n + 4)%nat with (String.length (host +:+ "]:53"))
      by (rewrite length_append; done).
    apply substring_all. }
  rewrite IndexByteString_from_app by done.
  cbn [net.IndexByteString_from Ascii.eqb Bool.eqb].
  change (0 <=? -1) with false. cbv iota.
  replace (Z.to_nat (0 + 1 + Z.of_nat n + 1)) with (S (String.length (host +:+ "]")))
    by (rewrite length_append; simpl; lia).
  cbn [String.substring].
  change (host +:+ "]:53") with (host +:+ ("]" +:+ ":53")).
  rewrite <- (append_assoc host "]" ":53"), substring_app_r.
  replace (Z.to_nat _) with 3%nat by lia.
  cbn [String.substring net.IndexByteString_from Ascii.eqb Bool.eqb].
  change (0 <=? -1) with false. cbv iota.
  replace (Z.to_nat (0 + 1 + Z.of_nat n + 1 + 1)) with (S (String.length (host +:+ "]:")))
    by (rewrite length_append; simpl; lia).
  cbn [String.substring].
  rewrite (append_assoc host "]" ":53").
  replace (Z.to_nat (0 + 1 + Z.of_nat n - 1)) with n by lia.
  unfold n at 1. rewrite substring_app_l.
  change (host +:+ ("]" +:+ ":53")) with (host +:+ ("]:" +:+ "53")).
  rewrite <- (append_assoc host "]:" "53"), substring_app_r.
  replace (Z.to_nat _) with 2%nat by lia.
  reflexivity.
Qed.

(** X10: When [Query] is given a server and accepts it, the address it goes on
    with splits into a host and a port that pass the two validators: it is
    the server as given, which had a port, or the given IP literal with
    port 53, between brackets when it has a colon. *)
Theorem prepareServer_address (w : dns.World) (server finalServer : string) :
  server ≠ "" →
  dns.prepareServer w server = inr finalServer →
  ∃ host port,
    net.SplitHostPort finalServer = inl (host, port)
    ∧ errors.ValidateDNSServer host = None
    ∧ errors.ValidateDNSPort port = None
    ∧ (finalServer = server
       ∨ (host = server ∧ port = "53"
          ∧ finalServer
            = if strings.Contains server ":" then "[" +:+ server +:+ "]:53"
              else server +:+ ":53")).
Proof.
  intros Hne. unfold dns.prepareServer.
  destruct (String.eqb_spec server "") as [| _]; [done |].
  assert (∀ fs, dns.splitAndValidate server = inr fs →
            ∃ host port, net.SplitHostPort fs = inl (host, port)
              ∧ errors.ValidateDNSServer host = None
              ∧ errors.ValidateDNSPort port = None
              ∧ (fs = server
                 ∨ (host = server ∧ port = "53"
                    ∧ fs = if strings.Contains server ":" then "[" +:+ server +:+ "]:53"
                           else server +:+ ":53"))) as Hsplit.
  { intros fs. unfold dns.splitAndValidate.
    destruct (net.SplitHostPort server) as [[host port]|text] eqn:Hs; [| done].
    destruct (errors.ValidateDNSServer host) eqn:Hh; [done |].
    destruct (errors.ValidateDNSPort port) eqn:Hp; [done |].
    intros [= <-]. exists host, port. rewrite Hs. repeat split; try done. by left. }
  destruct (_ && _); [apply Hsplit |].
  destruct (negb (strings.Contains server ":") || _) eqn:Hbranch; [| apply Hsplit].
  destruct (errors.ValidateDNSServer server) eqn:Hv; [done |].
  assert (∃ ip, net.ParseIP server = Some ip) as [ip Hip].
  { unfold errors.ValidateDNSServer in Hv.
    destruct (String.eqb server ""); [done |].
    destruct (net.ParseIP server); [eauto | done]. }
  apply ParseIP_bytes in Hip as Hbytes.
  destruct (ipBytes_no_bracket _ Hbytes) as [Hl Hr].
  rewrite Hip. rewrite bool_decide_eq_true_2 by done. rewrite andb_true_r.
  destruct (strings.Contains server ":") eqn:Hc; intros [= <-]; exists server, "53".
  - rewrite SplitHostPort_bracketed by done. repeat split; try done. by right.
  - rewrite SplitHostPort_plain by done. repeat split; try done. by right.
Qed.

(** The server "2001:4860:4860::8888" becomes "[2001:4860:4860::8888]:53". *)
Lemma prepareServer_address_witness :
  let w := Samples.world Samples.timedOut in
  dns.prepareServer w "2001:4860:4860::8888" = inr "[2001:4860:4860::8888]:53"
  ∧ ∃ host port,
      net.SplitHostPort "[2001:4860:4860::8888]:53" = inl (host, port)
      ∧ errors.ValidateDNSServer host = None
      ∧ errors.ValidateDNSPort port = None
      ∧ host = "2001:4860:4860::8888" ∧ port = "53".
Proof.
  cbv zeta. split; [reflexivity |].
  destruct (prepareServer_address (Samples.world Samples.timedOut) "2001:4860:4860::8888"
              "[2001:4860:4860::8888]:53" ltac:(discriminate) eq_refl)
    as (host & port & Hs & Hh & Hp & Hcase).
  exists host, port. repeat (split; [assumption |]).
  destruct Hcase as [Heq | (-> & -> & _)]; [discriminate Heq | done].
Defined.

(** ** The resolver of the system *)

(** An address made of a server with a colon and no opening bracket,
    followed by ":53", does not split into host and port. *)
Lemma SplitHostPort_too_many_colons (first : string) :
  strings.Contains first ":" = true →
  strings.HasPrefix first "[" = false →
  net.SplitHostPort (first +:+ ":53")
  = inr ("address " +:+ first +:+ ":53" +:+ ": too many colons in address").
Proof.
  intros Hc Hb.
  unfold net.SplitHostPort. cbv zeta.
  unfold net.LastIndexByteString, net.IndexByteString, net.slice, net.len.
  rewrite LastIndexByteString_from_app.
  cbn [net.LastIndexByteString_from Ascii.eqb Bool.eqb].
  replace ((0 + Z.of_nat (String.length first)) <? 0) with false
    by (symmetry; apply Z.ltb_ge; lia).
  destruct first as [|x t]; [done |].
  assert ((strings.at_ (String x t +:+ ":53") 0 =? strings.byte_val "[") = false) as ->.
  { change (strings.at_ (String x t +:+ ":53") 0) with (strings.byte_val x).
    rewrite <- ascii_eqb_byte_val. apply Ascii.eqb_neq. intros ->.
    unfold strings.HasPrefix in Hb. simpl in Hb. by destruct t. }
  replace (Z.to_nat (0 + Z.of_nat (String.length (String x t)) - 0))
    with (String.length (String x t)) by lia.
  rewrite substring_app_l.
  apply (IndexByteString_from_present _ _ 0) in Hc; [| lia].
  apply Z.leb_le in Hc. rewrite Hc.
  unfold net.addrErr. by rewrite !append_assoc.
Qed.

(** X11: When the configuration of the system (the file of the resolver, read
    at the path for the operating system) lists servers, the address that
    [getSystemDNS] gives, and that [Query] goes on with for the empty server,
    is the first server listed followed by ":53", whatever the other
    servers are and brackets never added: the server of the result is that
    address and the exchange is attempted with it.  When the first server
    is an IPv6 literal (it has a colon and opens no bracket), the address
    does not split into host and port. *)
Theorem system_resolver_address lib c domain recordType (w : dns.World)
    (first : string) (rest : list string) :
  dns.ClientConfigFromFile w
    (if String.eqb (dns.GOOS w) "windows" then "" else "/etc/resolv.conf")
  = inl (first :: rest) →
  dns.getSystemDNS w = (first +:+ ":53", None)
  ∧ dns.prepareServer w "" = inr (first +:+ ":53")
  ∧ (errors.ValidateDomain domain = None →
     errors.ValidateRecordType lib recordType = None →
     dns.Server (dns.Query lib c domain recordType "" w).1.1 = first +:+ ":53"
     ∧ ∃ msg, dns.exchanged (dns.Query lib c domain recordType "" w).2
              = dns.exchanged w ++ [(msg, first +:+ ":53")])
  ∧ (strings.Contains first ":" = true →
     strings.HasPrefix first "[" = false →
     net.SplitHostPort (first +:+ ":53")
     = inr ("address " +:+ first +:+ ":53" +:+ ": too many colons in address")).
Proof.
  intros Hconf.
  assert (dns.getSystemDNS w = (first +:+ ":53", None)) as Hsys.
  { unfold dns.getSystemDNS, dns.getWindowsDNS, dns.getUnixDNS.
    destruct (String.eqb (dns.GOOS w) "windows"); by rewrite Hconf. }
  assert (dns.prepareServer w "" = inr (first +:+ ":53")) as Hprep.
  { unfold dns.prepareServer. simpl String.eqb. cbv iota. by rewrite Hsys. }
  split; [exact Hsys |]. split; [exact Hprep |]. split.
  - intros Hd Ht. by apply Query_prepared.
  - apply SplitHostPort_too_many_colons.
Qed.

(** A resolver configuration that lists "::1" before an IPv4 server. *)
Lemma system_resolver_address_witness :
  let w := Samples.configuredWorld ["::1"; "192.0.2.53"] Samples.timedOut in
  dns.getSystemDNS w = ("::1:53", None)
  ∧ dns.prepareServer w "" = inr "::1:53"
  ∧ dns.Server (dns.Query Samples.lib dns.NewClient "example.com" "A" "" w).1.1 = "::1:53"
  ∧ net.SplitHostPort "::1:53" = inr "address ::1:53: too many colons in address".
Proof.
  cbv zeta.
  destruct (system_resolver_address Samples.lib dns.NewClient "example.com" "A"
              (Samples.configuredWorld ["::1"; "192.0.2.53"] Samples.timedOut)
              "::1" ["192.0.2.53"] eq_refl)
    as (H1 & H2 & H3 & H4).
  split; [exact H1 |]. split; [exact H2 |].
  split; [exact (proj1 (H3 eq_refl eq_refl)) | exact (H4 eq_refl eq_refl)].
Defined.

(** ** An address is no domain *)

Lemma ValidateDomain_valid (domain : string) :
  errors.ValidateDomain domain = None ↔ Spec.validDomain domain = true.
Proof.
  rewrite ValidateDomain_firstViolation, <- firstViolation_None.
  by destruct (Spec.firstViolation domain).
Qed.

(** A colon is not a byte of a domain. *)
Lemma colon_not_allowed (s : string) :
  strings.Contains s ":" = true →
  forallb Spec.allowedByte (list_ascii_of_string s) = false.
Proof.
  induction s as [|c t IH]; [done |].
  rewrite Contains_byte_cons. simpl.
  destruct (Ascii.eqb_spec c ":") as [-> | _]; [done |]. simpl.
  intros H. rewrite (IH H). apply andb_false_r.
Qed.

(** An IPv4 literal is made of decimal digits and dots. *)
Lemma parseIPv4Fields_from_digits (s : string) :
  ∀ i len prev val pos digLen fields r,
    net.parseIPv4Fields_from s i len prev val pos digLen fields = Some r →
    forallb (λ c, Spec.isDigit c || Ascii.eqb c ".") (list_ascii_of_string s) = true.
Proof.
  induction s as [|c t IH]; intros i len prev val pos digLen fields r; simpl; [done |].
  change (Spec.isDigit c) with (net.isDigit (strings.byte_val c)).
  destruct (net.isDigit (strings.byte_val c)).
  - destruct (_ && _); [done |]. destruct (255 <? _); [done |]. simpl. apply IH.
  - rewrite <- (ascii_eqb_byte_val c "."). destruct (Ascii.eqb c "."); [| done].
    destruct (_ || _); [done |]. destruct (pos =? 3)%nat; [done |]. simpl. apply IH.
Qed.

Lemma allDigits_app (a b : string) :
  Spec.allDigits (a +:+ b) = Spec.allDigits a && Spec.allDigits b.
Proof.
  unfold Spec.allDigits. induction a as [|c t IH]; [done |].
  change (String c t +:+ b) with (String c (t +:+ b)). simpl. by rewrite IH, andb_assoc.
Qed.

(** The last label of a string of digits and dots is a string of digits. *)
Lemma last_label_digits (s : string) :
  ∀ cur,
    Spec.allDigits cur = true →
    forallb (λ c, Spec.isDigit c || Ascii.eqb c ".") (list_ascii_of_string s) = true →
    Spec.allDigits (List.last (strings.splitFrom "." 0 cur s) "") = true.
Proof.
  induction s as [|c t IH]; intros cur Hcur; [done |].
  simpl list_ascii_of_string. simpl forallb. intros [Hc Ht]%andb_true_iff.
  cbn [strings.splitFrom String.prefix].
  destruct (ascii_dec "." c) as [<- | Hne].
  - replace (String.prefix "" t) with true by (by destruct t).
    rewrite last_cons_nonempty by apply splitFrom_nonempty.
    simpl. by apply IH.
  - apply IH; [| done]. rewrite allDigits_app, Hcur. simpl.
    unfold Spec.allDigits. simpl. rewrite andb_true_r.
    destruct (Spec.isDigit c); [done |]. simpl in Hc.
    apply Ascii.eqb_eq in Hc. by subst.
Qed.

(** An IP literal has a colon or is an IPv4 literal. *)
Lemma ParseAddr_scan_family (whole s : string) (r : net.IP * string) :
  net.ParseAddr_scan whole s = Some r →
  strings.Contains s ":" = true ∨ is_Some (net.parseIPv4Fields whole).
Proof.
  induction s as [|c t IH]; cbn [net.ParseAddr_scan]; [done |].
  destruct (Ascii.eqb c ".").
  { unfold net.parseIPv4. destruct (net.parseIPv4Fields whole); [by right | done]. }
  rewrite Contains_byte_cons.
  destruct (Ascii.eqb c ":"); [by left |]. simpl.
  destruct (Ascii.eqb c "%"); [done |]. apply IH.
Qed.

(** X12: No IP literal is a domain for [ValidateDomain]: an address given where
    the domain is expected is refused, an IPv6 literal for its colons and
    an IPv4 literal for its numeric last label. *)
Theorem address_is_no_domain (s : string) :
  is_Some (net.ParseIP s) →
  ∃ e, errors.ValidateDomain s = Some e ∧ errors.IsInputError (Some e) = true.
Proof.
  intros [ip Hip].
  destruct (errors.ValidateDomain s) as [e |] eqn:Hv.
  { exists e. split; [done |]. by apply ValidateDomain_input in Hv. }
  exfalso. apply ValidateDomain_valid in Hv.
  unfold net.ParseIP, net.ParseAddr in Hip.
  destruct (net.ParseAddr_scan s s) as [r |] eqn:Hscan; [| done].
  unfold Spec.validDomain in Hv.
  apply ParseAddr_scan_family in Hscan as [Hcolon | [f4 Hf4]].
  - apply colon_not_allowed in Hcolon. rewrite Hcolon in Hv.
    rewrite andb_false_r in Hv. done.
  - apply parseIPv4Fields_from_digits in Hf4.
    apply (last_label_digits s "" eq_refl) in Hf4.
    unfold Spec.labels, strings.Split in Hv. rewrite Hf4 in Hv.
    rewrite andb_false_r in Hv. done.
Qed.

(** The address of a public resolver, and the loopback address of IPv6. *)
Lemma address_is_no_domain_witness :
  (∃ e, errors.ValidateDomain "8.8.8.8" = Some e ∧ errors.IsInputError (Some e) = true)
  ∧ errors.ValidateDomain "8.8.8.8"
    = errors.inputError "top-level domain cannot be all numeric"
  ∧ errors.ValidateDomain "::1"
    = errors.inputError "domain contains invalid character ':' at position 1".
Proof.
  split; [| split; reflexivity].
  apply (address_is_no_domain "8.8.8.8"). by eexists.
Defined.

(** ** The command line *)

(** A step of the flag parser that sees a flag consumes an argument. *)
Lemma parseOne_consumes (f f' : flag.FlagSet) (err : option errors.error) :
  flag.parseOne f = (true, err, f') → (length (flag.args f') < length (flag.args f))%nat.
Proof.
  unfold flag.parseOne.
  destruct (flag.args f) as [|s rest]; [done |].
  destruct (_ || _); [done |]. cbv zeta.
  destruct (_ && _); [done |].
  destruct (_ || _); [done |].
  destruct (flag.splitNameValue _) as [name hasValue].
  cbn [flag.formal].
  destruct (flag.formal f !! name); [| by destruct (_ || _)].
  destruct hasValue as [v |]; [intros [= _ <-]; simpl; lia |].
  destruct rest as [|v rest']; [done |]. intros [= _ <-]. simpl. lia.
Qed.

(** The loop of the flag parser does not depend on the fuel, once there is
    more of it than arguments. *)
Lemma parseLoop_fuel (fuel1 : nat) :
  ∀ fuel2 f,
    (length (flag.args f) < fuel1)%nat → (length (flag.args f) < fuel2)%nat →
    flag.parseLoop fuel1 f = flag.parseLoop fuel2 f.
Proof.
  induction fuel1 as [|fuel1 IH]; intros fuel2 f H1 H2; [lia |].
  destruct fuel2 as [|fuel2]; [lia |].
  simpl. destruct (flag.parseOne f) as [[seen err] f'] eqn:Hone.
  destruct seen; [| done].
  apply parseOne_consumes in Hone. apply IH; lia.
Qed.

(** A flag that was not set holds the value it had. *)
Lemma parseOne_unset (name v : string) (f f' : flag.FlagSet) seen err :
  flag.parseOne f = (seen, err, f') →
  (name ∉ flag.actual f → flag.formal f !! name = Some v) →
  name ∉ flag.actual f' → flag.formal f' !! name = Some v.
Proof.
  unfold flag.parseOne.
  destruct (flag.args f) as [|s rest]; [by intros [= _ _ <-] |].
  destruct (_ || _); [by intros [= _ _ <-] |]. cbv zeta.
  destruct (_ && _); [by intros [= _ _ <-] |].
  destruct (_ || _); [by intros [= _ _ <-] |].
  destruct (flag.splitNameValue _) as [name' hasValue].
  cbn [flag.formal].
  assert (∀ v' rest',
            (name ∉ flag.actual f → flag.formal f !! name = Some v) →
            name ∉ flag.actual
                     (flag.set name' v' rest'
                        (flag.mkFlagSet (flag.formal f) (flag.actual f) rest)) →
            flag.formal
              (flag.set name' v' rest'
                 (flag.mkFlagSet (flag.formal f) (flag.actual f) rest)) !! name = Some v)
    as Hset.
  { intros v' rest' H. simpl. intros Hn.
    apply not_elem_of_union in Hn as [Hn1 Hn2]. apply not_elem_of_singleton in Hn1.
    rewrite lookup_insert_ne by done. by apply H. }
  destruct (flag.formal f !! name'); [| by destruct (_ || _); intros [= _ _ <-]].
  destruct hasValue as [v' |]; [intros [= _ _ <-]; apply Hset |].
  destruct rest as [|v' rest']; [by intros [= _ _ <-] |]. intros [= _ _ <-]. apply Hset.
Qed.

Lemma parseLoop_unset (name v : string) (fuel : nat) :
  ∀ f f' err,
    flag.parseLoop fuel f = (err, f') →
    (name ∉ flag.actual f → flag.formal f !! name = Some v) →
    name ∉ flag.actual f' → flag.formal f' !! name = Some v.
Proof.
  induction fuel as [|fuel IH]; intros f f' err; simpl; [by intros [= _ <-] |].
  destruct (flag.parseOne f) as [[seen err0] f0] eqn:Hone.
  destruct seen.
  - intros Hloop Hf. eapply IH; [exact Hloop |]. by eapply parseOne_unset.
  - intros [= _ <-] Hf. by eapply parseOne_unset.
Qed.

(** X13: [Parse] fails with Input errors only, so that [main] leaves with the
    exit code 1 whenever the command line is refused, an error of the flag
    package included. *)
Theorem Parse_error_is_input lib (args : list string) (e : errors.error) :
  cmd.Parse lib args = inl e →
  errors.IsInputError (Some e) = true ∧ main.getExitCode (Some e) = 1.
Proof.
  unfold cmd.Parse. cbv zeta.
  destruct (flag.Parse _ args) as [err flagSet].
  assert (∀ m c, errors.IsInputError (Some (errors.ADigError (errors.NewInputError m c))) = true
                 ∧ main.getExitCode (Some (errors.ADigError (errors.NewInputError m c))) = 1)
    as Hin by done.
  destruct err; [intros [= <-]; apply Hin |].
  destruct (length _ =? 0)%nat; [intros [= <-]; apply Hin |].
  destruct (1 <? length _)%nat; [intros [= <-]; apply Hin |].
  unfold cmd.validateConfig. cbn [cmd.Domain cmd.RecordType cmd.Server].
  destruct (errors.ValidateDomain _) as [e0 |] eqn:Hd.
  { intros [= <-]. apply ValidateDomain_made in Hd as (m & c & ->). apply Hin. }
  destruct (errors.ValidateRecordType lib _) as [e0 |] eqn:Ht.
  { intros [= <-]. apply ValidateRecordType_made in Ht as (m & c & ->). apply Hin. }
  destruct (flag.visited "s" flagSet); [| done].
  destruct (errors.ValidateDNSServer _) as [e0 |] eqn:Hs; [| done].
  intros [= <-]. apply ValidateDNSServer_made in Hs as (m & c & ->). apply Hin.
Qed.

(** An unknown flag. *)
Lemma Parse_error_is_input_witness :
  let e :=
    errors.ADigError
      (errors.NewInputError "invalid command line arguments"
         (Some (errors.ForeignError "flag provided but not defined: -x"))) in
  cmd.Parse Samples.lib ["-x"; "value"; "google.com"] = inl e
  ∧ errors.IsInputError (Some e) = true
  ∧ main.getExitCode (Some e) = 1.
Proof.
  cbv zeta. split; [reflexivity |].
  apply (Parse_error_is_input Samples.lib ["-x"; "value"; "google.com"]). reflexivity.
Defined.

(** What [Parse] has checked of the configuration it returns. *)
Lemma Parse_validated lib (args : list string) (config : cmd.Config) :
  cmd.Parse lib args = inr config →
  errors.ValidateDomain (cmd.Domain config) = None
  ∧ errors.ValidateRecordType lib (cmd.RecordType config) = None
  ∧ (∃ t, cmd.RecordType config = strings.ToUpper lib t)
  ∧ (cmd.Server config = "" ∨ errors.ValidateDNSServer (cmd.Server config) = None)
  ∧ cmd.Timeout config = 5 * dns.Second.
Proof.
  unfold cmd.Parse. cbv zeta. unfold flag.Parse.
  destruct (flag.parseLoop _ _) as [err flagSet] eqn:Hloop.
  destruct err; [done |].
  destruct (length _ =? 0)%nat; [done |].
  destruct (1 <? length _)%nat; [done |].
  unfold cmd.validateConfig. cbn [cmd.Domain cmd.RecordType cmd.Server].
  destruct (errors.ValidateDomain _) as [e0 |] eqn:Hd; [done |].
  destruct (errors.ValidateRecordType lib _) as [e0 |] eqn:Ht; [done |].
  unfold flag.visited. case_bool_decide as Hvis.
  - destruct (errors.ValidateDNSServer _) as [e0 |] eqn:Hs; [done |].
    intros [= <-]. simpl. repeat split; eauto.
  - intros [= <-]. simpl. repeat split; eauto. left.
    unfold flag.value.
    by rewrite (parseLoop_unset "s" "" _ _ _ _ Hloop) by done.
Qed.

(** X14: A configuration that [Parse] returns passes the validation that
    [Query] repeats: the domain and the record type, which went through
    [ToUpper], are accepted, and the server is empty or an IP literal that
    [ValidateDNSServer] accepts, so never a host with a port nor a
    bracketed literal; the timeout is the default of five seconds. *)
Theorem Parse_config_valid lib (args : list string) (config : cmd.Config) :
  cmd.Parse lib args = inr config →
  errors.ValidateDomain (cmd.Domain config) = None
  ∧ errors.ValidateRecordType lib (cmd.RecordType config) = None
  ∧ (∃ t, cmd.RecordType config = strings.ToUpper lib t)
  ∧ (cmd.Server config = ""
     ∨ (errors.ValidateDNSServer (cmd.Server config) = None
        ∧ is_Some (net.ParseIP (cmd.Server config))
        ∧ strings.HasPrefix (cmd.Server config) "[" = false))
  ∧ cmd.Timeout config = 5 * dns.Second.
Proof.
  intros H. destruct (Parse_validated _ _ _ H) as (Hd & Ht & Hu & Hs & Hto).
  repeat (split; [assumption |]). split; [| assumption].
  destruct Hs as [Hs | Hs]; [by left | right]. split; [assumption |].
  unfold errors.ValidateDNSServer in Hs.
  destruct (String.eqb _ _); [done |].
  destruct (net.ParseIP (cmd.Server config)) as [ip |] eqn:Hip; [| done].
  split; [done |].
  destruct (strings.HasPrefix (cmd.Server config) "[") eqn:Hb; [| done].
  apply ParseIP_bracket in Hb. congruence.
Qed.

(** The command line of the usage text with every option. *)
Lemma Parse_config_valid_witness :
  let config := cmd.mkConfig "example.org" "MX" "1.1.1.1" 5000000000 in
  cmd.Parse Samples.lib ["-t"; "mx"; "-s"; "1.1.1.1"; "example.org"] = inr config
  ∧ errors.ValidateDomain "example.org" = None
  ∧ errors.ValidateRecordType Samples.lib "MX" = None
  ∧ (∃ t, "MX" = strings.ToUpper Samples.lib t)
  ∧ ("1.1.1.1" = ""
     ∨ (errors.ValidateDNSServer "1.1.1.1" = None
        ∧ is_Some (net.ParseIP "1.1.1.1")
        ∧ strings.HasPrefix "1.1.1.1" "[" = false))
  ∧ 5000000000 = 5 * dns.Second.
Proof.
  cbv zeta. split; [reflexivity |].
  apply (Parse_config_valid Samples.lib ["-t"; "mx"; "-s"; "1.1.1.1"; "example.org"]
           (cmd.mkConfig "example.org" "MX" "1.1.1.1" 5000000000)).
  reflexivity.
Defined.

(** What a step of the flag parser leaves of the arguments is an end of
    them. *)
Lemma parseOne_suffix (f f' : flag.FlagSet) seen err :
  flag.parseOne f = (seen, err, f') → ∃ pre, flag.args f = pre ++ flag.args f'.
Proof.
  unfold flag.parseOne.
  destruct (flag.args f) as [|s rest] eqn:Hargs; [intros [= _ _ <-]; by exists [] |].
  assert (∃ pre, s :: rest = pre ++ flag.args f) as Hsame by (exists []; by rewrite Hargs).
  destruct ((String.length s <? 2)%nat || negb (strings.at_ s 0 =? strings.byte_val "-"));
    [by intros [= _ _ <-] |].
  cbv zeta.
  destruct ((strings.at_ s 1 =? strings.byte_val "-") && (String.length s =? 2)%nat);
    [intros [= _ _ <-]; by exists [s] |].
  destruct ((String.length _ =? 0)%nat || _ || _); [by intros [= _ _ <-] |].
  destruct (flag.splitNameValue _) as [name hasValue].
  cbn [flag.formal].
  destruct (flag.formal f !! name);
    [| destruct (String.eqb name "help" || String.eqb name "h");
       intros [= _ _ <-]; by exists [s]].
  destruct hasValue as [v |]; [intros [= _ _ <-]; by exists [s] |].
  destruct rest as [|v rest']; intros [= _ _ <-]; [by exists [s] | by exists [s; v]].
Qed.

Lemma parseLoop_suffix (fuel : nat) :
  ∀ f f' err, flag.parseLoop fuel f = (err, f') → ∃ pre, flag.args f = pre ++ flag.args f'.
Proof.
  induction fuel as [|fuel IH]; intros f f' err; simpl; [intros [= _ <-]; by exists [] |].
  destruct (flag.parseOne f) as [[seen err0] f0] eqn:Hone.
  apply parseOne_suffix in Hone as [pre0 Hpre0].
  destruct seen.
  - intros Hloop. destruct (IH _ _ _ Hloop) as [pre Hpre].
    exists (pre0 ++ pre). by rewrite Hpre0, Hpre, app_assoc.
  - intros [= _ <-]. eauto.
Qed.

(** A step of the flag parser that sees a flag, or that ends the parsing
    of arguments all consumed, does the same when the arguments are
    followed by others that begin with one that is not a flag. *)
Lemma parseOne_followed (f f' : flag.FlagSet) seen err (domain : string) (more : list string) :
  (String.length domain <? 2)%nat || negb (strings.at_ domain 0 =? strings.byte_val "-") = true →
  flag.parseOne f = (seen, err, f') →
  seen = true ∨ (err = None ∧ flag.args f' = []) →
  flag.parseOne (flag.mkFlagSet (flag.formal f) (flag.actual f) (flag.args f ++ domain :: more))
  = (seen, err,
     flag.mkFlagSet (flag.formal f') (flag.actual f') (flag.args f' ++ domain :: more)).
Proof.
  intros Hdomain. unfold flag.parseOne. cbn [flag.args flag.formal flag.actual].
  destruct (flag.args f) as [|s rest] eqn:Hargs.
  { intros [= <- <- <-] _. rewrite Hargs. cbn [app]. by rewrite Hdomain. }
  cbn [app].
  destruct ((String.length s <? 2)%nat || negb (strings.at_ s 0 =? strings.byte_val "-")).
  { intros [= <- <- <-] [? | [_ H]]; [done |]. rewrite Hargs in H. done. }
  cbv zeta.
  destruct ((strings.at_ s 1 =? strings.byte_val "-") && (String.length s =? 2)%nat).
  { by intros [= <- <- <-] _. }
  destruct ((String.length _ =? 0)%nat || _ || _).
  { intros [= <- <- <-] [? | [? _]]; done. }
  destruct (flag.splitNameValue _) as [name hasValue].
  cbn [flag.formal].
  destruct (flag.formal f !! name).
  2: { destruct (String.eqb name "help" || String.eqb name "h");
         intros [= <- <- <-] [? | [? _]]; done. }
  destruct hasValue as [v |]; [by intros [= <- <- <-] _ |].
  destruct rest as [|v rest']; [| by intros [= <- <- <-] _].
  intros [= <- <- <-] [? | [? _]]; done.
Qed.

Lemma parseLoop_followed (domain : string) (more : list string) (fuel : nat) :
  (String.length domain <? 2)%nat || negb (strings.at_ domain 0 =? strings.byte_val "-") = true →
  ∀ f f',
    (length (flag.args f) < fuel)%nat →
    flag.parseLoop fuel f = (None, f') → flag.args f' = [] →
    flag.parseLoop fuel
      (flag.mkFlagSet (flag.formal f) (flag.actual f) (flag.args f ++ domain :: more))
    = (None, flag.mkFlagSet (flag.formal f') (flag.actual f') (domain :: more)).
Proof.
  intros Hdomain.
  induction fuel as [|fuel IH]; intros f f' Hfuel; [lia |].
  cbn [flag.parseLoop].
  destruct (flag.parseOne f) as [[seen err0] f0] eqn:Hone.
  destruct seen.
  - intros Hloop Hnil.
    rewrite (parseOne_followed _ _ _ _ domain more Hdomain Hone) by by left.
    apply parseOne_consumes in Hone as Hless.
    apply (IH f0 f' ltac:(lia) Hloop Hnil).
  - intros [= -> ->] Hnil.
    rewrite (parseOne_followed _ _ _ _ domain more Hdomain Hone) by by right.
    by rewrite Hnil.
Qed.

(** The same for [Parse] of the flag set. *)
Lemma flag_Parse_followed (f0 flagSet : flag.FlagSet) (pre : list string)
    (domain : string) (more : list string) :
  (String.length domain <? 2)%nat || negb (strings.at_ domain 0 =? strings.byte_val "-") = true →
  flag.Parse f0 pre = (None, flagSet) → flag.Args flagSet = [] →
  flag.Parse f0 (pre ++ domain :: more)
  = (None, flag.mkFlagSet (flag.formal flagSet) (flag.actual flagSet) (domain :: more)).
Proof.
  intros Hdomain. unfold flag.Parse, flag.Args. intros Hloop Hnil.
  rewrite (parseLoop_fuel _ (S (length (pre ++ domain :: more)))) in Hloop
    by (cbn [flag.args]; rewrite ?length_app; lia).
  apply (parseLoop_followed domain more _ Hdomain) in Hloop;
    [exact Hloop | cbn [flag.args]; rewrite length_app; lia | exact Hnil].
Qed.

(** X15: The flag parser stops at the first argument that is not a flag (one
    shorter than two bytes or without a leading hyphen), which is the
    domain.  [Parse] accepts a command line only if the domain is its last
    argument; and whatever flags the parser has consumed before the domain,
    [Parse] looks at no option that follows it and refuses the command line
    when anything follows, counting what is left from the domain on, as it
    refuses "google.com -t AAAA" and "-t MX google.com extra". *)
Theorem Parse_nothing_after_domain lib :
  (∀ args config,
     cmd.Parse lib args = inr config → ∃ pre, args = pre ++ [cmd.Domain config])
  ∧ (∀ pre flagSet domain next rest,
       flag.Parse (flag.String_ "s" "" (flag.String_ "t" "A" flag.NewFlagSet)) pre
       = (None, flagSet) →
       flag.Args flagSet = [] →
       (String.length domain <? 2)%nat
       || negb (strings.at_ domain 0 =? strings.byte_val "-") = true →
       cmd.Parse lib (pre ++ domain :: next :: rest)
       = cmd.inputError
           ("too many arguments: expected domain name only, got "
            +:+ strings.itoa (Z.of_nat (2 + length rest)) +:+ " arguments") None).
Proof.
  split.
  - intros args config. unfold cmd.Parse, flag.Parse. cbv zeta.
    destruct (flag.parseLoop _ _) as [err flagSet] eqn:Hloop.
    apply parseLoop_suffix in Hloop as [pre Hpre]. cbn [flag.args] in Hpre.
    destruct err; [done |]. unfold flag.Args.
    destruct (flag.args flagSet) as [|d [|next rest]]; [done | | done].
    cbn [length Nat.eqb Nat.ltb Nat.leb nth].
    destruct (cmd.validateConfig _ _ _); [done |].
    intros [= <-]. by exists pre.
  - intros pre flagSet domain next rest Hpre Hnil Hdomain.
    unfold cmd.Parse. cbv zeta.
    rewrite (flag_Parse_followed _ _ _ _ _ Hdomain Hpre Hnil).
    reflexivity.
Qed.

(** The second example of the usage text, and a command line with the type
    before the domain and a word after it. *)
Lemma Parse_nothing_after_domain_witness :
  cmd.Parse Samples.lib ["google.com"; "-t"; "AAAA"]
  = cmd.inputError "too many arguments: expected domain name only, got 3 arguments" None
  ∧ cmd.Parse Samples.lib ["-t"; "MX"; "google.com"; "extra"]
    = cmd.inputError "too many arguments: expected domain name only, got 2 arguments" None
  ∧ ∃ pre, ["-t"; "MX"; "google.com"] = pre ++ ["google.com"].
Proof.
  destruct (Parse_nothing_after_domain Samples.lib) as [Hlast Hrefused].
  split; [| split].
  - apply (Hrefused [] _ "google.com" "-t" ["AAAA"] eq_refl); reflexivity.
  - apply (Hrefused ["-t"; "MX"] _ "google.com" "extra" [] eq_refl); reflexivity.
  - apply (Hlast ["-t"; "MX"; "google.com"]
             (cmd.mkConfig "google.com" "MX" "" 5000000000)).
    reflexivity.
Defined.

(** ** From the command line to the query *)

Lemma HasSuffix_app (a b : string) : strings.HasSuffix (a +:+ b) b = true.
Proof.
  unfold strings.HasSuffix. rewrite length_append.
  replace (String.length a + String.length b - String.length b)%nat
    with (String.length a) by lia.
  rewrite substring_app_r, substring_all, String.eqb_refl, andb_true_r.
  apply Nat.leb_le. lia.
Qed.

(** The address taken from the system, or the fallback, ends with ":53". *)
Lemma prepareServer_system (w : dns.World) :
  ∃ a, dns.prepareServer w "" = inr (a +:+ ":53").
Proof.
  unfold dns.prepareServer. simpl String.eqb. cbv iota.
  unfold dns.getSystemDNS, dns.getWindowsDNS, dns.getUnixDNS.
  destruct (String.eqb _ _).
  - destruct (dns.ClientConfigFromFile w "") as [[|s0 l]|]; eauto; by exists "8.8.8.8".
  - destruct (dns.ClientConfigFromFile w "/etc/resolv.conf") as [[|s0 l]|]; eauto;
      by exists "8.8.8.8".
Qed.

(** An IP literal that [ValidateDNSServer] accepts gets the port 53. *)
Lemma prepareServer_literal (w : dns.World) (server : string) :
  errors.ValidateDNSServer server = None →
  dns.prepareServer w server
  = inr (if strings.Contains server ":" then "[" +:+ server +:+ "]:53"
         else server +:+ ":53").
Proof.
  intros Hv. unfold dns.prepareServer. rewrite Hv.
  unfold errors.ValidateDNSServer in Hv.
  destruct (String.eqb server ""); [done |].
  destruct (net.ParseIP server) as [ip |] eqn:Hip; [| done].
  destruct (strings.HasPrefix server "[") eqn:Hb.
  { apply ParseIP_bracket in Hb. congruence. }
  rewrite bool_decide_eq_true_2 by done.
  rewrite orb_true_r, andb_true_r. simpl. by destruct (strings.Contains server ":").
Qed.

(** X16: What [main] does with a configuration that [Parse] returned: [Query],
    called with it, finds nothing to refuse, so it attempts the exchange,
    with a server address that ends in ":53" (no other port can be asked
    for on the command line), and any error it returns is a Network error
    or a DNS error, with exit code 2. *)
Theorem Query_after_Parse lib (args : list string) (config : cmd.Config) (w : dns.World) :
  cmd.Parse lib args = inr config →
  let '(result, e, w') :=
    dns.Query lib (dns.SetTimeout dns.NewClient (cmd.Timeout config))
      (cmd.Domain config) (cmd.RecordType config) (cmd.Server config) w in
  errors.IsInputError e = false
  ∧ strings.HasSuffix (dns.Server result) ":53" = true
  ∧ (∃ msg, dns.exchanged w' = dns.exchanged w ++ [(msg, dns.Server result)])
  ∧ (e = None ∨ errors.IsNetworkError e = true ∨ errors.IsDNSError e = true)
  ∧ main.getExitCode e ∈ [0; 2].
Proof.
  intros H. destruct (Parse_validated _ _ _ H) as (Hd & Ht & _ & Hs & _).
  assert (∃ a, dns.prepareServer w (cmd.Server config) = inr (a +:+ ":53")) as [a Hp].
  { destruct Hs as [-> | Hs]; [apply prepareServer_system |].
    rewrite (prepareServer_literal _ _ Hs).
    destruct (strings.Contains _ ":"); [| eauto].
    exists ("[" +:+ cmd.Server config +:+ "]"). by rewrite !append_assoc. }
  set (c := dns.SetTimeout dns.NewClient (cmd.Timeout config)).
  destruct (Query_run lib c (cmd.Domain config) (cmd.RecordType config) (cmd.Server config) w)
    as [(e1 & _ & Hcase) | (fs & qt & _ & _ & Hp' & _ & Heq)].
  { destruct Hcase as [? | [[_ ?] | (_ & _ & ?)]]; congruence. }
  cbv zeta in Heq. rewrite Heq.
  match goal with |- context [dns.interpretExchange ?l ?d ?u ?f ?r ?x] =>
    pose proof (interpretExchange_error l d u f r x) as He;
    pose proof (interpretExchange_Server l d u f r x) as Hsrv;
    destruct (dns.interpretExchange l d u f r x) as [r0 e0]
  end.
  simpl in He, Hsrv. rewrite Hsrv.
  assert (fs = a +:+ ":53") as -> by congruence.
  assert (errors.IsInputError e0 = false
          ∧ (e0 = None ∨ errors.IsNetworkError e0 = true ∨ errors.IsDNSError e0 = true)
          ∧ main.getExitCode e0 ∈ [0; 2]) as (H1 & H2 & H3).
  { destruct e0 as [e0 |].
    - destruct (He e0 eq_refl) as (de & -> & _ & [[Hk _] | [Hk _]]).
      + unfold errors.IsInputError, errors.IsNetworkError, errors.hasType. simpl.
        rewrite Hk. split; [done |]. split; [right; by left |].
        rewrite !elem_of_cons; tauto.
      + unfold errors.IsInputError, errors.IsDNSError, errors.hasType. simpl.
        rewrite Hk. split; [done |]. split; [right; by right |].
        rewrite !elem_of_cons; tauto.
    - split; [done |]. split; [by left |]. rewrite !elem_of_cons; tauto. }
  split; [exact H1 |]. split; [apply HasSuffix_app |].
  split; [eexists; reflexivity |]. split; assumption.
Qed.

(** The command line "-s 2001:4860:4860::8888 example.com" against a
    server that does not answer in time. *)
Lemma Query_after_Parse_witness :
  let w := Samples.world Samples.timedOut in
  let config := cmd.mkConfig "example.com" "A" "2001:4860:4860::8888" 5000000000 in
  let q := dns.Query Samples.lib (dns.SetTimeout dns.NewClient 5000000000)
             "example.com" "A" "2001:4860:4860::8888" w in
  cmd.Parse Samples.lib ["-s"; "2001:4860:4860::8888"; "example.com"] = inr config
  ∧ dns.Server q.1.1 = "[2001:4860:4860::8888]:53"
  ∧ errors.IsInputError q.1.2 = false
  ∧ strings.HasSuffix (dns.Server q.1.1) ":53" = true
  ∧ (∃ msg, dns.exchanged q.2 = dns.exchanged w ++ [(msg, dns.Server q.1.1)])
  ∧ (q.1.2 = None ∨ errors.IsNetworkError q.1.2 = true ∨ errors.IsDNSError q.1.2 = true)
  ∧ main.getExitCode q.1.2 ∈ [0; 2].
Proof.
  cbv zeta. split; [reflexivity |]. split; [reflexivity |].
  pose proof (Query_after_Parse Samples.lib ["-s"; "2001:4860:4860::8888"; "example.com"]
                (cmd.mkConfig "example.com" "A" "2001:4860:4860::8888" 5000000000)
                (Samples.world Samples.timedOut) eq_refl) as H.
  cbn [cmd.Domain cmd.RecordType cmd.Server cmd.Timeout] in H.
  destruct (dns.Query _ _ _ _ _ _) as [[r e] w']. exact H.
Defined.

(** ** The command line with a domain only *)

(** A lone argument that reads as a flag makes [Parse] fail. *)
Lemma Parse_flag_alone lib (s : string) :
  (String.length s <? 2)%nat || negb (strings.at_ s 0 =? strings.byte_val "-") = false →
  ∃ e, cmd.Parse lib [s] = inl e.
Proof.
  intros Hflag. unfold cmd.Parse, flag.Parse. cbv zeta.
  cbn [flag.parseLoop length]. unfold flag.parseOne at 1. cbn [flag.args flag.formal flag.actual].
  rewrite Hflag. clear Hflag. cbv iota zeta.
  destruct ((strings.at_ s 1 =? strings.byte_val "-") && (String.length s =? 2)%nat);
    [cbn; eauto |].
  destruct ((String.length _ =? 0)%nat || _ || _); [cbn; eauto |].
  destruct (flag.splitNameValue _) as [name hasValue].
  destruct (_ !! name); [| destruct (String.eqb name "help" || String.eqb name "h"); cbn; eauto].
  destruct hasValue as [v |]; [| cbn; eauto].
  unfold flag.parseOne. cbn [flag.set flag.args flag.Args length Nat.eqb].
  cbn. eauto.
Qed.

(** A domain does not open with a hyphen. *)
Lemma ValidateDomain_hyphen (t : string) : errors.ValidateDomain (String "-" t) ≠ None.
Proof.
  rewrite ValidateDomain_valid. unfold Spec.validDomain.
  assert (strings.HasPrefix (String "-" t) "-" = true) as -> by (by destruct t).
  cbn [negb]. rewrite !andb_false_r. done.
Qed.

(** X17: With the domain as its only argument, [Parse] accepts exactly the
    domains that [ValidateDomain] accepts, and the configuration has the
    defaults: the record type A, no server (the resolver of the system is
    asked), a timeout of five seconds. *)
Theorem Parse_domain_only lib (domain : string) (config : cmd.Config) :
  cmd.Parse lib [domain] = inr config
  ↔ errors.ValidateDomain domain = None
    ∧ config = cmd.mkConfig domain "A" "" (5 * dns.Second).
Proof.
  destruct ((String.length domain <? 2)%nat
            || negb (strings.at_ domain 0 =? strings.byte_val "-")) eqn:Hflag.
  - unfold cmd.Parse, flag.Parse. cbv zeta.
    cbn [flag.parseLoop length]. unfold flag.parseOne at 1.
    cbn [flag.args flag.formal flag.actual]. rewrite Hflag.
    cbn [flag.Args flag.args length Nat.eqb Nat.ltb Nat.leb nth].
    change (flag.value "t" _) with "A". change (flag.value "s" _) with "".
    change (strings.ToUpper lib "A") with "A".
    unfold cmd.validateConfig. cbn [cmd.Domain cmd.RecordType cmd.Server cmd.Timeout].
    change (errors.ValidateRecordType lib "A") with (@None errors.error).
    change (flag.visited "s" _) with false. cbv iota.
    destruct (errors.ValidateDomain domain).
    + split; [done | intros [? _]; done].
    + split; [intros [= <-]; done | intros [_ ->]; done].
  - destruct (Parse_flag_alone lib domain Hflag) as [e ->].
    split; [done |]. intros [Hv _]. exfalso.
    apply orb_false_iff in Hflag as [_ Hflag]. apply negb_false_iff in Hflag.
    destruct domain as [|c t]; [done |].
    change (strings.at_ (String c t) 0) with (strings.byte_val c) in Hflag.
    apply Z.eqb_eq, byte_val_inj in Hflag as ->.
    by apply ValidateDomain_hyphen in Hv.
Qed.

(** ** The formatter: record values *)

(** X18: A CNAME target is displayed with its final dot, added when missing and
    never doubled: formatting what was formatted changes nothing. *)
Theorem formatRecordValue_CNAME lib (recordType value : string) :
  strings.ToUpper lib recordType = "CNAME" →
  let shown := output.formatRecordValue lib recordType value in
  strings.HasSuffix shown "." = true
  ∧ output.formatRecordValue lib recordType shown = shown
  ∧ (strings.HasSuffix value "." = true → shown = value)
  ∧ (strings.HasSuffix value "." = false → shown = value +:+ ".").
Proof.
  intros Hup. unfold output.formatRecordValue. rewrite Hup.
  cbn [String.eqb Ascii.eqb Bool.eqb orb andb]. cbv iota beta.
  destruct (strings.HasSuffix value ".") eqn:Hs; cbn [negb]; cbv zeta iota.
  - rewrite Hs. cbn [negb]. cbv iota. done.
  - rewrite (HasSuffix_app value "."). cbn [negb]. cbv iota. done.
Qed.

(** The type "cname" and a target without final dot. *)
Lemma formatRecordValue_CNAME_witness :
  let shown := output.formatRecordValue Samples.lib "cname" "alias.example.net" in
  shown = "alias.example.net."
  ∧ strings.HasSuffix shown "." = true
  ∧ output.formatRecordValue Samples.lib "cname" shown = shown.
Proof.
  cbv zeta. split; [reflexivity |].
  destruct (formatRecordValue_CNAME Samples.lib "cname" "alias.example.net" eq_refl)
    as (H1 & H2 & _).
  split; [exact H1 | exact H2].
Defined.

Lemma replaceFrom_quote_cons (c : ascii) (t : string) :
  strings.replaceFrom (String strings.quote "")
    (String strings.backslash (String strings.quote "")) 0 (String c t)
  = if Ascii.eqb c strings.quote
    then String strings.backslash
           (String strings.quote
              (strings.replaceFrom (String strings.quote "")
                 (String strings.backslash (String strings.quote "")) 0 t))
    else String c
           (strings.replaceFrom (String strings.quote "")
              (String strings.backslash (String strings.quote "")) 0 t).
Proof.
  cbn [strings.replaceFrom String.prefix String.length Nat.sub].
  destruct (Ascii.eqb_spec c strings.quote) as [-> | Hne].
  - destruct (ascii_dec strings.quote strings.quote) as [_ | Hne]; [| done].
    by destruct t.
  - destruct (ascii_dec strings.quote c) as [Heq | _]; [by subst | done].
Qed.

(** Unescaping undoes the escaping of the quotes. *)
Lemma unescape_escaped (value : string) :
  Reference.unescape
    (strings.replaceFrom (String strings.quote "")
       (String strings.backslash (String strings.quote "")) 0 value)
  = value.
Proof.
  induction value as [|c t IH]; [done |].
  rewrite replaceFrom_quote_cons.
  destruct (Ascii.eqb_spec c strings.quote) as [-> | Hne].
  - cbn [Reference.unescape]. rewrite Ascii.eqb_refl.
    change (Ascii.eqb strings.quote strings.quote) with true. cbv iota.
    by rewrite IH.
  - cbn [Reference.unescape].
    destruct (Ascii.eqb_spec c strings.backslash) as [-> | Hnb]; [| by rewrite IH].
    destruct t as [|c' t']; [done |].
    rewrite replaceFrom_quote_cons in IH |- *.
    destruct (Ascii.eqb_spec c' strings.quote) as [-> | Hne'].
    + change (Ascii.eqb strings.backslash strings.quote) with false. cbv iota.
      by rewrite IH.
    + apply Ascii.eqb_neq in Hne'. rewrite Hne'. by rewrite IH.
Qed.

(** X19: The display of a TXT value loses nothing: a value with a space, a
    quote, an apostrophe or a backslash is put between quotes, the quotes
    inside it escaped, any other value is left alone, and reading the
    display back ([Reference.unquote]) gives the value. *)
Theorem formatRecordValue_TXT lib (recordType value : string) :
  strings.ToUpper lib recordType = "TXT" →
  let shown := output.formatRecordValue lib recordType value in
  Reference.unquote shown = value
  ∧ (shown = value
     ∨ ∃ escaped, shown = String strings.quote (escaped +:+ String strings.quote "")
                  ∧ Reference.unescape escaped = value).
Proof.
  intros Hup. unfold output.formatRecordValue. rewrite Hup.
  cbn [String.eqb Ascii.eqb Bool.eqb orb andb]. cbv iota beta.
  destruct (strings.Contains value " " || strings.ContainsAny value output.quotedBytes)
    eqn:Hq; cbv zeta iota.
  - unfold strings.ReplaceAll.
    set (escaped := strings.replaceFrom _ _ 0 value).
    change (String strings.quote escaped +:+ String strings.quote "")
      with (String strings.quote (escaped +:+ String strings.quote "")).
    split; [| right; exists escaped; split; [done | apply unescape_escaped]].
    cbn [Reference.unquote].
    change (Ascii.eqb strings.quote strings.quote) with true. cbv iota.
    rewrite length_append. cbn [String.length].
    replace (String.length escaped + 1 - 1)%nat with (String.length escaped) by lia.
    rewrite substring_app_l. apply unescape_escaped.
  - split; [| by left].
    destruct value as [|c t]; [done |].
    cbn [Reference.unquote].
    apply orb_false_iff in Hq as [_ Hq].
    unfold strings.ContainsAny in Hq. cbn [list_ascii_of_string existsb] in Hq.
    apply orb_false_iff in Hq as [Hq _].
    apply orb_false_iff in Hq as [Hq _]. by rewrite Hq.
Qed.

(** A value with quotes inside, under the type "txt". *)
Lemma formatRecordValue_TXT_witness :
  let value := "say " +:+ String strings.quote "hi" +:+ String strings.quote "" in
  let shown := output.formatRecordValue Samples.lib "txt" value in
  shown
  = String strings.quote
      ("say " +:+ String strings.backslash (String strings.quote "hi")
       +:+ String strings.backslash (String strings.quote (String strings.quote "")))
  ∧ Reference.unquote shown = value.
Proof.
  cbv zeta. split; [reflexivity |].
  apply (formatRecordValue_TXT Samples.lib "txt"). reflexivity.
Defined.

(** ** The formatter: durations *)

(** X20: A query time below one millisecond is displayed in whole
    microseconds, fewer than 1000 of them, and any other in whole
    milliseconds, at least one; the fraction is cut off. *)
Theorem formatDuration_units (d : Z) :
  0 ≤ d →
  (d < 1000000 →
   ∃ n, output.formatDuration d = strings.itoa n +:+ " usec"
        ∧ 1000 * n ≤ d < 1000 * (n + 1) ∧ 0 ≤ n < 1000)
  ∧ (1000000 ≤ d →
     ∃ n, output.formatDuration d = strings.itoa n +:+ " msec"
          ∧ 1000000 * n ≤ d < 1000000 * (n + 1) ∧ 1 ≤ n).
Proof.
  intros Hd. unfold output.formatDuration, time.Millisecond, time.Microsecond,
    time.Microseconds, time.Milliseconds.
  change (1000 * 1000) with 1000000.
  split; intros E.
  - replace (d <? 1000000) with true by (symmetry; apply Z.ltb_lt; lia).
    exists (d ÷ 1000). rewrite Z.quot_div_nonneg by lia.
    split; [done |].
    pose proof (Z.mul_div_le d 1000 ltac:(lia)).
    pose proof (Z.mul_succ_div_gt d 1000 ltac:(lia)).
    split; [lia |]. split; [apply Z.div_pos; lia | apply Z.div_lt_upper_bound; lia].
  - replace (d <? 1000000) with false by (symmetry; apply Z.ltb_ge; lia).
    exists (d ÷ 1000000). rewrite Z.quot_div_nonneg by lia.
    split; [done |].
    pose proof (Z.mul_div_le d 1000000 ltac:(lia)).
    pose proof (Z.mul_succ_div_gt d 1000000 ltac:(lia)).
    split; [lia |]. apply Z.div_le_lower_bound; lia.
Qed.

(** 999.999 microseconds. *)
Lemma formatDuration_units_witness :
  ∃ n, output.formatDuration 999999 = strings.itoa n +:+ " usec"
       ∧ 1000 * n ≤ 999999 < 1000 * (n + 1) ∧ 0 ≤ n < 1000.
Proof.
  apply (formatDuration_units 999999); lia.
Defined.

(** ** The formatter and the result of [Query] *)

(** The server that [Query] goes on with is never the empty string. *)
Lemma prepareServer_nonempty (w : dns.World) (server fs : string) :
  dns.prepareServer w server = inr fs → fs ≠ "".
Proof.
  unfold dns.prepareServer.
  destruct (String.eqb_spec server "") as [-> | Hne].
  { destruct (prepareServer_system w) as [a Ha]. unfold dns.prepareServer in Ha.
    simpl String.eqb in Ha. cbv iota in Ha. rewrite Ha. intros [= <-].
    by destruct a. }
  assert (∀ fs, dns.splitAndValidate server = inr fs → fs ≠ "") as Hsplit.
  { intros fs0. unfold dns.splitAndValidate.
    destruct (net.SplitHostPort server) as [[host port]|]; [| done].
    destruct (errors.ValidateDNSServer host); [done |].
    destruct (errors.ValidateDNSPort port); [done |]. by intros [= <-]. }
  destruct (_ && _); [apply Hsplit |].
  destruct (_ || _); [| apply Hsplit].
  destruct (errors.ValidateDNSServer server); [done |].
  destruct (_ && _); intros [= <-]; [done |]. by destruct server.
Qed.

(** X21: What [FormatResult] makes of the result of [Query].  With an error it
    is the text that [FormatError] makes of the error.  Without, the first
    line always names the server, less a final ":53", and the answer
    section has a line for each record in order, at least one: the heading
    "(empty)" is never printed, and "record" is in the plural from two
    on. *)
Theorem FormatResult_of_Query lib c domain recordType server w (when : string) :
  let '(result, e, _) := dns.Query lib c domain recordType server w in
  let shown := output.FormatResult lib when (Some result) in
  (e ≠ None → shown = output.FormatError e)
  ∧ (e = None →
     ∃ meta lines,
       lines = map (output.recordLine lib result) (dns.Records result)
       ∧ lines ≠ []
       ∧ shown
         = "; <<>> go-dig <<>> " +:+ domain +:+ " " +:+ recordType +:+ " @"
           +:+ strings.TrimSuffix (dns.Server result) ":53" +:+ strings.newline
           +:+ meta
           +:+ ";; ANSWER SECTION: (" +:+ strings.itoa (Z.of_nat (length lines))
           +:+ " record" +:+ (if (length lines =? 1)%nat then "" else "s")
           +:+ ")" +:+ strings.newline
           +:+ String.concat "" lines).
Proof.
  destruct (Query_run lib c domain recordType server w)
    as [(e1 & -> & _) | (fs & qt & _ & _ & Hs & _ & Heq)].
  - simpl. split; [done |]. done.
  - cbv zeta in Heq. rewrite Heq.
    match goal with |- context [dns.interpretExchange ?l ?d ?u ?f ?r ?x] =>
      pose proof (interpretExchange_fields l d u f r x) as Hf;
      pose proof (interpretExchange_Server l d u f r x) as Hsrv;
      pose proof (interpretExchange_consistent l d u f r x eq_refl eq_refl) as Hc;
      destruct (dns.interpretExchange l d u f r x) as [r0 e0]
    end.
    simpl in Hf, Hsrv. destruct Hf as (Hdom & Hrt & _).
    destruct Hc as (Herr & Hnone & _).
    unfold output.FormatResult. rewrite Herr.
    split.
    + intros Hne. destruct e0; [reflexivity | done].
    + intros ->. cbv iota.
      assert (dns.Records r0 ≠ []) as Hrec by (by apply Hnone).
      exists ((";; Query time: " +:+ output.formatDuration (dns.QueryTime r0) +:+ strings.newline)
              +:+ (";; SERVER: " +:+ dns.Server r0 +:+ strings.newline)
              +:+ (";; WHEN: " +:+ when +:+ strings.newline)
              +:+ strings.newline),
             (map (output.recordLine lib r0) (dns.Records r0)).
      split; [done |]. split; [by destruct (dns.Records r0) |].
      rewrite Hdom, Hrt, Hsrv.
      apply prepareServer_nonempty in Hs. apply String.eqb_neq in Hs. rewrite Hs.
      rewrite length_map.
      destruct (dns.Records r0) as [|x l] eqn:Hl; [done |].
      cbn [negb length Nat.eqb]. cbv iota zeta.
      destruct (length l =? 0)%nat; cbn [negb]; cbv iota;
        rewrite ?append_assoc; reflexivity.
Qed.

(** Two A records from the server 8.8.8.8. *)
Lemma FormatResult_of_Query_witness :
  let w := Samples.world (Samples.answered dns.RcodeSuccess Samples.answers) in
  let q := dns.Query Samples.lib dns.NewClient "example.com" "A" "8.8.8.8" w in
  let shown := output.FormatResult Samples.lib "Mon Jan 02 15:04:05 UTC 2006" (Some q.1.1) in
  q.1.2 = None
  ∧ dns.Records q.1.1 = ["192.0.2.1"; "192.0.2.2"]
  ∧ ∃ meta lines,
      lines = map (output.recordLine Samples.lib q.1.1) (dns.Records q.1.1)
      ∧ lines ≠ []
      ∧ shown
        = "; <<>> go-dig <<>> " +:+ "example.com" +:+ " " +:+ "A" +:+ " @"
          +:+ strings.TrimSuffix (dns.Server q.1.1) ":53" +:+ strings.newline
          +:+ meta
          +:+ ";; ANSWER SECTION: (" +:+ strings.itoa (Z.of_nat (length lines))
          +:+ " record" +:+ (if (length lines =? 1)%nat then "" else "s")
          +:+ ")" +:+ strings.newline
          +:+ String.concat "" lines.
Proof.
  cbv zeta. split; [reflexivity |]. split; [reflexivity |].
  pose proof (FormatResult_of_Query Samples.lib dns.NewClient "example.com" "A" "8.8.8.8"
                (Samples.world (Samples.answered dns.RcodeSuccess Samples.answers))
                "Mon Jan 02 15:04:05 UTC 2006") as H.
  assert ((dns.Query Samples.lib dns.NewClient "example.com" "A" "8.8.8.8"
             (Samples.world (Samples.answered dns.RcodeSuccess Samples.answers))).1.2 = None)
    as He by reflexivity.
  destruct (dns.Query _ _ _ _ _ _) as [[r e] w']. simpl in He. subst e.
  cbv zeta in H. destruct H as [_ H]. exact (H eq_refl).
Defined.

Lemma Contains_line (a b c rest : string) :
  strings.Contains (a +:+ b +:+ c +:+ rest) (a +:+ b +:+ c) = true.
Proof.
  rewrite <- (append_assoc b c rest), <- (append_assoc a (b +:+ c) rest).
  apply Contains_app_l, Contains_prefix, prefix_refl.
Qed.

(** X22: Whenever [Query] fails after it contacted a server, the text that
    [main] prints for the error has the line "DNS Server: " with the address
    that was contacted. *)
Theorem FormatError_of_Query lib c domain recordType server w :
  let '(result, e, w') := dns.Query lib c domain recordType server w in
  e ≠ None → w' ≠ w →
  strings.HasPrefix (output.FormatError e) "Error: " = true
  ∧ strings.Contains (output.FormatError e)
      ("DNS Server: " +:+ dns.Server result +:+ strings.newline) = true.
Proof.
  destruct (Query_run lib c domain recordType server w)
    as [(e1 & -> & _) | (fs & qt & _ & _ & Hs & _ & Heq)]; [done |].
  cbv zeta in Heq. rewrite Heq.
  match goal with |- context [dns.interpretExchange ?l ?d ?u ?f ?r ?x] =>
    pose proof (interpretExchange_error l d u f r x) as He;
    pose proof (interpretExchange_Server l d u f r x) as Hsrv;
    destruct (dns.interpretExchange l d u f r x) as [r0 e0]
  end.
  simpl in He, Hsrv. intros Hne _. destruct e0 as [e0 |]; [| done].
  destruct (He e0 eq_refl) as (de & -> & Hsv & Hk).
  rewrite Hsrv. cbn [output.FormatError]. unfold output.formatDigError.
  apply prepareServer_nonempty in Hs. apply String.eqb_neq in Hs.
  split; [rewrite !append_assoc; apply prefix_app |].
  destruct Hk as [[-> _] | [-> Hd]]; rewrite Hsv, Hs; cbn [negb]; cbv iota.
  - rewrite !append_assoc. do 6 apply Contains_app_r. apply Contains_line.
  - destruct (negb _); rewrite !append_assoc.
    + do 9 apply Contains_app_r. apply Contains_line.
    + do 7 apply Contains_app_r. apply Contains_line.
Qed.

(** A server that answers with the code of a name error. *)
Lemma FormatError_of_Query_witness :
  let w := Samples.world (Samples.answered dns.RcodeNameError []) in
  let q := dns.Query Samples.lib dns.NewClient "example.com" "A" "8.8.8.8" w in
  dns.Server q.1.1 = "8.8.8.8:53"
  ∧ q.1.2 ≠ None
  ∧ q.2 ≠ w
  ∧ strings.HasPrefix (output.FormatError q.1.2) "Error: " = true
  ∧ strings.Contains (output.FormatError q.1.2)
      ("DNS Server: " +:+ dns.Server q.1.1 +:+ strings.newline) = true.
Proof.
  cbv zeta. split; [reflexivity |].
  assert ((dns.Query Samples.lib dns.NewClient "example.com" "A" "8.8.8.8"
             (Samples.world (Samples.answered dns.RcodeNameError []))).1.2 ≠ None)
    as He by (vm_compute; discriminate).
  assert ((dns.Query Samples.lib dns.NewClient "example.com" "A" "8.8.8.8"
             (Samples.world (Samples.answered dns.RcodeNameError []))).2
          ≠ Samples.world (Samples.answered dns.RcodeNameError []))
    as Hw by (intros H; apply (f_equal dns.exchanged) in H; vm_compute in H; discriminate).
  pose proof (FormatError_of_Query Samples.lib dns.NewClient "example.com" "A" "8.8.8.8"
                (Samples.world (Samples.answered dns.RcodeNameError []))) as H.
  destruct (dns.Query _ _ _ _ _ _) as [[r e] w'].
  split; [exact He |]. split; [exact Hw |]. exact (H He Hw).
Defined.

(** ** The text of an error *)

Lemma Contains_refl (s : string) : strings.Contains s s = true.
Proof. apply Contains_prefix, prefix_refl. Qed.

(** X23: The text of a [DigError] has in it the text of its cause, and so the
    text of every error on the chain of its causes, as far as the method
    [Unwrap] of [DigError] leads: up to the first cause of another type,
    that one included.  The transport error that [Query] wraps in a Network
    error can so be read in the message. *)
Theorem Error_mentions_causes (e c : errors.error) :
  Reference.causeChain e c → strings.Contains (errors.Error e) (errors.Error c) = true.
Proof.
  induction 1 as [e | de cause c Hcause _ IH]; [apply Contains_refl |].
  unfold errors.Unwrap in Hcause. cbn [errors.Error]. rewrite Hcause.
  do 4 apply Contains_app_r. by apply Contains_app_l.
Qed.

(** A Network error made of a wrapped transport error. *)
Lemma Error_mentions_causes_witness :
  let cause := errors.ForeignError "read udp 192.0.2.7:53011->8.8.8.8:53: i/o timeout" in
  let inner := errors.ADigError (errors.NewNetworkError "DNS server timeout" (Some cause) "8.8.8.8:53") in
  let e := errors.ADigError (errors.NewSystemError "lookup failed" (Some inner)) in
  errors.Error e
  = "System error: lookup failed (caused by: Network error: DNS server timeout (caused by: read udp 192.0.2.7:53011->8.8.8.8:53: i/o timeout))"
  ∧ strings.Contains (errors.Error e) (errors.Error cause) = true.
Proof.
  cbv zeta. split; [reflexivity |].
  apply Error_mentions_causes.
  eapply Reference.causeChain_step; [reflexivity |].
  eapply Reference.causeChain_step; [reflexivity |].
  apply Reference.causeChain_refl.
Defined.

(** ** The formatter: the name column *)

(** The loop over the runes of a string of ASCII bytes makes a step for
    each byte. *)
Lemma rangeFrom_length_ascii (s : string) :
  ∀ fuel i, (String.length s ≤ fuel)%nat → strings.isASCII s = true →
            length (utf8.rangeFrom fuel i s) = String.length s.
Proof.
  unfold strings.isASCII.
  induction s as [|c t IH]; intros fuel i Hfuel Ha; [by destruct fuel |].
  destruct fuel as [|fuel]; [simpl in Hfuel; lia |].
  simpl in Ha, Hfuel. apply andb_true_iff in Ha as [Hc Ht]. apply Z.ltb_lt in Hc.
  rewrite rangeFrom_ascii by done. simpl. f_equal. apply IH; [lia | done].
Qed.

(** A domain that [ValidateDomain] accepts is made of ASCII bytes. *)
Lemma ValidateDomain_ascii (domain : string) :
  errors.ValidateDomain domain = None → strings.isASCII domain = true.
Proof.
  rewrite ValidateDomain_firstViolation. intros H.
  destruct (Spec.firstViolation domain) eqn:Hv; [done |].
  apply firstViolation_None in Hv. unfold Spec.validDomain in Hv.
  do 9 (apply andb_true_iff in Hv as [Hv _]).
  apply andb_true_iff in Hv as [_ Hv].
  unfold strings.isASCII. apply forallb_forall. intros c Hc.
  rewrite forallb_forall in Hv. apply Z.ltb_lt. by apply allowedByte_ascii, Hv.
Qed.

Lemma Repeat_length (s : string) (n : nat) :
  String.length (strings.Repeat s n) = (n * String.length s)%nat.
Proof. induction n as [|n IH]; simpl; [done |]. rewrite length_append, IH. lia. Qed.

(** X24: The lines of the answer section are aligned: for a domain that
    [ValidateDomain] accepts, the name column is the domain followed by
    spaces up to 30 bytes, and a longer domain is not cut. *)
Theorem recordLine_aligned lib (result : dns.Result) (record : string) :
  errors.ValidateDomain (dns.Domain result) = None →
  ∃ pad,
    output.recordLine lib result record
    = (dns.Domain result +:+ pad) +:+ strings.tab +:+ "IN" +:+ strings.tab
      +:+ dns.RecordType result +:+ strings.tab
      +:+ output.formatRecordValue lib (dns.RecordType result) record +:+ strings.newline
    ∧ pad = strings.Repeat " " (String.length pad)
    ∧ String.length (dns.Domain result +:+ pad)
      = Nat.max 30 (String.length (dns.Domain result)).
Proof.
  intros Hd. apply ValidateDomain_ascii in Hd.
  exists (strings.Repeat " " (30 - utf8.RuneCountInString (dns.Domain result))).
  split; [reflexivity |].
  unfold utf8.RuneCountInString, utf8.range.
  rewrite rangeFrom_length_ascii by done.
  rewrite length_append, !Repeat_length. simpl String.length.
  rewrite Nat.mul_1_r. split; [done | lia].
Qed.

(** A line for the domain "example.com". *)
Lemma recordLine_aligned_witness :
  let result := dns.mkResult "example.com" "A" ["192.0.2.1"] "8.8.8.8:53" 2000000 None in
  output.recordLine Samples.lib result "192.0.2.1"
  = "example.com                   " +:+ strings.tab +:+ "IN" +:+ strings.tab +:+ "A"
    +:+ strings.tab +:+ "192.0.2.1" +:+ strings.newline
  ∧ ∃ pad,
      output.recordLine Samples.lib result "192.0.2.1"
      = ("example.com" +:+ pad) +:+ strings.tab +:+ "IN" +:+ strings.tab
        +:+ "A" +:+ strings.tab
        +:+ output.formatRecordValue Samples.lib "A" "192.0.2.1" +:+ strings.newline
      ∧ pad = strings.Repeat " " (String.length pad)
      ∧ String.length ("example.com" +:+ pad) = Nat.max 30 (String.length "example.com").
Proof.
  cbv zeta. split; [reflexivity |].
  apply (recordLine_aligned Samples.lib
           (dns.mkResult "example.com" "A" ["192.0.2.1"] "8.8.8.8:53" 2000000 None)).
  reflexivity.
Defined.

(** ** The record type in either case *)

Lemma upperByte_idempotent (c : ascii) :
  strings.upperByte (strings.upperByte c) = strings.upperByte c.
Proof. destruct c as [[] [] [] [] [] [] [] []]; vm_compute; reflexivity. Qed.

Lemma upperByte_ascii (c : ascii) :
  (strings.byte_val (strings.upperByte c) <? 0x80) = (strings.byte_val c <? 0x80).
Proof. destruct c as [[] [] [] [] [] [] [] []]; vm_compute; reflexivity. Qed.

(** On a string of ASCII bytes, [ToUpper] changes nothing the second time. *)
Lemma ToUpper_idempotent lib (s : string) :
  strings.isASCII s = true →
  strings.ToUpper lib (strings.ToUpper lib s) = strings.ToUpper lib s.
Proof.
  intros Ha. unfold strings.ToUpper. rewrite Ha.
  assert (strings.isASCII (strings.mapBytes strings.upperByte s) = true) as ->.
  { revert Ha. unfold strings.isASCII. induction s as [|c t IH]; simpl; [done |].
    rewrite upperByte_ascii. intros [-> Ht]%andb_true_iff. by apply IH. }
  clear Ha. induction s as [|c t IH]; simpl; [done |].
  by rewrite upperByte_idempotent, IH.
Qed.

Lemma ToUpper_empty lib (s : string) :
  strings.isASCII s = true →
  String.eqb (strings.ToUpper lib s) "" = String.eqb s "".
Proof. intros Ha. unfold strings.ToUpper. rewrite Ha. by destruct s. Qed.

(** The record type that the result starts with shows in the record type
    of the result only. *)
Lemma interpretExchange_RecordType lib d up fs (rt1 rt2 : string) t x :
  dns.interpretExchange lib d up fs (dns.mkResult d rt2 [] fs t None) x
  = let '(r, e) := dns.interpretExchange lib d up fs (dns.mkResult d rt1 [] fs t None) x in
    (dns.mkResult (dns.Domain r) rt2 (dns.Records r) (dns.Server r) (dns.QueryTime r)
       (dns.Error r), e).
Proof.
  unfold dns.interpretExchange, dns.fail, dns.setError, dns.setRecords.
  cbn [dns.Domain dns.RecordType dns.Records dns.Server dns.QueryTime dns.Error].
  destruct (dns.err x); [done |].
  destruct (dns.response x); [| done].
  destruct (negb _); [done |]. cbv zeta.
  cbn [dns.Domain dns.RecordType dns.Records dns.Server dns.QueryTime dns.Error].
  by destruct (length _ =? 0)%nat.
Qed.

(** X25: The record type is taken without regard to case: for a type of
    ASCII bytes, [Query] with the type as given and [Query] with the type in
    upper case return the same error, the same records, server and query
    time, and leave the same world; only the record type echoed in the
    result differs. *)
Theorem Query_record_type_case lib c domain recordType server w :
  strings.isASCII recordType = true →
  let '(r1, e1, w1) := dns.Query lib c domain recordType server w in
  let '(r2, e2, w2) :=
    dns.Query lib c domain (strings.ToUpper lib recordType) server w in
  e1 = e2 ∧ w1 = w2
  ∧ dns.Records r1 = dns.Records r2
  ∧ dns.Server r1 = dns.Server r2
  ∧ dns.QueryTime r1 = dns.QueryTime r2
  ∧ dns.Error r1 = dns.Error r2
  ∧ dns.RecordType r1 = recordType
  ∧ dns.RecordType r2 = strings.ToUpper lib recordType.
Proof.
  intros Ha.
  assert (errors.ValidateRecordType lib (strings.ToUpper lib recordType)
          = errors.ValidateRecordType lib recordType) as Hv.
  { unfold errors.ValidateRecordType. cbv zeta.
    by rewrite ToUpper_empty, ToUpper_idempotent. }
  unfold dns.Query. cbv zeta. rewrite Hv, ToUpper_idempotent by done.
  destruct (errors.ValidateDomain domain); [done |].
  destruct (errors.ValidateRecordType lib recordType) eqn:Ht; [done |].
  destruct (dns.prepareServer w server) as [e | fs]; [done |].
  destruct (dns.queryTypeOf (strings.ToUpper lib recordType)) as [qt |] eqn:Hq.
  2: { apply ValidateRecordType_nil, validTypes_query_type in Ht as [qt Hqt]. congruence. }
  unfold dns.Exchange, dns.setServer, dns.setQueryTime.
  cbn [dns.Domain dns.RecordType dns.Records dns.Server dns.QueryTime dns.Error dns.now].
  rewrite (interpretExchange_RecordType lib domain _ fs recordType
             (strings.ToUpper lib recordType)).
  match goal with |- context [dns.interpretExchange ?l ?d ?u ?f ?r ?x] =>
    pose proof (interpretExchange_fields l d u f r x) as Hf;
    destruct (dns.interpretExchange l d u f r x) as [r0 e0]
  end.
  simpl in Hf. destruct Hf as (_ & Hrt & _). simpl. repeat split; done.
Qed.

(** The type "mx" and the type "MX", asked of a server that answers. *)
Lemma Query_record_type_case_witness :
  let w := Samples.world
             (Samples.answered dns.RcodeSuccess [dns.RR_MX 10 "mail.example.com."]) in
  let q1 := dns.Query Samples.lib dns.NewClient "example.com" "mx" "8.8.8.8" w in
  let q2 := dns.Query Samples.lib dns.NewClient "example.com" "MX" "8.8.8.8" w in
  dns.Records q1.1.1 = ["10 mail.example.com."]
  ∧ q1.1.2 = q2.1.2 ∧ q1.2 = q2.2
  ∧ dns.Records q1.1.1 = dns.Records q2.1.1
  ∧ dns.Server q1.1.1 = dns.Server q2.1.1
  ∧ dns.QueryTime q1.1.1 = dns.QueryTime q2.1.1
  ∧ dns.Error q1.1.1 = dns.Error q2.1.1
  ∧ dns.RecordType q1.1.1 = "mx"
  ∧ dns.RecordType q2.1.1 = "MX".
Proof.
  cbv zeta. split; [reflexivity |].
  pose proof (Query_record_type_case Samples.lib dns.NewClient "example.com" "mx" "8.8.8.8"
                (Samples.world
                   (Samples.answered dns.RcodeSuccess [dns.RR_MX 10 "mail.example.com."]))
                eq_refl) as H.
  change (strings.ToUpper Samples.lib "mx") with "MX" in H.
  destruct (dns.Query Samples.lib dns.NewClient "example.com" "mx" _ _) as [[r1 e1] w1].
  destruct (dns.Query Samples.lib dns.NewClient "example.com" "MX" _ _) as [[r2 e2] w2].
  exact H.
Defined.

(** * The classifier and the server of the result *)

(** ** Classification of transport failures *)

Lemma byte_of_val (c : ascii) : strings.byte_of (strings.byte_val c) = c.
Proof.
  unfold strings.byte_of, strings.byte_val. rewrite N2Z.id. apply ascii_N_embedding.
Qed.

Lemma byte_val_of (z : Z) : 0 ≤ z < 256 → strings.byte_val (strings.byte_of z) = z.
Proof.
  intros H. unfold strings.byte_of, strings.byte_val.
  rewrite N_ascii_embedding by lia. lia.
Qed.

Lemma lowerByte_val (a : ascii) :
  strings.byte_val (strings.lowerByte a)
  = if (65 <=? strings.byte_val a) && (strings.byte_val a <=? 90)
    then strings.byte_val a + 32 else strings.byte_val a.
Proof.
  unfold strings.lowerByte. cbv zeta. byte_consts.
  pose proof (byte_val_range a).
  destruct (_ && _) eqn:E; [| done].
  apply andb_true_iff in E as [E1 E2]. apply Z.leb_le in E1, E2.
  rewrite byte_val_of; lia.
Qed.

(** Decide the comparisons of the goal and leave the arithmetic to [lia]. *)
Ltac by_comparisons :=
  repeat match goal with
    | |- context [?x <=? ?y] => destruct (Z.leb_spec x y)
    | |- context [?x =? ?y] => destruct (Z.eqb_spec x y)
    end;
  simpl in *; intros; try reflexivity; try discriminate; try lia.

(** Against a byte that is no upper-case letter, lower-casing and then
    comparing is comparing without regard to case. *)
Lemma lowerByte_sameFold (a b : ascii) :
  (65 <=? strings.byte_val b) && (strings.byte_val b <=? 90) = false →
  Ascii.eqb (strings.lowerByte a) b = Spec.sameFold a b.
Proof.
  intros Hb. unfold Spec.sameFold, Spec.isLetter. cbv zeta.
  rewrite !ascii_eqb_byte_val, lowerByte_val. byte_consts.
  pose proof (byte_val_range a). pose proof (byte_val_range b).
  revert Hb. by_comparisons.
Qed.

(** *** A substring, told by its offsets or by its prefixes *)

Lemma occursAt_prefix (p : string) :
  ∀ s, Spec.occursAt Ascii.eqb p s 0 = String.prefix p s.
Proof.
  unfold Spec.occursAt. cbv zeta.
  induction p as [|a p IH]; intros s; [by destruct s |].
  destruct s as [|c t]; [done |].
  cbn [String.length String.substring list_ascii_of_string combine forallb String.prefix
       fst snd Nat.eqb].
  rewrite andb_assoc, (andb_comm (_ =? _)%nat), <- andb_assoc, IH.
  destruct (ascii_dec a c) as [-> | Hne].
  - by rewrite Ascii.eqb_refl.
  - apply not_eq_sym, Ascii.eqb_neq in Hne. by rewrite Hne.
Qed.

Lemma occursAt_tail same (p : string) (c : ascii) (t : string) (k : nat) :
  Spec.occursAt same p (String c t) (S k) = Spec.occursAt same p t k.
Proof. reflexivity. Qed.

Lemma existsb_seq_S (f : nat → bool) (n : nat) :
  existsb f (seq 0 (S n)) = f 0%nat || existsb (λ k, f (S k)) (seq 0 n).
Proof.
  cbn [seq existsb]. f_equal. rewrite <- seq_shift.
  generalize (seq 0 n). intros l. induction l as [|x l IH]; simpl; [done | by rewrite IH].
Qed.

Lemma existsb_eq {A} (f g : A → bool) (l : list A) :
  (∀ x, f x = g x) → existsb f l = existsb g l.
Proof. intros H. induction l as [|x l IH]; simpl; [done | by rewrite H, IH]. Qed.

(** [strings.Contains] finds the substrings. *)
Lemma occurs_Contains (p s : string) : Spec.occurs p s = strings.Contains s p.
Proof.
  unfold Spec.occurs. induction s as [|c t IH].
  - cbn [String.length seq existsb strings.Contains]. by rewrite occursAt_prefix.
  - cbn [String.length strings.Contains]. rewrite existsb_seq_S, occursAt_prefix. f_equal.
    rewrite <- IH. by apply existsb_eq.
Qed.

(** *** Texts of ASCII bytes *)

Lemma substring_mapBytes (f : ascii → ascii) (s : string) :
  ∀ k n, String.substring k n (strings.mapBytes f s)
         = strings.mapBytes f (String.substring k n s).
Proof.
  induction s as [|c t IH]; intros k n; [by destruct k, n |].
  destruct k as [|k]; simpl.
  - destruct n as [|n]; [done |]. simpl. by rewrite IH.
  - apply IH.
Qed.

Lemma length_mapBytes (f : ascii → ascii) (s : string) :
  String.length (strings.mapBytes f s) = String.length s.
Proof. induction s as [|c t IH]; simpl; [done | by rewrite IH]. Qed.

Lemma forallb_lowered (piece : string) :
  ∀ p, Spec.noUpper p = true →
    forallb (λ ab : ascii * ascii, Ascii.eqb ab.1 ab.2)
      (combine (list_ascii_of_string (strings.mapBytes strings.lowerByte piece))
         (list_ascii_of_string p))
    = forallb (λ ab : ascii * ascii, Spec.sameFold ab.1 ab.2)
        (combine (list_ascii_of_string piece) (list_ascii_of_string p)).
Proof.
  induction piece as [|a piece IH]; intros p Hp; [done |].
  destruct p as [|b p]; [done |].
  unfold Spec.noUpper in Hp. cbn [list_ascii_of_string forallb] in Hp.
  apply andb_true_iff in Hp as [Hb Hp]. apply negb_true_iff in Hb. byte_consts.
  cbn [strings.mapBytes list_ascii_of_string combine forallb fst snd].
  by rewrite lowerByte_sameFold, IH.
Qed.

Lemma occursAt_lowered (p s : string) (k : nat) :
  Spec.noUpper p = true →
  Spec.occursAt Ascii.eqb p (strings.mapBytes strings.lowerByte s) k
  = Spec.occursAt Spec.sameFold p s k.
Proof.
  intros Hp. unfold Spec.occursAt. cbv zeta.
  by rewrite substring_mapBytes, length_mapBytes, forallb_lowered.
Qed.

(** In the byte-wise lower-casing of a text, a pattern without upper-case
    letters occurs exactly when it occurs in the text, whatever the case. *)
Lemma occurs_lowered (p s : string) :
  Spec.noUpper p = true →
  Spec.occurs p (strings.mapBytes strings.lowerByte s) = Spec.occursFold p s.
Proof.
  intros Hp. unfold Spec.occurs, Spec.occursFold. rewrite length_mapBytes.
  apply existsb_eq. intros k. by apply occursAt_lowered.
Qed.

(** *** Texts with bytes outside ASCII: the runes realign at an ASCII byte *)

(** The bytes of a rune after its first are all outside ASCII. *)
Lemma Decode_width (b : ascii) (rest : string) :
  let '(_, size) := utf8.DecodeRuneInString (String b rest) in
  (1 ≤ size)%nat
  ∧ ∀ j, (1 ≤ j < size)%nat → 0x80 ≤ strings.at_ (String b rest) j.
Proof.
  unfold utf8.DecodeRuneInString. cbv zeta.
  set (s := String b rest). set (n := String.length s).
  assert ((n <? 1)%nat = false) as -> by reflexivity.
  set (sz := if strings.at_ s 0 <? 224 then 2%nat
             else if strings.at_ s 0 <? 240 then 3%nat else 4%nat).
  set (lo := if strings.at_ s 0 =? 224 then 160
             else if strings.at_ s 0 =? 240 then 144 else 128).
  assert (128 ≤ lo) as Hlo by (unfold lo; repeat (destruct (_ =? _)); lia).
  clearbody sz lo.
  destruct (strings.at_ s 0 <? 128); [split; [lia | intros; lia] |].
  destruct (_ || _); [split; [lia | intros; lia] |].
  destruct (n <? sz)%nat; [split; [lia | intros; lia] |].
  destruct ((strings.at_ s 1 <? lo) || _) eqn:E1; [split; [lia | intros; lia] |].
  apply orb_false_iff in E1 as [E1 _]. apply Z.ltb_ge in E1.
  destruct (sz <=? 2)%nat.
  { split; [lia |]. intros j Hj. replace j with 1%nat by lia. lia. }
  destruct ((strings.at_ s 2 <? 128) || _) eqn:E2; [split; [lia | intros; lia] |].
  apply orb_false_iff in E2 as [E2 _]. apply Z.ltb_ge in E2.
  destruct (sz <=? 3)%nat.
  { split; [lia |]. intros j Hj.
    assert (j = 1 ∨ j = 2)%nat as [-> | ->] by lia; lia. }
  destruct ((strings.at_ s 3 <? 128) || _) eqn:E3; [split; [lia | intros; lia] |].
  apply orb_false_iff in E3 as [E3 _]. apply Z.ltb_ge in E3.
  split; [lia |]. intros j Hj.
  assert (j = 1 ∨ j = 2 ∨ j = 3)%nat as [-> | [-> | ->]] by lia; lia.
Qed.

Lemma at_app_r (pre : string) (c : ascii) (t : string) :
  strings.at_ (pre +:+ String c t) (String.length pre) = strings.byte_val c.
Proof.
  unfold strings.at_. induction pre as [|x pre IH]; [done |].
  change (String x pre +:+ String c t) with (String x (pre +:+ String c t)). exact IH.
Qed.

Lemma drop_bytes_app (n : nat) :
  ∀ a b, (n ≤ String.length a)%nat →
         strings.drop_bytes n (a +:+ b) = strings.drop_bytes n a +:+ b.
Proof.
  induction n as [|n IH]; intros a b Hn; [done |].
  destruct a as [|x a]; [simpl in Hn; lia |].
  change (String x a +:+ b) with (String x (a +:+ b)). simpl. apply IH. simpl in Hn. lia.
Qed.

Lemma drop_bytes_length (n : nat) :
  ∀ s, (String.length (strings.drop_bytes n s) ≤ String.length s)%nat.
Proof.
  induction n as [|n IH]; intros s; [done |].
  destruct s as [|x s]; [done |]. simpl. specialize (IH s). lia.
Qed.

(** However a text starts, the loop over its runes comes to stand at an
    ASCII byte: no rune before swallows it. *)
Lemma rangeFrom_realign (c : ascii) (t : string) (n : nat) :
  strings.byte_val c < 0x80 →
  ∀ pre fuel i,
    (String.length pre ≤ n)%nat →
    (String.length (pre +:+ String c t) ≤ fuel)%nat →
    ∃ l fuel' i',
      utf8.rangeFrom fuel i (pre +:+ String c t) = l ++ utf8.rangeFrom fuel' i' (String c t)
      ∧ (String.length (String c t) ≤ fuel')%nat.
Proof.
  intros Hc. induction n as [|n IH]; intros pre fuel i Hn Hfuel.
  { destruct pre; [| simpl in Hn; lia]. exists [], fuel, i. done. }
  destruct pre as [|b pre]; [exists [], fuel, i; done |].
  change (String b pre +:+ String c t) with (String b (pre +:+ String c t)) in *.
  destruct fuel as [|fuel]; [simpl in Hfuel; lia |].
  cbn [utf8.rangeFrom].
  pose proof (Decode_width b (pre +:+ String c t)) as Hw.
  destruct (utf8.DecodeRuneInString (String b (pre +:+ String c t))) as [r size].
  destruct Hw as [Hsize Hcont].
  assert (size - 1 ≤ String.length pre)%nat as Hin.
  { destruct (Nat.le_gt_cases (size - 1) (String.length pre)) as [| Hgt]; [done |].
    specialize (Hcont (S (String.length pre)) ltac:(lia)).
    change (strings.at_ (String b (pre +:+ String c t)) (S (String.length pre)))
      with (strings.at_ (pre +:+ String c t) (String.length pre)) in Hcont.
    rewrite at_app_r in Hcont. lia. }
  destruct size as [|size]; [lia |].
  cbn [strings.drop_bytes]. replace (S size - 1)%nat with size in Hin by lia.
  rewrite drop_bytes_app by done.
  simpl in Hn, Hfuel.
  pose proof (drop_bytes_length size pre) as Hlen.
  destruct (IH (strings.drop_bytes size pre) fuel (i + S size)%nat) as (l & fuel' & i' & Heq & Hf).
  { lia. }
  { rewrite length_append in *. simpl in *.
    assert (String.length ((strings.drop_bytes size pre) +:+ String c t)
            ≤ String.length (pre +:+ String c t))%nat; [| lia].
    rewrite !length_append. lia. }
  exists ((i, r) :: l), fuel', i'. by rewrite Heq.
Qed.

Lemma concat_cons (x : string) (l : list string) :
  String.concat "" (x :: l) = x +:+ String.concat "" l.
Proof. destruct l; simpl; [by rewrite append_empty_r | done]. Qed.

Lemma concat_app (l1 l2 : list string) :
  String.concat "" (l1 ++ l2) = String.concat "" l1 +:+ String.concat "" l2.
Proof.
  induction l1 as [|x l1 IH]; [done |].
  change ((x :: l1) ++ l2) with (x :: (l1 ++ l2)).
  by rewrite !concat_cons, IH, append_assoc.
Qed.

(** What [strings.Map(unicode.ToLower, _)] makes of the runes. *)
Lemma Map_lowerPiece table s :
  unicode.Map (unicode.ToLower table) s
  = String.concat "" (map (Reference.lowerPiece table) (utf8.range s)).
Proof. reflexivity. Qed.

(** An ASCII byte is a rune that is mapped to its lower case. *)
Lemma lowered_ascii table (i : nat) (a : ascii) :
  strings.byte_val a < 0x80 →
  Reference.lowerPiece table (i, strings.byte_val a) = String (strings.lowerByte a) "".
Proof.
  intros Ha. unfold Reference.lowerPiece. cbn [snd]. cbv zeta. pose proof (byte_val_range a) as Hr.
  assert (unicode.ToLower table (strings.byte_val a)
          = strings.byte_val (strings.lowerByte a)) as ->.
  { rewrite lowerByte_val. unfold unicode.ToLower, unicode.MaxASCII. byte_consts.
    replace (strings.byte_val a <=? 127) with true by (symmetry; apply Z.leb_le; lia).
    done. }
  pose proof (byte_val_range (strings.lowerByte a)) as Hr'.
  assert (strings.byte_val (strings.lowerByte a) ≤ 0x7F) as Hl.
  { rewrite lowerByte_val. destruct (_ && _) eqn:E; [| lia].
    apply andb_true_iff in E as [_ E]. apply Z.leb_le in E. lia. }
  unfold utf8.EncodeRune. cbv zeta.
  replace (0 <=? strings.byte_val (strings.lowerByte a)) with true
    by (symmetry; apply Z.leb_le; lia).
  replace (strings.byte_val (strings.lowerByte a) <=? 127) with true
    by (symmetry; apply Z.leb_le; lia).
  simpl. by rewrite byte_of_val.
Qed.

(** A run of ASCII bytes is lower-cased byte by byte. *)
Lemma lowered_run table (mid : string) :
  ∀ suf fuel i,
    strings.isASCII mid = true →
    (String.length (mid +:+ suf) ≤ fuel)%nat →
    ∃ fuel' i',
      String.concat "" (map (Reference.lowerPiece table) (utf8.rangeFrom fuel i (mid +:+ suf)))
      = strings.mapBytes strings.lowerByte mid
        +:+ String.concat "" (map (Reference.lowerPiece table) (utf8.rangeFrom fuel' i' suf)).
Proof.
  unfold strings.isASCII.
  induction mid as [|a mid IH]; intros suf fuel i Ha Hfuel; [by exists fuel, i |].
  change (String a mid +:+ suf) with (String a (mid +:+ suf)) in *.
  cbn [list_ascii_of_string forallb] in Ha. apply andb_true_iff in Ha as [Ha Hmid].
  apply Z.ltb_lt in Ha.
  destruct fuel as [|fuel]; [simpl in Hfuel; lia |].
  rewrite rangeFrom_ascii by done.
  destruct (IH suf fuel (i + 1)%nat Hmid ltac:(simpl in Hfuel; lia)) as (fuel' & i' & Heq).
  exists fuel', i'.
  cbn [map]. rewrite concat_cons, (lowered_ascii table i a Ha), Heq.
  reflexivity.
Qed.

(** [strings.Map(unicode.ToLower, _)] lower-cases every run of ASCII bytes
    of a text, whatever stands around it. *)
Lemma Map_lower_run table (pre mid suf : string) :
  strings.isASCII mid = true →
  ∃ X Y, unicode.Map (unicode.ToLower table) (pre +:+ mid +:+ suf)
         = X +:+ strings.mapBytes strings.lowerByte mid +:+ Y.
Proof.
  intros Ha. destruct mid as [|c mid].
  { exists (unicode.Map (unicode.ToLower table) (pre +:+ "" +:+ suf)), "".
    simpl. by rewrite append_empty_r. }
  assert (strings.byte_val c < 0x80) as Hc.
  { unfold strings.isASCII in Ha. cbn [list_ascii_of_string forallb] in Ha.
    apply andb_true_iff in Ha as [Ha _]. by apply Z.ltb_lt in Ha. }
  rewrite Map_lowerPiece. unfold utf8.range.
  change (String c mid +:+ suf) with (String c (mid +:+ suf)).
  destruct (rangeFrom_realign c (mid +:+ suf) (String.length pre) Hc pre
              (String.length (pre +:+ String c (mid +:+ suf))) 0%nat (le_n _) (le_n _))
    as (l & fuel' & i' & -> & Hf).
  rewrite map_app, concat_app.
  change (String c (mid +:+ suf)) with (String c mid +:+ suf) in *.
  destruct (lowered_run table (String c mid) suf fuel' i' Ha Hf) as (fuel2 & i2 & ->).
  eauto.
Qed.

Lemma substring_drop (n : nat) :
  ∀ s, s = String.substring 0 n s +:+ strings.drop_bytes n s.
Proof.
  induction n as [|n IH]; intros [|c t]; try done.
  cbn [String.substring strings.drop_bytes].
  change (String c ?a +:+ ?b) with (String c (a +:+ b)). by rewrite <- IH.
Qed.

(** Where a pattern stands in a text, the text is cut in three. *)
Lemma occursAt_split same (p : string) (k : nat) :
  ∀ s, Spec.occursAt same p s k = true →
    ∃ pre piece suf,
      s = pre +:+ piece +:+ suf
      ∧ String.length piece = String.length p
      ∧ forallb (λ ab : ascii * ascii, same ab.1 ab.2)
          (combine (list_ascii_of_string piece) (list_ascii_of_string p)) = true.
Proof.
  induction k as [|k IH]; intros s H.
  - unfold Spec.occursAt in H. cbv zeta in H. apply andb_true_iff in H as [Hl Hf].
    apply Nat.eqb_eq in Hl.
    exists "", (String.substring 0 (String.length p) s),
      (strings.drop_bytes (String.length p) s).
    split; [apply substring_drop | done].
  - destruct s as [|c t].
    + unfold Spec.occursAt in H. cbv zeta in H. apply andb_true_iff in H as [Hl Hf].
      apply Nat.eqb_eq in Hl. exists "", "", "".
      destruct p; [done | by destruct (String.length (String a p))].
    + rewrite occursAt_tail in H. destruct (IH t H) as (pre & piece & suf & -> & Hl & Hf).
      by exists (String c pre), piece, suf.
Qed.

(** A piece that matches a pattern of ASCII bytes without upper-case
    letters up to the case of letters is made of ASCII bytes, and the
    pattern is its lower case. *)
Lemma sameFold_lower (a b : ascii) :
  Spec.sameFold a b = true →
  (65 <=? strings.byte_val b) && (strings.byte_val b <=? 90) = false →
  strings.byte_val b < 0x80 →
  strings.byte_val a < 0x80 ∧ strings.lowerByte a = b.
Proof.
  intros Hs Hu Hb. split.
  - unfold Spec.sameFold, Spec.isLetter in Hs. cbv zeta in Hs. byte_consts.
    apply orb_true_iff in Hs as [Hs | Hs].
    + apply Ascii.eqb_eq in Hs. by subst.
    + apply andb_true_iff in Hs as [Hs _]. apply andb_true_iff in Hs as [Hs _].
      apply orb_true_iff in Hs as [Hs | Hs]; apply andb_true_iff in Hs as [_ Hs];
        apply Z.leb_le in Hs; lia.
  - apply Ascii.eqb_eq. by rewrite lowerByte_sameFold.
Qed.

Lemma folded_piece (piece : string) :
  ∀ p, String.length piece = String.length p →
    forallb (λ ab : ascii * ascii, Spec.sameFold ab.1 ab.2)
      (combine (list_ascii_of_string piece) (list_ascii_of_string p)) = true →
    Spec.noUpper p = true → strings.isASCII p = true →
    strings.isASCII piece = true ∧ strings.mapBytes strings.lowerByte piece = p.
Proof.
  unfold Spec.noUpper, strings.isASCII.
  induction piece as [|a piece IH]; intros [|b p] Hl Hf Hu Ha; try done.
  cbn [list_ascii_of_string combine forallb fst snd strings.mapBytes] in *.
  apply andb_true_iff in Hf as [Hab Hf]. apply andb_true_iff in Hu as [Hb Hu].
  apply andb_true_iff in Ha as [Hb7 Ha]. apply negb_true_iff in Hb.
  apply Z.ltb_lt in Hb7. byte_consts.
  destruct (sameFold_lower a b Hab Hb Hb7) as [Ha7 ->].
  destruct (IH p ltac:(simpl in Hl; lia) Hf Hu Ha) as [-> ->].
  split; [| done]. rewrite andb_true_r. by apply Z.ltb_lt.
Qed.

(** A pattern that stands in a text up to the case of ASCII letters stands
    in the text mapped by [strings.Map(unicode.ToLower, _)], whatever
    other runes the text has. *)
Lemma occursFold_Map table (p s : string) :
  Spec.noUpper p = true → strings.isASCII p = true →
  Spec.occursFold p s = true →
  Spec.occurs p (unicode.Map (unicode.ToLower table) s) = true.
Proof.
  intros Hu Ha H. unfold Spec.occursFold in H.
  apply existsb_exists in H as (k & _ & Hk).
  destruct (occursAt_split _ p k s Hk) as (pre & piece & suf & -> & Hl & Hf).
  destruct (folded_piece piece p Hl Hf Hu Ha) as [Hpiece Hp].
  destruct (Map_lower_run table pre piece suf Hpiece) as (X & Y & ->).
  rewrite Hp, occurs_Contains.
  apply Contains_app_r, Contains_app_l, Contains_prefix, prefix_refl.
Qed.

(** The same for [strings.ToLower] of a library that lower-cases rune by
    rune; on an ASCII text the library is not asked. *)
Lemma occursFold_ToLower lib (p s : string) :
  Spec.noUpper p = true → strings.isASCII p = true →
  strings.isASCII s = true ∨ (∃ table, Reference.LowerByRunes lib table) →
  Spec.occursFold p s = true →
  Spec.occurs p (strings.ToLower lib s) = true.
Proof.
  intros Hu Ha Hs H. unfold strings.ToLower.
  destruct (strings.isASCII s) eqn:E; [by rewrite occurs_lowered |].
  destruct Hs as [Hs | [table Hs]]; [done |]. rewrite Hs. by apply occursFold_Map.
Qed.

Lemma patterns_lower_ascii (p : string) :
  p ∈ Spec.patterns → Spec.noUpper p = true ∧ strings.isASCII p = true.
Proof.
  unfold Spec.patterns, Spec.rules. cbn [map fst concat app].
  rewrite !elem_of_cons, elem_of_nil.
  intros H. repeat (destruct H as [-> | H]; [by vm_compute |]). done.
Qed.

Lemma Samples_lib_lowers_by_runes : Reference.LowerByRunes Samples.lib (λ r, r).
Proof. by intros s. Qed.

(** The message is the one of the first rule of which a pattern stands in
    the lower-cased text. *)
Lemma ClassifyNetworkError_message lib e server :
  ∃ de, errors.ClassifyNetworkError lib (Some e) server = Some de
    ∧ errors.ErrType de = errors.ErrorTypeNetwork
    ∧ errors.Cause de = Some e
    ∧ errors.Server de = server
    ∧ errors.Message de
      = Spec.classify (λ p, Spec.occurs p (strings.ToLower lib (errors.Error e))).
Proof.
  unfold errors.ClassifyNetworkError, Spec.classify, Spec.rules, Spec.genericMessage.
  cbv zeta. cbn [find existsb fst snd]. rewrite !occurs_Contains, !orb_false_r.
  repeat (match goal with
          | |- context [if ?b then _ else _] => destruct b
          end; [by eexists |]).
  by eexists.
Qed.

(** *** The lower-cased text, rune by rune *)

Lemma lor_bounds (x y : Z) : 0 ≤ x → 0 ≤ y → x ≤ Z.lor x y ≤ x + y.
Proof.
  intros Hx Hy. split; [by apply lor_lower_bound |].
  pose proof (Z.add_lor_land x y). assert (0 ≤ Z.land x y) by (apply Z.land_nonneg; lia). lia.
Qed.

Lemma lead_byte (tag v : Z) :
  0x80 ≤ tag → 0 ≤ v → tag + v < 256 →
  0x80 ≤ strings.byte_val (strings.byte_of (Z.lor tag v)).
Proof.
  intros Ht Hv Hsum. pose proof (lor_bounds tag v ltac:(lia) Hv).
  rewrite byte_val_of; lia.
Qed.

Lemma cont_byte (v : Z) :
  0x80 ≤ strings.byte_val (strings.byte_of (Z.lor 0x80 (Z.land v 0x3F))).
Proof.
  change 0x3F with (Z.ones 6). pose proof (land_mask_bounds v 6 ltac:(lia)).
  apply lead_byte; lia.
Qed.

(** A rune of ASCII is written as its byte; any other as bytes outside
    ASCII, at least one. *)
Lemma EncodeRune_ascii (r : Z) :
  0 ≤ r < 0x80 → utf8.EncodeRune r = String (strings.byte_of r) "".
Proof.
  intros Hr. unfold utf8.EncodeRune. cbv zeta.
  replace (0 <=? r) with true by (symmetry; apply Z.leb_le; lia).
  by replace (r <=? 127) with true by (symmetry; apply Z.leb_le; lia).
Qed.

Lemma EncodeRune_beyond (r : Z) :
  0x80 ≤ r → ∃ x X, utf8.EncodeRune r = String x X ∧ Reference.beyondASCII (String x X).
Proof.
  intros Hr. unfold utf8.EncodeRune, Reference.beyondASCII. cbv zeta.
  replace (0 <=? r) with true by (symmetry; apply Z.leb_le; lia).
  replace (r <=? 127) with false by (symmetry; apply Z.leb_gt; lia).
  cbn [andb].
  destruct (Z.leb_spec r 0x7FF) as [H2 | H2].
  { eexists _, _. split; [reflexivity |]. cbn [list_ascii_of_string].
    repeat constructor; [| apply cont_byte].
    rewrite Z.shiftr_div_pow2 by lia. change (2 ^ 6) with 64.
    apply lead_byte; try (Z.div_mod_to_equations; lia). }
  destruct ((r <? 0) || (utf8.MaxRune <? r) || ((0xD800 <=? r) && (r <=? 0xDFFF))) eqn:Hbad.
  { eexists _, _. split; [reflexivity |]. cbn [list_ascii_of_string].
    repeat constructor; by vm_compute. }
  apply orb_false_iff in Hbad as [Hbad _]. apply orb_false_iff in Hbad as [_ Hmax].
  apply Z.ltb_ge in Hmax. unfold utf8.MaxRune in Hmax.
  destruct (Z.leb_spec r 0xFFFF) as [H3 | H3].
  { eexists _, _. split; [reflexivity |]. cbn [list_ascii_of_string].
    repeat constructor; try apply cont_byte.
    rewrite Z.shiftr_div_pow2 by lia. change (2 ^ 12) with 4096.
    apply lead_byte; try (Z.div_mod_to_equations; lia). }
  eexists _, _. split; [reflexivity |]. cbn [list_ascii_of_string].
  repeat constructor; try apply cont_byte.
  rewrite Z.shiftr_div_pow2 by lia. change (2 ^ 18) with 262144.
  apply lead_byte; try (Z.div_mod_to_equations; lia).
Qed.

Lemma encodeAll_cons (r : Z) (l : list Z) :
  Reference.encodeAll (r :: l) = utf8.EncodeRune r +:+ Reference.encodeAll l.
Proof. apply concat_cons. Qed.

Lemma encodeAll_app (l1 l2 : list Z) : Reference.encodeAll (l1 ++ l2) = Reference.encodeAll l1 +:+ Reference.encodeAll l2.
Proof. unfold Reference.encodeAll. by rewrite map_app, concat_app. Qed.

(** [strings.Map(unicode.ToLower, s)] is made of the bytes of the runes of
    [s] in lower case. *)
Lemma Map_lowerRunes table (s : string) :
  unicode.Map (unicode.ToLower table) s = Reference.encodeAll (Spec.lowerRunes table s).
Proof.
  rewrite Map_lowerPiece. unfold Spec.lowerRunes. generalize (utf8.range s). intros l.
  induction l as [|ir l IH]; [done |].
  cbn [map List.filter]. rewrite concat_cons, IH. unfold Reference.lowerPiece at 1. cbv zeta.
  destruct (0 <=? unicode.ToLower table ir.2); [by rewrite encodeAll_cons | done].
Qed.

(** The bytes of a pattern of ASCII bytes, read as runes, are written as
    the pattern. *)
Lemma encodeAll_pattern (p : string) :
  strings.isASCII p = true →
  Reference.encodeAll (map strings.byte_val (list_ascii_of_string p)) = p.
Proof.
  unfold strings.isASCII. induction p as [|c p IH]; [done |].
  cbn [list_ascii_of_string forallb map]. intros [Hc Hp]%andb_true_iff.
  apply Z.ltb_lt in Hc. pose proof (byte_val_range c).
  rewrite encodeAll_cons, EncodeRune_ascii, byte_of_val, IH by (done || lia). done.
Qed.

Lemma app_eq_empty (a b : string) : a +:+ b = "" → a = "" ∧ b = "".
Proof. destruct a; [done | discriminate]. Qed.

(** Bytes that start with the pattern are those of runes that start with
    the runes of the pattern. *)
Lemma encodeAll_starts (p : string) :
  strings.isASCII p = true →
  ∀ l b, Forall (λ r, 0 ≤ r) l → Reference.encodeAll l = p +:+ b →
    ∃ l', l = map strings.byte_val (list_ascii_of_string p) ++ l' ∧ Reference.encodeAll l' = b.
Proof.
  unfold strings.isASCII. induction p as [|c p IH]; intros Hp l b Hl Heq; [by exists l |].
  cbn [list_ascii_of_string forallb] in Hp. apply andb_true_iff in Hp as [Hc Hp].
  apply Z.ltb_lt in Hc.
  destruct l as [|r l]; [discriminate Heq |].
  apply Forall_cons in Hl as [Hr Hl]. rewrite encodeAll_cons in Heq.
  destruct (Z.lt_ge_cases r 0x80) as [Hlow | Hhigh].
  - rewrite EncodeRune_ascii in Heq by lia. injection Heq as Hrc Heq.
    destruct (IH Hp l b Hl Heq) as (l' & -> & Hb). exists l'. split; [| exact Hb].
    cbn [list_ascii_of_string map app]. f_equal. subst c. rewrite byte_val_of; lia.
  - destruct (EncodeRune_beyond r Hhigh) as (x & X & Hx & Hbeyond).
    rewrite Hx in Heq. injection Heq as -> _.
    unfold Reference.beyondASCII in Hbeyond. cbn [list_ascii_of_string] in Hbeyond.
    apply Forall_cons in Hbeyond as [Hbad _]. lia.
Qed.

(** Bytes outside ASCII stand before any occurrence of a pattern that
    begins with an ASCII byte. *)
Lemma beyond_skipped (X : string) :
  Reference.beyondASCII X →
  ∀ rest a c q, strings.byte_val c < 0x80 →
    X +:+ rest = a +:+ String c q →
    ∃ a', a = X +:+ a' ∧ rest = a' +:+ String c q.
Proof.
  unfold Reference.beyondASCII. induction X as [|x X IH]; intros HX rest a c q Hc Heq; [by exists a |].
  cbn [list_ascii_of_string] in HX. apply Forall_cons in HX as [Hx HX].
  destruct a as [|y a].
  { injection Heq as -> _. lia. }
  injection Heq as -> Heq.
  destruct (IH HX rest a c q Hc Heq) as (a' & -> & Hrest). by exists a'.
Qed.

(** A pattern of ASCII bytes stands in the bytes of a list of runes where
    its runes stand in the list. *)
Lemma encodeAll_infix (p : string) :
  strings.isASCII p = true →
  ∀ l, Forall (λ r, 0 ≤ r) l →
    (∃ a b, Reference.encodeAll l = a +:+ p +:+ b)
    ↔ (∃ l1 l2, l = l1 ++ map strings.byte_val (list_ascii_of_string p) ++ l2).
Proof.
  intros Hp l Hl. split.
  - destruct p as [|c q].
    { intros _. by exists [], l. }
    assert (strings.byte_val c < 0x80) as Hc.
    { unfold strings.isASCII in Hp. cbn [list_ascii_of_string forallb] in Hp.
      apply andb_true_iff in Hp as [Hc _]. by apply Z.ltb_lt in Hc. }
    induction l as [|r l IH]; intros (a & b & Heq).
    { symmetry in Heq. apply app_eq_empty in Heq as [_ Heq]. discriminate Heq. }
    apply Forall_cons in Hl as [Hr Hl].
    destruct a as [|y a].
    { destruct (encodeAll_starts _ Hp (r :: l) b ltac:(by constructor) Heq) as (l' & -> & _).
      by exists [], l'. }
    assert (∃ a', Reference.encodeAll l = a' +:+ String c q +:+ b) as Htail.
    { rewrite encodeAll_cons in Heq.
      destruct (Z.lt_ge_cases r 0x80) as [Hlow | Hhigh].
      - rewrite EncodeRune_ascii in Heq by lia. injection Heq as _ Heq. by exists a.
      - destruct (EncodeRune_beyond r Hhigh) as (x & X & Hx & Hbeyond).
        rewrite Hx in Heq.
        change (String c q +:+ b) with (String c (q +:+ b)) in Heq.
        destruct (beyond_skipped _ Hbeyond _ _ _ _ Hc Heq) as (a' & _ & Hrest).
        by exists a'. }
    destruct Htail as [a' Htail].
    destruct (IH Hl (ex_intro _ a' (ex_intro _ b Htail))) as (l1 & l2 & ->).
    by exists (r :: l1), l2.
  - intros (l1 & l2 & ->). exists (Reference.encodeAll l1), (Reference.encodeAll l2).
    by rewrite !encodeAll_app, encodeAll_pattern.
Qed.

(** A substring is what stands between two other strings. *)
Lemma occurs_infix (p s : string) :
  Spec.occurs p s = true ↔ ∃ a b, s = a +:+ p +:+ b.
Proof.
  split.
  - unfold Spec.occurs. intros (k & _ & Hk)%existsb_exists.
    destruct (occursAt_split _ p k s Hk) as (a & piece & b & -> & Hl & Hf).
    exists a, b. do 2 f_equal.
    clear Hk. revert p Hl Hf. induction piece as [|x piece IH]; intros [|y p] Hl Hf; try done.
    cbn [list_ascii_of_string combine forallb fst snd] in Hf.
    apply andb_true_iff in Hf as [Hxy Hf]. apply Ascii.eqb_eq in Hxy as ->.
    f_equal. apply IH; [simpl in Hl; lia | done].
  - intros (a & b & ->). rewrite occurs_Contains.
    apply Contains_app_r, Contains_app_l, Contains_prefix, prefix_refl.
Qed.

(** The same for a list of runes. *)
Lemma runes_infix (pattern runes : list Z) :
  existsb (λ k, bool_decide (take (length pattern) (drop k runes) = pattern))
    (seq 0 (S (length runes))) = true
  ↔ ∃ l1 l2, runes = l1 ++ pattern ++ l2.
Proof.
  rewrite existsb_exists. split.
  - intros (k & _ & Hk). apply bool_decide_eq_true in Hk.
    exists (take k runes), (drop (length pattern) (drop k runes)).
    rewrite <- (take_drop k runes) at 1. f_equal.
    rewrite <- (take_drop (length pattern) (drop k runes)) at 1. by rewrite Hk.
  - intros (l1 & l2 & ->). exists (length l1). split.
    + apply in_seq. rewrite length_app. lia.
    + apply bool_decide_eq_true. by rewrite drop_app_length, take_app_length.
Qed.

(** In the text that [strings.Map(unicode.ToLower, _)] gives, a pattern of
    ASCII bytes is a substring exactly where its bytes are the runes of the
    text in lower case. *)
Lemma occurs_Map_runes table (p s : string) :
  strings.isASCII p = true →
  Spec.occurs p (unicode.Map (unicode.ToLower table) s) = Spec.occursRunes table p s.
Proof.
  intros Hp. apply eq_true_iff_eq. unfold Spec.occursRunes. cbv zeta.
  rewrite occurs_infix, runes_infix, Map_lowerRunes.
  apply encodeAll_infix; [done |].
  unfold Spec.lowerRunes. apply List.Forall_forall. intros r Hr.
  apply filter_In in Hr as [_ Hr]. by apply Z.leb_le.
Qed.

(** On a text of ASCII bytes the two paths of [strings.ToLower] agree. *)
Lemma Map_lower_ascii table (s : string) :
  strings.isASCII s = true →
  unicode.Map (unicode.ToLower table) s = strings.mapBytes strings.lowerByte s.
Proof.
  intros Hs. rewrite Map_lowerPiece. unfold utf8.range.
  destruct (lowered_run table s "" (String.length s) 0%nat Hs) as (fuel' & i' & Heq).
  { by rewrite append_empty_r. }
  rewrite append_empty_r in Heq. rewrite Heq.
  by destruct fuel'; rewrite append_empty_r.
Qed.

Lemma ToLower_by_runes lib table (s : string) :
  Reference.LowerByRunes lib table →
  strings.ToLower lib s = unicode.Map (unicode.ToLower table) s.
Proof.
  intros Hlib. unfold strings.ToLower.
  destruct (strings.isASCII s) eqn:Hs; [by rewrite Map_lower_ascii | apply Hlib].
Qed.

Lemma classify_ext (found1 found2 : string → bool) :
  (∀ p, p ∈ Spec.patterns → found1 p = found2 p) →
  Spec.classify found1 = Spec.classify found2.
Proof.
  intros H. unfold Spec.classify, Spec.rules. cbn [find existsb fst snd].
  rewrite !(H "timeout"), !(H "deadline exceeded"), !(H "connection refused"),
    !(H "no such host"), !(H "network unreachable"), !(H "permission denied");
    try reflexivity; repeat constructor.
Qed.

(** C8: [ClassifyNetworkError] gives nil for nil.  For an error, it gives
    an error of the type network that has the given error as cause and the
    given server as context.  Its message is the one of the first of the
    rules "timeout" or "deadline exceeded", "connection refused", "no such
    host", "network unreachable", "permission denied" of which a pattern is
    a substring of the lower-cased text of the error, and the generic
    message when there is none.  For a text of ASCII bytes that is the first
    rule of which a pattern stands in the text itself up to the case of
    letters.  For every text, with a library that lower-cases rune by rune
    as [unicode.ToLower] does, it is the first rule of which a pattern
    stands in the text when runes are compared in lower case; a pattern
    that stands in the text up to the case of ASCII letters does so,
    whatever other runes the text has: the message is then not the generic
    one, and it is the message of the timeout when the pattern is one of
    the first rule. *)
Theorem ClassifyNetworkError_cases lib server :
  errors.ClassifyNetworkError lib None server = None
  ∧ ∀ e, ∃ de,
      errors.ClassifyNetworkError lib (Some e) server = Some de
      ∧ errors.ErrType de = errors.ErrorTypeNetwork
      ∧ errors.Cause de = Some e
      ∧ errors.Server de = server
      ∧ errors.Message de
        = Spec.classify (λ p, Spec.occurs p (strings.ToLower lib (errors.Error e)))
      ∧ (strings.isASCII (errors.Error e) = true →
         errors.Message de = Spec.classify (λ p, Spec.occursFold p (errors.Error e)))
      ∧ (∀ table, Reference.LowerByRunes lib table →
           errors.Message de
           = Spec.classify (λ p, Spec.occursRunes table p (errors.Error e))
           ∧ ∀ p, p ∈ Spec.patterns → Spec.occursFold p (errors.Error e) = true →
               Spec.occursRunes table p (errors.Error e) = true
               ∧ errors.Message de ≠ Spec.genericMessage
               ∧ (p = "timeout" ∨ p = "deadline exceeded" →
                  errors.Message de
                  = "DNS server timeout - server may be unreachable or overloaded")).
Proof.
  split; [reflexivity |]. intros e.
  destruct (ClassifyNetworkError_message lib e server) as (de & Hde & Ht & Hc & Hs & Hm).
  exists de. do 5 (split; [assumption |]). split.
  - intros Ha. rewrite Hm. unfold strings.ToLower. rewrite Ha.
    unfold Spec.classify, Spec.rules. cbn [find existsb fst snd].
    by rewrite !occurs_lowered.
  - intros table Hlib.
    assert (∀ p, p ∈ Spec.patterns →
              Spec.occurs p (strings.ToLower lib (errors.Error e))
              = Spec.occursRunes table p (errors.Error e)) as Hrunes.
    { intros p Hp. rewrite (ToLower_by_runes lib table _ Hlib).
      apply occurs_Map_runes. by apply patterns_lower_ascii. }
    split; [rewrite Hm; by apply classify_ext |].
    intros p Hp Hfold.
    destruct (patterns_lower_ascii p Hp) as [Hu Ha].
    pose proof (occursFold_ToLower lib p _ Hu Ha
                  (or_intror (ex_intro _ table Hlib)) Hfold) as Hocc.
    split; [by rewrite <- Hrunes |]. rewrite Hm.
    unfold Spec.patterns, Spec.rules in Hp. cbn [map fst concat app] in Hp.
    rewrite !elem_of_cons, elem_of_nil in Hp.
    unfold Spec.classify, Spec.rules, Spec.genericMessage. cbn [find existsb fst snd].
    rewrite !orb_false_r.
    split.
    + repeat (destruct Hp as [-> | Hp];
              [rewrite Hocc; cbn [orb]; rewrite ?orb_true_r;
               repeat (match goal with
                       | |- context [if ?b then _ else _] => destruct b
                       end; [done |]); done |]).
      done.
    + intros [-> | ->]; rewrite Hocc; cbn [orb]; by rewrite ?orb_true_r.
Qed.

(** Texts that are not ASCII, with the library of the samples: the upper
    case is found beside the other runes, and a text without any of the
    patterns gets the generic message. *)
Example ClassifyNetworkError_beside_other_runes :
  errors.Message
    <$> errors.ClassifyNetworkError Samples.lib
          (Some (errors.ForeignError "dial é: CONNECTION REFUSED")) "8.8.8.8:53"
  = Some "DNS server refused connection - server may be down or not accepting queries"
  ∧ errors.Message
      <$> errors.ClassifyNetworkError Samples.lib
            (Some (errors.ForeignError "délai dépassé")) "8.8.8.8:53"
    = Some "Network error occurred while contacting DNS server".
Proof. by vm_compute. Qed.

(** The first text of the example, through the library of the samples. *)
Lemma ClassifyNetworkError_cases_witness :
  let e := errors.ForeignError "dial é: CONNECTION REFUSED" in
  Reference.LowerByRunes Samples.lib (λ r, r)
  ∧ strings.isASCII (errors.Error e) = false
  ∧ Spec.occursFold "connection refused" (errors.Error e) = true
  ∧ ∃ de, errors.ClassifyNetworkError Samples.lib (Some e) "8.8.8.8:53" = Some de
      ∧ errors.Cause de = Some e
      ∧ errors.Message de
        = Spec.classify (λ p, Spec.occursRunes (λ r, r) p (errors.Error e))
      ∧ errors.Message de ≠ Spec.genericMessage.
Proof.
  cbv zeta. split; [apply Samples_lib_lowers_by_runes |].
  split; [reflexivity |]. split; [reflexivity |].
  destruct (proj2 (ClassifyNetworkError_cases Samples.lib "8.8.8.8:53")
              (errors.ForeignError "dial é: CONNECTION REFUSED"))
    as (de & H1 & _ & H2 & _ & _ & _ & H3).
  exists de. split; [exact H1 |]. split; [exact H2 |].
  destruct (H3 (λ r, r) Samples_lib_lowers_by_runes) as [Hclass Hfound].
  split; [exact Hclass |].
  assert ("connection refused" ∈ Spec.patterns) as Hp by repeat constructor.
  destruct (Hfound "connection refused" Hp eq_refl) as (_ & Hne & _).
  exact Hne.
Defined.

(** ** [Query]: the server of the result *)

(** A server with a port is taken as it is, once its two parts pass the
    validators. *)
Lemma splitAndValidate_splits (server fs : string) :
  dns.splitAndValidate server = inr fs →
  fs = server
  ∧ ∃ host port,
      net.SplitHostPort server = inl (host, port)
      ∧ errors.ValidateDNSServer host = None
      ∧ errors.ValidateDNSPort port = None.
Proof.
  unfold dns.splitAndValidate.
  destruct (net.SplitHostPort server) as [[host port]|text]; [| done].
  destruct (errors.ValidateDNSServer host) eqn:Hh; [done |].
  destruct (errors.ValidateDNSPort port) eqn:Hp; [done |].
  intros [= <-]. split; [done |]. by exists host, port.
Qed.

(** The two ways in which a server that is given is accepted. *)
Lemma prepareServer_given (w : dns.World) (server fs : string) :
  server ≠ "" →
  dns.prepareServer w server = inr fs →
  dns.splitAndValidate server = inr fs
  ∨ (errors.ValidateDNSServer server = None
     ∧ fs = if strings.Contains server ":" then "[" +:+ server +:+ "]:53"
            else server +:+ ":53").
Proof.
  intros Hne. unfold dns.prepareServer.
  destruct (String.eqb_spec server "") as [| _]; [done |].
  destruct (_ && _); [by left |].
  destruct (negb (strings.Contains server ":") || _) eqn:Hbranch; [| by left].
  destruct (errors.ValidateDNSServer server) eqn:Hv; [done |].
  assert (∃ ip, net.ParseIP server = Some ip) as [ip Hip].
  { unfold errors.ValidateDNSServer in Hv.
    destruct (String.eqb server ""); [done |].
    destruct (net.ParseIP server); [eauto | done]. }
  rewrite Hip, bool_decide_eq_true_2, andb_true_r by done.
  intros H. right. split; [done |].
  destruct (strings.Contains server ":"); by injection H as <-.
Qed.

(** An IP literal with the port 53 added splits into the literal and 53. *)
Lemma literal_address (server : string) :
  errors.ValidateDNSServer server = None →
  net.SplitHostPort (if strings.Contains server ":" then "[" +:+ server +:+ "]:53"
                     else server +:+ ":53")
  = inl (server, "53").
Proof.
  intros Hv. unfold errors.ValidateDNSServer in Hv.
  destruct (String.eqb_spec server "") as [| Hne]; [done |].
  destruct (net.ParseIP server) as [ip |] eqn:Hip; [| done].
  apply ParseIP_bytes in Hip.
  destruct (ipBytes_no_bracket _ Hip) as [Hl Hr].
  destruct (strings.Contains server ":") eqn:Hc.
  - by apply SplitHostPort_bracketed.
  - by apply SplitHostPort_plain.
Qed.

(** The address for the empty server: from the configuration of the
    system when it lists a server, the public resolver otherwise. *)
Lemma prepareServer_of_system (w : dns.World) :
  dns.prepareServer w ""
  = inr (match dns.ClientConfigFromFile w
                 (if String.eqb (dns.GOOS w) "windows" then "" else "/etc/resolv.conf") with
         | inl (first :: _) => first +:+ ":53"
         | _ => "8.8.8.8:53"
         end).
Proof.
  unfold dns.prepareServer, dns.getSystemDNS, dns.getWindowsDNS, dns.getUnixDNS. simpl.
  destruct (String.eqb (dns.GOOS w) "windows");
    destruct (dns.ClientConfigFromFile w _) as [[|first rest]|]; reflexivity.
Qed.

(** A run of [Query] with what it leaves in the server of the result. *)
Lemma Query_server_cases lib c domain recordType server w :
  let '(result, e, w') := dns.Query lib c domain recordType server w in
  (w' = w
   ∧ errors.IsInputError e = true
   ∧ dns.Server result = server
   ∧ (errors.ValidateDomain domain = e
      ∨ errors.ValidateRecordType lib recordType = e
      ∨ ∃ e0, dns.prepareServer w server = inl e0 ∧ e = Some e0))
  ∨ (errors.ValidateDomain domain = None
     ∧ errors.ValidateRecordType lib recordType = None
     ∧ dns.prepareServer w server = inr (dns.Server result)
     ∧ ∃ msg, dns.exchanged w' = dns.exchanged w ++ [(msg, dns.Server result)]).
Proof.
  destruct (Query_run lib c domain recordType server w)
    as [(e1 & -> & Hcase) | (fs & qt & Hd & Ht & Hs & _ & Heq)].
  - simpl. left. split; [done |].
    destruct Hcase as [Hd | [[_ Ht] | (_ & _ & Hs)]].
    + split; [by apply ValidateDomain_input in Hd |]. split; [done |]. by left.
    + split; [by apply ValidateRecordType_input in Ht |]. split; [done |]. right. by left.
    + split; [by apply prepareServer_input in Hs |]. split; [done |]. right. right. eauto.
  - cbv zeta in Heq. rewrite Heq.
    match goal with |- context [dns.interpretExchange ?l ?d ?u ?f ?r ?x] =>
      pose proof (interpretExchange_Server l d u f r x) as Hsrv;
      destruct (dns.interpretExchange l d u f r x) as [r0 e0]
    end.
    simpl in Hsrv. right. rewrite Hsrv.
    split; [done |]. split; [done |]. split; [done |]. eexists. reflexivity.
Qed.

(** C2 as the code has it.  [Query] attempts an exchange exactly when the
    domain and the record type are valid and the server is accepted.  When
    it fails before, it leaves the world as it was, returns an Input error,
    and the server of the result is the server argument as given.
    Otherwise the server of the result is the address with which the one
    exchange is attempted, whatever fails afterwards.  For a server that was
    given, that address splits into a host and a port that pass the two
    validators: it is the server as given, which had a port, or the given
    IP literal with the port 53, between brackets when it has a colon.  For
    the empty server it is "8.8.8.8:53" when the configuration of the system
    lists no server, and the first listed server followed by ":53" when that
    server has no colon, which splits into that server and 53 when the
    server is not empty and has no bracket. *)
Theorem Query_server_field lib c domain recordType server w :
  let '(result, e, w') := dns.Query lib c domain recordType server w in
  ((∃ msg fs, dns.exchanged w' = dns.exchanged w ++ [(msg, fs)])
   ↔ errors.ValidateDomain domain = None
     ∧ errors.ValidateRecordType lib recordType = None
     ∧ ∃ fs, dns.prepareServer w server = inr fs)
  ∧ ((w' = w
      ∧ errors.IsInputError e = true
      ∧ dns.Server result = server
      ∧ (errors.ValidateDomain domain = e
         ∨ errors.ValidateRecordType lib recordType = e
         ∨ ∃ e0, dns.prepareServer w server = inl e0 ∧ e = Some e0))
     ∨ (errors.ValidateDomain domain = None
        ∧ errors.ValidateRecordType lib recordType = None
        ∧ dns.prepareServer w server = inr (dns.Server result)
        ∧ (∃ msg, dns.exchanged w' = dns.exchanged w ++ [(msg, dns.Server result)])
        ∧ (server ≠ "" →
           ∃ host port,
             net.SplitHostPort (dns.Server result) = inl (host, port)
             ∧ errors.ValidateDNSServer host = None
             ∧ errors.ValidateDNSPort port = None
             ∧ (dns.Server result = server
                ∨ (host = server ∧ port = "53"
                   ∧ dns.Server result
                     = if strings.Contains server ":" then "[" +:+ server +:+ "]:53"
                       else server +:+ ":53")))
        ∧ (server = "" →
           match dns.ClientConfigFromFile w
                   (if String.eqb (dns.GOOS w) "windows" then "" else "/etc/resolv.conf") with
           | inl (first :: _) =>
               strings.Contains first ":" = false →
               dns.Server result = first +:+ ":53"
               ∧ (first ≠ "" → strings.Contains first "[" = false →
                  strings.Contains first "]" = false →
                  net.SplitHostPort (dns.Server result) = inl (first, "53"))
           | _ =>
               dns.Server result = "8.8.8.8:53"
               ∧ net.SplitHostPort (dns.Server result) = inl ("8.8.8.8", "53")
               ∧ errors.ValidateDNSServer "8.8.8.8" = None
               ∧ errors.ValidateDNSPort "53" = None
           end))).
Proof.
  pose proof (Query_server_cases lib c domain recordType server w) as Hcases.
  destruct (dns.Query lib c domain recordType server w) as [[result e] w'] eqn:HQ.
  split.
  - split.
    + intros (msg & fs & Hlog).
      destruct (Query_exchanged _ _ _ _ _ _ _ _ _ _ _ HQ Hlog) as (Hd & Ht & Hs & _).
      eauto.
    + intros (Hd & Ht & fs & Hs).
      destruct Hcases as [(_ & He & _ & Hwhy) | (_ & _ & _ & msg & Hlog)]; [| eauto].
      destruct Hwhy as [H | [H | (e0 & H & _)]]; [| | congruence].
      * rewrite <- H, Hd in He. discriminate He.
      * rewrite <- H, Ht in He. discriminate He.
  - destruct Hcases as [Hearly | (Hd & Ht & Hs & Hlog)]; [by left | right].
    do 4 (split; [assumption |]). split.
    + intros Hne.
      destruct (prepareServer_given w server _ Hne Hs) as [Hsplit | [Hv Hfs]].
      * apply splitAndValidate_splits in Hsplit as (Hfs & host & port & Hsp & Hh & Hp).
        exists host, port. rewrite Hfs. repeat (split; [assumption |]). by left.
      * exists server, "53". rewrite Hfs.
        split; [by apply literal_address |]. split; [assumption |]. split; [reflexivity |].
        by right.
    + intros ->. rewrite prepareServer_of_system in Hs. injection Hs as Hs.
      destruct (dns.ClientConfigFromFile w _) as [[|first rest]|].
      * rewrite <- Hs. by repeat split.
      * intros Hc. split; [done |]. intros Hne Hl Hr. rewrite <- Hs.
        by apply SplitHostPort_plain.
      * rewrite <- Hs. by repeat split.
Qed.
